(** * learning_jax: the tutorial notebooks, embedded and checked

    The repository is a set of Jupyter notebooks on JAX.  This
    development has two layers.

    - The notebooks themselves are embedded as data ([Py], [Notebooks]):
      every code cell is transcribed into a small abstract syntax of the
      Python it contains.  What the cells define, reference, call or
      leave commented out is settled by analyses that run on that
      syntax: a run of the cells that tracks which names are bound and
      which cell bound them last, and a scan that follows the calls of
      the cells into the functions of the notebook and records which
      ones are traced, and by which transformation.
    - The functions the notebooks define and that compute something are
      embedded as Rocq functions over a model of the values they work
      on: [convolve] and its two batched versions ([Arrays]),
      [tree_transpose] ([Pytree]), [special_flatten] and
      [special_unflatten] ([Special]), [straight_through_f]
      ([StraightThrough]), the branching [f] given to [jit] ([Jit]),
      the loops written in Python ([ControlFlow]), the two checks for a
      positive even number ([PositiveEven]), the chain of layers [f]
      ([Checkpoint]), and [init_mlp_params] and [forward] ([MLP]).

    The definitions come first, the theorems after them. *)

From Stdlib Require Import ZArith SpecFloat.
From stdpp Require Import gmap strings list sorting.

Open Scope string_scope.
Open Scope list_scope.

#[global] Set Warnings "-register-all".

(** * Python syntax of the code cells *)

Module Py.

(** A formal parameter: plain, [*args] or [**kwargs]. *)
Inductive param :=
  | P (x : string)
  | PStar (x : string)
  | PDStar (x : string).

(** Expressions.  Literals keep their source text.  [Kw], [DStar] and
    [Star] only occur in argument lists (keyword argument, [**e], [*e]);
    [KV] only occurs in a dictionary display; [Slice] only occurs in an
    index list.  An f-string is [FStr] of its literal and formatted
    parts (a format specification is kept as [Kw ":spec" e]). *)
Inductive expr :=
  | Name (x : string)
  | Num (lit : string)
  | Str (s : string)
  | Const (c : string)
  | Attr (e : expr) (a : string)
  | Call (f : expr) (args : list expr)
  | Kw (k : string) (e : expr)
  | DStar (e : expr)
  | Star (e : expr)
  | Op (o : string) (es : list expr)
  | Index (e : expr) (idx : list expr)
  | Slice (lo hi : option expr)
  | Lam (ps : list param) (body : expr)
  | ListLit (es : list expr)
  | TupleLit (es : list expr)
  | DictLit (es : list expr)
  | KV (k v : expr)
  | FStr (parts : list expr)
  | ListComp (elt target iter : expr).

(** Statements.  [Magic] is an IPython magic: a line magic has no body,
    a cell magic ([%%timeit]) has the rest of the cell as its body.
    [Import m b] is [import m] or [import m as b]; [b] is the name it
    binds.  Return annotations of definitions are not kept. *)
Inductive stmt :=
  | Import (module bound : string)
  | FromImport (module : string) (names : list string)
  | Assign (target value : expr)
  | Ann (target annotation : expr)
  | Expr (e : expr)
  | Return (e : expr)
  | Assert (test : expr)
  | Raise (e : expr)
  | Def (name : string) (decorators : list expr) (ps : list param)
        (body : list stmt)
  | Class (name : string) (decorators bases : list expr) (body : list stmt)
  | For (target iter : expr) (body : list stmt)
  | While (test : expr) (body : list stmt)
  | If (test : expr) (body orelse : list stmt)
  | Magic (line : string) (body : list stmt).

(** A code cell: the line of the source file where its source starts,
    the statements it runs, and the statements it only shows in comments
    (a cell whose whole code is commented out). *)
Record cell := {
  cell_line : nat;
  live : list stmt;
  commented : list stmt
}.

Definition code (line : nat) (ss : list stmt) : cell :=
  {| cell_line := line; live := ss; commented := [] |}.

Definition commented_out (line : nat) (ss : list stmt) : cell :=
  {| cell_line := line; live := []; commented := ss |}.

Record notebook := {
  nb_file : string;
  nb_start : nat;
  nb_cells : list cell
}.

(** ** Names *)

Definition param_name (p : param) : string :=
  match p with P x | PStar x | PDStar x => x end.

Definition mem (x : string) (l : list string) : bool :=
  existsb (String.eqb x) l.

(** [without bound l]: the names of [l] that are not in [bound]. *)
Definition without (bound l : list string) : list string :=
  filter (fun x => mem x bound = false) l.

(** Names an assignment to the target [t] binds. *)
Fixpoint bound_target (t : expr) : list string :=
  match t with
  | Name x => [x]
  | TupleLit es | ListLit es => flat_map bound_target es
  | Star e => bound_target e
  | _ => []
  end.

Definition opt_list {A} (f : expr -> list A) (o : option expr) : list A :=
  match o with Some e => f e | None => [] end.

(** Names an expression references, in evaluation order.  A lambda's
    parameters and a comprehension's target are bound inside it. *)
Fixpoint free_expr (e : expr) : list string :=
  match e with
  | Name x => [x]
  | Num _ | Str _ | Const _ => []
  | Attr e _ | Kw _ e | DStar e | Star e => free_expr e
  | Call f args => free_expr f ++ flat_map free_expr args
  | Op _ es | ListLit es | TupleLit es | DictLit es | FStr es =>
      flat_map free_expr es
  | Index e idx => free_expr e ++ flat_map free_expr idx
  | Slice lo hi => opt_list free_expr lo ++ opt_list free_expr hi
  | Lam ps body => without (map param_name ps) (free_expr body)
  | KV k v => free_expr k ++ free_expr v
  | ListComp elt target iter =>
      free_expr iter ++ without (bound_target target) (free_expr elt)
  end.

(** Names an expression loads when it is evaluated: as [free_expr], but
    the body of a lambda is not evaluated. *)
Fixpoint eval_loads (e : expr) : list string :=
  match e with
  | Name x => [x]
  | Num _ | Str _ | Const _ | Lam _ _ => []
  | Attr e _ | Kw _ e | DStar e | Star e => eval_loads e
  | Call f args => eval_loads f ++ flat_map eval_loads args
  | Op _ es | ListLit es | TupleLit es | DictLit es | FStr es =>
      flat_map eval_loads es
  | Index e idx => eval_loads e ++ flat_map eval_loads idx
  | Slice lo hi => opt_list eval_loads lo ++ opt_list eval_loads hi
  | KV k v => eval_loads k ++ eval_loads v
  | ListComp elt target iter =>
      eval_loads iter ++ without (bound_target target) (eval_loads elt)
  end.

(** Names an assignment to the target [t] loads: [a.x = v] and
    [a[i] = v] read [a] (and [i]); a plain name reads nothing.  [L]
    gives the names of an expression ([free_expr] or [eval_loads]). *)
Fixpoint target_loads (L : expr -> list string) (t : expr) : list string :=
  match t with
  | TupleLit es | ListLit es => flat_map (target_loads L) es
  | Star e => target_loads L e
  | Attr e _ => L e
  | Index e idx => L e ++ flat_map L idx
  | _ => []
  end.

(** Names a statement binds in the scope that runs it.  The body of a
    definition or of a class is another scope. *)
Fixpoint binds (s : stmt) : list string :=
  match s with
  | Import _ b => [b]
  | FromImport _ ns => ns
  | Assign t _ => bound_target t
  | Def n _ _ _ | Class n _ _ _ => [n]
  | For t _ body => bound_target t ++ flat_map binds body
  | While _ body | Magic _ body => flat_map binds body
  | If _ body orelse => flat_map binds body ++ flat_map binds orelse
  | Ann _ _ | Expr _ | Return _ | Assert _ | Raise _ => []
  end.

Definition is_def (s : stmt) : bool :=
  match s with Def _ _ _ _ => true | _ => false end.

(** Names the expressions of a statement hold (not those of its body):
    the value of an assignment before its target, the decorators of a
    definition, the decorators and bases of a class, the iterable of a
    loop, the test of a branch. *)
Definition own_loads (L : expr -> list string) (s : stmt) : list string :=
  match s with
  | Import _ _ | FromImport _ _ | Magic _ _ => []
  | Assign t v => L v ++ target_loads L t
  | Ann t a => target_loads L t ++ L a
  | Expr e | Return e | Assert e | Raise e => L e
  | Def _ decorators _ _ => flat_map L decorators
  | Class _ decorators bases _ => flat_map L decorators ++ flat_map L bases
  | For t iter _ => L iter ++ target_loads L t
  | While test _ | If test _ _ => L test
  end.

(** Names a statement references from the scope that runs it: those of
    its own expressions, and the free names of its body.  The free names
    of a function body are those that are neither parameters nor bound
    in the body.  In a class body the names the class binds are local to
    the statements of the class, not to its methods. *)
Fixpoint refs (s : stmt) : list string :=
  own_loads free_expr s ++
  match s with
  | Def _ _ ps body =>
      without (map param_name ps ++ flat_map binds body) (flat_map refs body)
  | Class _ _ _ body =>
      flat_map (fun s' => if is_def s' then refs s'
                          else without (flat_map binds body) (refs s')) body
  | For t _ body => without (bound_target t) (flat_map refs body)
  | While _ body | Magic _ body => flat_map refs body
  | If _ body orelse => flat_map refs body ++ flat_map refs orelse
  | _ => []
  end.

(** ** Running a notebook: which names are bound

    A run keeps the set of names bound in the notebook's global
    namespace.  Loading a name that is not bound is Python's
    [NameError].  A definition binds its name without running its body,
    and a lambda is a value whose body does not run either.  With
    [strict] the free names of these bodies must be bound already when
    the definition or the lambda is reached (so that no later call can
    fail on them); without it the bodies are not looked at.  The body of
    a loop or of a branch at top level is run once, in order. *)

Inductive outcome :=
  | Done (env : gset string)
  | NameError (x : string).

(** The first of the names [xs] that is not bound in [env]. *)
Definition unbound (env : gset string) (xs : list string) : option string :=
  List.find (fun x => bool_decide (x ∉ env)) xs.

Definition check (env : gset string) (xs : list string) (k : outcome) : outcome :=
  match unbound env xs with
  | Some x => NameError x
  | None => k
  end.

Definition bind (env : gset string) (xs : list string) : gset string :=
  env ∪ list_to_set xs.

(** Free names of the body of a definition. *)
Definition body_free (ps : list param) (body : list stmt) : list string :=
  without (map param_name ps ++ flat_map binds body) (flat_map refs body).

(** Names of an expression that a run looks up. *)
Definition loads_of (strict : bool) : expr -> list string :=
  if strict then free_expr else eval_loads.

(** Names the body of a class loads when the class statement runs: the
    statements of the body that are not methods, and the decorators of
    the methods; with [strict], the free names of the methods too. *)
Definition class_body_loads (strict : bool) (body : list stmt) : list string :=
  flat_map (fun s =>
    match s with
    | Def _ _ ps b =>
        own_loads (loads_of strict) s ++ (if strict then body_free ps b else [])
    | _ =>
        without (flat_map binds body)
                (if strict then refs s else own_loads eval_loads s)
    end) body.

Fixpoint exec (strict : bool) (env : gset string) (s : stmt) : outcome :=
  let seq :=
    fix seq (ss : list stmt) (env : gset string) : outcome :=
      match ss with
      | [] => Done env
      | s' :: ss' =>
          match exec strict env s' with
          | Done env' => seq ss' env'
          | NameError x => NameError x
          end
      end in
  check env (own_loads (loads_of strict) s)
    match s with
    | Def n _ ps body =>
        check (bind env [n]) (if strict then body_free ps body else [])
          (Done (bind env [n]))
    | Class n _ _ body =>
        check env (class_body_loads strict body) (Done (bind env [n]))
    | For t _ body => seq body (bind env (bound_target t))
    | While _ body | Magic _ body => seq body env
    | If _ body orelse =>
        match seq body env with
        | Done env' => seq orelse env'
        | NameError x => NameError x
        end
    | _ => Done (bind env (binds s))
    end.

Fixpoint exec_seq (strict : bool) (env : gset string) (ss : list stmt) : outcome :=
  match ss with
  | [] => Done env
  | s :: ss' =>
      match exec strict env s with
      | Done env' => exec_seq strict env' ss'
      | NameError x => NameError x
      end
  end.

(** Names of Python's built-in functions and types: bound before the
    first cell runs. *)
Definition builtins : list string :=
  [ "abs"; "aiter"; "all"; "anext"; "any"; "ascii"; "bin"; "bool";
    "breakpoint"; "bytearray"; "bytes"; "callable"; "chr"; "classmethod";
    "compile"; "complex"; "delattr"; "dict"; "dir"; "divmod"; "enumerate";
    "eval"; "exec"; "filter"; "float"; "format"; "frozenset"; "getattr";
    "globals"; "hasattr"; "hash"; "help"; "hex"; "id"; "input"; "int";
    "isinstance"; "issubclass"; "iter"; "len"; "list"; "locals"; "map";
    "max"; "memoryview"; "min"; "next"; "object"; "oct"; "open"; "ord";
    "pow"; "print"; "property"; "range"; "repr"; "reversed"; "round";
    "set"; "setattr"; "slice"; "sorted"; "staticmethod"; "str"; "sum";
    "super"; "tuple"; "type"; "vars"; "zip"; "__import__" ].

Definition fresh : gset string := list_to_set builtins.

(** Result of running a notebook's cells in order: the final namespace,
    or the cell (by its source line) that stops with a [NameError] and
    the name it could not load. *)
Inductive run_result :=
  | Ran (env : gset string)
  | Stopped (line : nat) (x : string).

Fixpoint run_cells (strict : bool) (env : gset string) (cs : list cell)
    : run_result :=
  match cs with
  | [] => Ran env
  | c :: cs' =>
      match exec_seq strict env (live c) with
      | Done env' => run_cells strict env' cs'
      | NameError x => Stopped (cell_line c) x
      end
  end.

(** A notebook run in a fresh interpreter. *)
Definition run (strict : bool) (nb : notebook) : run_result :=
  run_cells strict fresh (nb_cells nb).

Definition ran (r : run_result) : bool :=
  match r with Ran _ => true | Stopped _ _ => false end.

(** The notebook without its cell at source line [line]. *)
Definition drop_cell (line : nat) (nb : notebook) : notebook :=
  {| nb_file := nb_file nb;
     nb_start := nb_start nb;
     nb_cells := List.filter (fun c => negb (Nat.eqb (cell_line c) line))
                             (nb_cells nb) |}.

(** ** Traversals *)

(** An expression and all the expressions inside it. *)
Fixpoint subexprs (e : expr) : list expr :=
  e ::
  match e with
  | Name _ | Num _ | Str _ | Const _ => []
  | Attr e _ | Kw _ e | DStar e | Star e | Lam _ e => subexprs e
  | Call f args => subexprs f ++ flat_map subexprs args
  | Op _ es | ListLit es | TupleLit es | DictLit es | FStr es =>
      flat_map subexprs es
  | Index e idx => subexprs e ++ flat_map subexprs idx
  | Slice lo hi => opt_list subexprs lo ++ opt_list subexprs hi
  | KV k v => subexprs k ++ subexprs v
  | ListComp elt target iter =>
      subexprs elt ++ subexprs target ++ subexprs iter
  end.

(** A statement and all the statements inside it. *)
Fixpoint substmts (s : stmt) : list stmt :=
  s ::
  match s with
  | Def _ _ _ body | Class _ _ _ body | For _ _ body | While _ body
  | Magic _ body => flat_map substmts body
  | If _ body orelse => flat_map substmts body ++ flat_map substmts orelse
  | _ => []
  end.

(** The expressions a statement holds itself (not those of its body). *)
Definition own_exprs (s : stmt) : list expr :=
  match s with
  | Import _ _ | FromImport _ _ | Magic _ _ => []
  | Assign t v => [t; v]
  | Ann t a => [t; a]
  | Expr e | Return e | Assert e | Raise e => [e]
  | Def _ decorators _ _ => decorators
  | Class _ decorators bases _ => decorators ++ bases
  | For t iter _ => [t; iter]
  | While test _ | If test _ _ => [test]
  end.

(** Every expression that occurs in the statements [ss], at any depth. *)
Definition exprs_of (ss : list stmt) : list expr :=
  flat_map subexprs (flat_map own_exprs (flat_map substmts ss)).

(** The statements a notebook runs, in order. *)
Definition live_code (nb : notebook) : list stmt :=
  flat_map live (nb_cells nb).

(** The statements a notebook only shows in comments. *)
Definition commented_code (nb : notebook) : list stmt :=
  flat_map commented (nb_cells nb).

(** The rightmost identifier of a name or attribute: [jit] for both
    [jit] and [jax.jit]. *)
Definition last_name (e : expr) : option string :=
  match e with
  | Name x => Some x
  | Attr _ a => Some a
  | _ => None
  end.

(** The name an attribute chain or a call chain starts from: [jax] for
    [jax.checkpoint(g)(W1, x)]. *)
Fixpoint root (e : expr) : option string :=
  match e with
  | Name x => Some x
  | Attr e _ | Call e _ | Index e _ => root e
  | _ => None
  end.

(** Names bound by import statements. *)
Definition imported (ss : list stmt) : list string :=
  flat_map (fun s =>
    match s with
    | Import _ _ | FromImport _ _ => binds s
    | _ => []
    end) (flat_map substmts ss).

(** A call into an imported library: the callee starts from an imported
    name. *)
Definition is_api_call (imp : list string) (e : expr) : bool :=
  match e with
  | Call f _ =>
      match root f with
      | Some x => mem x imp
      | None => false
      end
  | _ => false
  end.

(** ** Functions the notebooks define *)

(** Every definition in [ss]: nested definitions and methods too. *)
Definition defs_of (ss : list stmt) : list stmt :=
  List.filter is_def (flat_map substmts ss).

Definition stmt_name (s : stmt) : string :=
  match s with
  | Def n _ _ _ | Class n _ _ _ => n
  | _ => ""
  end.

Definition def_params (s : stmt) : list string :=
  match s with
  | Def _ _ ps _ => map param_name ps
  | _ => []
  end.

Definition def_body (s : stmt) : list stmt :=
  match s with
  | Def _ _ _ body => body
  | _ => []
  end.

Definition is_control (s : stmt) : bool :=
  match s with
  | For _ _ _ | While _ _ | If _ _ _ => true
  | _ => false
  end.

(** The definition has a loop or a branch of its own. *)
Definition has_control_flow (d : stmt) : bool :=
  existsb is_control (flat_map substmts (def_body d)).

(** The body without its docstring. *)
Definition strip_doc (body : list stmt) : list stmt :=
  match body with
  | Expr (Str _) :: rest => rest
  | _ => body
  end.

(** The definition directly wraps one library call: its body is a single
    [return] of a call into an imported library. *)
Definition wraps_api_call (imp : list string) (d : stmt) : bool :=
  match strip_doc (def_body d) with
  | [Return e] => is_api_call imp e
  | _ => false
  end.

(** The statement is a direct library call or a print, as an expression
    statement or as the right-hand side of an assignment; imports and
    magics are let through. *)
Definition direct_stmt (imp : list string) (s : stmt) : bool :=
  match s with
  | Import _ _ | FromImport _ _ | Magic _ [] => true
  | Expr e | Assign _ e => is_api_call ("print" :: imp) e
  | _ => false
  end.

Definition direct_cell (imp : list string) (c : cell) : bool :=
  forallb (direct_stmt imp) (live c).

(** ** Library transformations *)

Definition transformations : list string :=
  [ "grad"; "jit"; "vmap"; "jacfwd"; "jacrev"; "checkpoint";
    "register_pytree_node" ].

(** ** Data that goes from one cell to a later one *)










(** ** How long a value stays

    No cell deletes a name (the notebooks have no [del]), so a value
    stays in the namespace until a statement binds its name again.  The
    namespace is kept as the map from every bound name to the line of
    the cell that bound it last. *)




(** The notebook as it ran: the cell at line 66 of
    [src/unnamed/part_000] has no execution count and stops on an
    unbound name, so it has bound nothing. *)
Definition as_run (nb : notebook) : notebook :=
  if String.eqb (nb_file nb) "src/unnamed/part_000" then drop_cell 66 nb else nb.






(** ** Checks in the code *)

(** Statements that enforce something at run time. *)
Definition enforces (s : stmt) : bool :=
  match s with
  | Assert _ | Raise _ => true
  | _ => false
  end.

(** Pairs of functions handed to [register_pytree_node] as the
    flattening and the unflattening recipe of a class:
    (class, flatten, unflatten). *)
Definition registered_pairs (ss : list stmt) : list (string * string * string) :=
  flat_map (fun e =>
    match e with
    | Call f [Name c; Name fl; Name unfl] =>
        match last_name f with
        | Some "register_pytree_node" => [(c, fl, unfl)]
        | _ => []
        end
    | _ => []
    end) (exprs_of ss).

(** ** Functions compiled with [jit] *)



(** The names an application of [jit] declares static with
    [static_argnames] (the notebooks do not use [static_argnums]). *)
Definition static_names (args : list expr) : list string :=
  flat_map (fun a =>
    match a with
    | Kw "static_argnames" (Str x) => [x]
    | Kw "static_argnames" (ListLit es | TupleLit es) =>
        flat_map (fun e => match e with Str x => [x] | _ => [] end) es
    | _ => []
    end) args.













(** ** Tracing: what becomes of a tracer

    [jit], [vmap], [checkpoint] and [make_jaxpr] run the function they
    wrap on tracers: every parameter that is not declared static holds
    a tracer, and so does every value computed from one.  The shape of
    a tracer is static.  Python cannot convert a tracer to a boolean or
    to an integer: an [if] or [while] test, an operand of [and], [or] or
    [not], and an argument of [bool], [int], [float] or [range] that
    holds one raises.  [grad] and its relatives run the function on the
    actual numbers when they are not themselves under one of the
    former, so a test is harmless there.

    The scan below follows a run of the cells: it keeps the functions
    the names are bound to, enters the body of a function where it is
    called (with the parameters that hold tracers), and, to be on the
    safe side, also where it is wrapped.  It takes a value for a tracer
    as soon as a traced name is mentioned in the expression that
    computes it, and it takes every function handed to any other
    library call as run on tracers. *)

(** How a function value was made: as it was defined, or wrapped by a
    transformation that traces it; the names are the arguments declared
    static. *)
Inductive wrap :=
  | Plain
  | Abstract (static : list string).

(** What a name or an expression is known to hold: a function or a
    class of the notebook, a list of such things, or anything else. *)
Inductive closure :=
  | Unknown
  | Fn (d : stmt) (w : wrap)
  | Several (cs : list closure).

Definition closures := list (string * closure).

Fixpoint closure_of_name (x : string) (V : closures) : closure :=
  match V with
  | [] => Unknown
  | (y, c) :: V' => if String.eqb x y then c else closure_of_name x V'
  end.

(** Transformations that trace the function they wrap. *)
Definition abstract_wrappers : list string :=
  [ "jit"; "vmap"; "pmap"; "checkpoint"; "remat"; "make_jaxpr"; "eval_shape" ].

(** Transformations that run it on the numbers they are called with. *)
Definition concrete_wrappers : list string :=
  [ "grad"; "value_and_grad"; "jacfwd"; "jacrev"; "hessian" ].

(** Builtins that need an actual number. *)
Definition concretizing : list string :=
  [ "bool"; "int"; "float"; "complex"; "range" ].

Definition static_attributes : list string :=
  [ "shape"; "ndim"; "dtype"; "size" ].

Definition static_calls : list string :=
  [ "len"; "type"; "isinstance"; "callable" ].

(** [f] is one of [names], reached through an imported name. *)
Definition library (imp names : list string) (f : expr) : bool :=
  match last_name f, root f with
  | Some t, Some r => mem t names && mem r imp
  | _, _ => false
  end.

(** The value of [e] may hold a tracer: [e] mentions a traced name
    outside a static attribute or a static call. *)
Fixpoint tainted (T : list string) (e : expr) : bool :=
  match e with
  | Name x => mem x T
  | Num _ | Str _ | Const _ | Lam _ _ => false
  | Attr e a => if mem a static_attributes then false else tainted T e
  | Kw _ e | DStar e | Star e => tainted T e
  | Call f args =>
      match f with
      | Name b => if mem b static_calls then false
                  else mem b T || existsb (tainted T) args
      | _ => tainted T f || existsb (tainted T) args
      end
  | Op _ es | ListLit es | TupleLit es | DictLit es | FStr es =>
      existsb (tainted T) es
  | Index e idx => tainted T e || existsb (tainted T) idx
  | Slice lo hi =>
      match lo with Some e => tainted T e | None => false end ||
      match hi with Some e => tainted T e | None => false end
  | KV k v => tainted T k || tainted T v
  | ListComp elt target iter => tainted T iter || tainted T elt
  end.

(** The closure an expression evaluates to.  A call of a function of
    the notebook whose body is a single [return] is followed. *)
Fixpoint closure_of (fuel : nat) (imp : list string) (V : closures) (e : expr)
    : closure :=
  match fuel with
  | 0 => Unknown
  | S n =>
      match e with
      | Name x => closure_of_name x V
      | Lam ps body => Fn (Def "<lambda>" [] ps [Return body]) Plain
      | ListLit es | TupleLit es => Several (map (closure_of n imp V) es)
      | Call f (a :: args) =>
          if library imp abstract_wrappers f then
            match closure_of n imp V a with
            | Fn d _ => Fn d (Abstract (static_names args))
            | c => c
            end
          else if library imp concrete_wrappers f then closure_of n imp V a
          else
            match closure_of n imp V f with
            | Fn (Def _ _ ps body) Plain =>
                match strip_doc body with
                | [Return r] =>
                    closure_of n imp
                      (zip_with (fun p b => (param_name p, closure_of n imp V b))
                                ps (a :: args) ++ V) r
                | _ => Unknown
                end
            | _ => Unknown
            end
      | _ => Unknown
      end
  end.

(** The expressions an assignment to the target [t] evaluates. *)
Fixpoint target_exprs (t : expr) : list expr :=
  match t with
  | TupleLit es | ListLit es => flat_map target_exprs es
  | Star e => target_exprs e
  | Attr e _ => [e]
  | Index e idx => e :: idx
  | _ => []
  end.

(** What a scan reports: a function whose body converts a tracer, and a
    transformation applied, in code that runs, to a function or class of
    the notebook. *)
Inductive event :=
  | Converted (fn : string)
  | Applied (t fn : string).

Fixpoint functions_of (c : closure) : list stmt :=
  match c with
  | Unknown => []
  | Fn d _ => [d]
  | Several cs => flat_map functions_of cs
  end.

Section Scan.
Variable imp : list string.
(** [call runs V T d]: the events of the body of [d], with the names [T]
    traced; [runs] tells whether the body is run or only checked. *)
Variable call : bool -> closures -> list string -> stmt -> list event.
Variable value : closures -> expr -> closure.

(** The function [c] is called with [args]. *)
Definition enter (runs : bool) (V : closures) (T : list string) (c : closure)
    (args : list expr) : list event :=
  match c with
  | Fn (Def n _ ps _ as d) w =>
      let params := map param_name ps in
      let traced :=
        match w with
        | Abstract static => without static params
        | Plain => if existsb (tainted T) args then params else []
        end in
      call runs
           (zip_with (fun p a => (param_name p, value V a)) ps args ++ V)
           (traced ++ without params T) d
  | _ => []
  end.

(** The elements of the arguments: lists are opened, keywords dropped. *)
Definition argument_values (args : list expr) : list expr :=
  flat_map (fun a =>
    match a with
    | ListLit es | TupleLit es => es
    | Kw _ e => [e]
    | _ => [a]
    end) args.

(** The functions among [args] are handed to a library call that is no
    wrapper: they are taken as run on tracers. *)
Definition handed (runs : bool) (V : closures) (T : list string)
    (args : list expr) : list event :=
  flat_map (fun a =>
    flat_map (fun d => call runs V (def_params d ++ T) d)
             (functions_of (value V a)))
    (argument_values args).

(** A wrapper is applied: the function it wraps is checked as if it were
    traced now. *)
Definition wrapped (V : closures) (T : list string) (f : expr)
    (args : list expr) : list event :=
  if library imp abstract_wrappers f then
    match args with
    | a :: rest =>
        flat_map (fun d =>
          call false V (without (static_names rest) (def_params d) ++ T) d)
          (functions_of (value V a))
    | [] => []
    end
  else [].

(** A transformation is applied to a function or class of the
    notebook. *)
Definition application (runs : bool) (V : closures) (f : expr)
    (args : list expr) : list event :=
  if runs && library imp transformations f then
    match last_name f, args with
    | Some t, a :: _ =>
        map (fun d => Applied t (stmt_name d)) (functions_of (value V a))
    | _, _ => []
    end
  else [].

(** The events of evaluating [e] in the body of the function [owner]. *)
Fixpoint scan_expr (runs : bool) (owner : string) (V : closures)
    (T : list string) (e : expr) : list event :=
  match e with
  | Name _ | Num _ | Str _ | Const _ | Lam _ _ => []
  | Attr e _ | Kw _ e | DStar e | Star e => scan_expr runs owner V T e
  | Op o es =>
      (if mem o ["and"; "or"; "not"] && existsb (tainted T) es
       then [Converted owner] else []) ++
      flat_map (scan_expr runs owner V T) es
  | Call f args =>
      scan_expr runs owner V T f ++
      flat_map (scan_expr runs owner V T) args ++
      match f with
      | Name b => if mem b concretizing && existsb (tainted T) args
                  then [Converted owner] else []
      | _ => []
      end ++
      application runs V f args ++
      if library imp (abstract_wrappers ++ concrete_wrappers) f
      then wrapped V T f args
      else
        match value V f with
        | Unknown => if is_api_call imp e then handed runs V T args else []
        | c => enter runs V T c args
        end
  | ListLit es | TupleLit es | DictLit es | FStr es =>
      flat_map (scan_expr runs owner V T) es
  | Index e idx =>
      scan_expr runs owner V T e ++ flat_map (scan_expr runs owner V T) idx
  | Slice lo hi =>
      match lo with Some e => scan_expr runs owner V T e | None => [] end ++
      match hi with Some e => scan_expr runs owner V T e | None => [] end
  | KV k v => scan_expr runs owner V T k ++ scan_expr runs owner V T v
  | ListComp elt target iter =>
      scan_expr runs owner V T iter ++
      scan_expr runs owner V
        (if tainted T iter then bound_target target ++ T else T) elt
  end.

(** A test converts its value to a boolean. *)
Definition scan_test (runs : bool) (owner : string) (V : closures)
    (T : list string) (test : expr) : list event :=
  (if tainted T test then [Converted owner] else []) ++
  scan_expr runs owner V T test.

(** The state of a scan: the closures bound, the traced names, and the
    events so far. *)
Definition scan_state : Type := closures * list string * list event.

(** The decorators of a definition: the wrap they give it. *)
Definition decorated (decorators : list expr) : wrap :=
  if existsb (library imp abstract_wrappers) decorators then Abstract []
  else Plain.

(** A statement in the body of [owner].  The body of a loop is scanned
    once more than it binds names, so that a tracer reaches every name
    it can reach; the two branches of an [if] are scanned one after the
    other. *)
Fixpoint scan_stmt (runs : bool) (owner : string) (st : scan_state) (s : stmt)
    : scan_state :=
  let seq :=
    fix seq (ss : list stmt) (st : scan_state) : scan_state :=
      match ss with
      | [] => st
      | s' :: ss' => seq ss' (scan_stmt runs owner st s')
      end in
  let '(V, T, E) := st in
  match s with
  | Import _ _ | FromImport _ _ | Ann _ _ | Magic _ [] =>
      (map (fun x => (x, Unknown)) (binds s) ++ V, T, E)
  | Assign t v =>
      let V' :=
        match t, v with
        | Name x, Lam ps body => (x, Fn (Def x [] ps [Return body]) Plain) :: V
        | Name x, _ => (x, value V v) :: V
        | _, _ => map (fun x => (x, Unknown)) (bound_target t) ++ V
        end in
      (V', if tainted T v then bound_target t ++ T else T,
       E ++ scan_expr runs owner V T v ++
       flat_map (scan_expr runs owner V T) (target_exprs t))
  | Expr e | Return e | Assert e | Raise e =>
      (V, T, E ++ scan_expr runs owner V T e)
  | Def n decorators ps body =>
      let w := decorated decorators in
      ((n, Fn s w) :: V, T,
       E ++ flat_map (scan_expr runs owner V T) decorators ++
       (if runs then
          flat_map (fun d =>
            match last_name d with
            | Some t => if library imp transformations d
                        then [Applied t n] else []
            | None => []
            end) decorators
        else []) ++
       match w with
       | Abstract _ => call false V (map param_name ps ++ T) s
       | Plain => []
       end)
  | Class n decorators bases _ =>
      ((n, Fn s Plain) :: V, T,
       E ++ flat_map (scan_expr runs owner V T) (decorators ++ bases))
  | For t iter body =>
      Nat.iter (S (length (flat_map binds body))) (seq body)
        (V, if tainted T iter then bound_target t ++ T else T,
         E ++ scan_expr runs owner V T iter)
  | While test body =>
      Nat.iter (S (length (flat_map binds body)))
        (fun st => let '(V', T', E') := seq body st in
                   (V', T', E' ++ scan_test runs owner V' T' test))
        (V, T, E ++ scan_test runs owner V T test)
  | If test body orelse =>
      seq orelse (seq body (V, T, E ++ scan_test runs owner V T test))
  | Magic _ body => seq body (V, T, E)
  end.

Fixpoint scan_seq (runs : bool) (owner : string) (st : scan_state)
    (ss : list stmt) : scan_state :=
  match ss with
  | [] => st
  | s :: ss' => scan_seq runs owner (scan_stmt runs owner st s) ss'
  end.

End Scan.

(** The events of the body of [d]; calls are followed to the depth
    [fuel], and a call beyond it counts as a conversion. *)
Fixpoint scan_def (fuel : nat) (imp : list string) (runs : bool) (V : closures)
    (T : list string) (d : stmt) : list event :=
  match fuel with
  | 0 => [Converted "<depth>"]
  | S n =>
      (scan_seq imp (scan_def n imp) (closure_of n imp) runs (stmt_name d)
                (V, T, []) (def_body d)).2
  end.

(** Nesting of calls the scan follows. *)
Definition depth : nat := 12.

(** The scan of a notebook, cell by cell: for every cell its line, the
    events of the statements it runs, and the events the statements it
    only shows in comments would add if they ran after them. *)
Fixpoint scan_cells (imp : list string) (V : closures) (cs : list cell)
    : list (nat * list event * list event) :=
  match cs with
  | [] => []
  | c :: cs' =>
      let '(V', _, E) :=
        scan_seq imp (scan_def depth imp) (closure_of depth imp) true "<cell>"
                 (V, [], []) (live c) in
      let '(_, _, E') :=
        scan_seq imp (scan_def depth imp) (closure_of depth imp) true "<cell>"
                 (V', [], []) (commented c) in
      (cell_line c, E, E') :: scan_cells imp V' cs'
  end.

(** [extra] are names taken as imported besides those the notebook
    imports. *)
Definition scan_with (extra : list string) (nb : notebook)
    : list (nat * list event * list event) :=
  scan_cells (extra ++ imported (live_code nb ++ commented_code nb)) []
             (nb_cells nb).

Definition scan (nb : notebook) : list (nat * list event * list event) :=
  scan_with [] nb.




(** The transformations the cells of [nb] apply, when they run, to
    functions and classes of the notebook: (transformation, function),
    once each, in the order of the run.  Commented-out cells do not
    count, nor do applications in a function that no cell calls. *)
Definition applied (nb : notebook) : list (string * string) :=
  remove_dups (flat_map (fun '(_, E, _) =>
    flat_map (fun ev =>
      match ev with Applied t fn => [(t, fn)] | Converted _ => [] end) E)
    (scan nb)).

(** The names a function calls: the last name of every callee in its
    body. *)
Definition callees (d : stmt) : list string :=
  remove_dups (flat_map (fun e =>
    match e with
    | Call f _ => match last_name f with Some x => [x] | None => [] end
    | _ => []
    end) (exprs_of (def_body d))).


End Py.

(** * The notebooks

    Five source files hold seven notebooks: two files carry a second
    notebook after the first.  Markdown cells are left out; every code
    cell is here, empty ones included. *)

Module Notebooks.
Import Py.

(** [src/auto_vectorization.ipynb], the notebook that starts at line 1:
    manual and automatic vectorization. *)
Definition auto_vectorization : notebook :=
  {| nb_file := "src/auto_vectorization.ipynb";
     nb_start := 1;
     nb_cells := [
      code 27
      [ Import "jax" "jax";
        Import "jax.numpy" "jnp";
        Assign (Name "x") (Call (Attr (Name "jnp") "arange") [Num "5"]);
        Assign (Name "w") (Call (Attr (Name "jnp") "array") [ListLit [Num "2."; Num "3.";
            Num "4."]]);
        Def "convolve" [] [P "x"; P "w"]
          [ Assign (Name "output") (ListLit []);
            For (Name "i") (Call (Name "range") [Num "1"; Op "-" [Call (Name "len") [Name "x"];
                Num "1"]])
              [ Expr (Call (Attr (Name "output") "append") [Call (Attr (Name "jnp") "dot") [Index
                  (Name "x") [Slice (Some (Op "-" [Name "i"; Num "1"])) (Some (Op "+" [Name "i";
                  Num "2"]))]; Name "w"]]) ];
            Return (Call (Attr (Name "jnp") "array") [Name "output"]) ];
        Expr (Call (Name "convolve") [Name "x"; Name "w"]) ];
      code 67
      [ Assign (Name "xs") (Call (Attr (Name "jnp") "stack") [ListLit [Name "x"; Name "x"]]);
        Assign (Name "ws") (Call (Attr (Name "jnp") "stack") [ListLit [Name "w"; Name "w"]]);
        Def "manually_batched_convolve" [] [P "xs"; P "ws"]
          [ Assign (Name "output") (ListLit []);
            For (Name "i") (Call (Name "range") [Index (Attr (Name "xs") "shape") [Num "0"]])
              [ Expr (Call (Attr (Name "output") "append") [Call (Name "convolve") [Index
                  (Name "xs") [Name "i"]; Index (Name "ws") [Name "i"]]]) ];
            Return (Call (Attr (Name "jnp") "stack") [Name "output"]) ];
        Expr (Call (Name "manually_batched_convolve") [Name "xs"; Name "ws"]) ];
      code 97
      [ Def "manually_vectorized_convolve" [] [P "xs"; P "ws"]
          [ Assign (Name "output") (ListLit []);
            For (Name "i") (Call (Name "range") [Num "1";
                Op "-" [Index (Attr (Name "xs") "shape") [Num "1"]; Num "1"]])
              [ Expr (Call (Attr (Name "output") "append") [Call (Attr (Name "jnp") "sum")
                  [Op "*" [Index (Name "xs") [Slice (None) (None); Slice (Some (Op "-" [Name "i";
                  Num "1"])) (Some (Op "+" [Name "i"; Num "2"]))]; Name "ws"];
                  Kw "axis" (Num "1")]]) ];
            Return (Call (Attr (Name "jnp") "stack") [Name "output"; Kw "axis" (Num "1")]) ];
        Expr (Call (Name "manually_vectorized_convolve") [Name "xs"; Name "ws"]) ];
      code 132
      [ Assign (Name "auto_batch_convolve") (Call (Attr (Name "jax") "vmap") [Name "convolve"]);
        Expr (Call (Name "auto_batch_convolve") [Name "xs"; Name "ws"]) ];
      code 164
      [ Assign (Name "auto_batch_convolve2") (Call (Attr (Name "jax") "vmap") [Name "convolve";
          Kw "in_axes" (Num "1"); Kw "out_axes" (Num "1")]);
        Assign (Name "xst") (Call (Attr (Name "jnp") "transpose") [Name "xs"]);
        Assign (Name "wst") (Call (Attr (Name "jnp") "transpose") [Name "ws"]);
        Expr (Call (Name "auto_batch_convolve2") [Name "xst"; Name "wst"]) ];
      code 196
      [ Assign (Name "batch_convolve3") (Call (Attr (Name "jax") "vmap") [Name "convolve";
          Kw "in_axes" (ListLit [Num "0"; Const "None"])]);
        Expr (Call (Name "batch_convolve3") [Name "xs"; Name "w"]) ];
      code 225
      [ Assign (Name "jitted_batch_convolve") (Call (Attr (Name "jax") "jit") [Call (Attr
          (Name "jax") "vmap") [Name "convolve"]]);
        Expr (Call (Name "jitted_batch_convolve") [Name "xs"; Name "ws"]) ];
      code 234
      [] ] |}.

(** [src/auto_vectorization.ipynb], the notebook that starts at line 259:
    arrays, devices, random keys, jaxprs, grad and jit. *)
Definition jax_basics : notebook :=
  {| nb_file := "src/auto_vectorization.ipynb";
     nb_start := 259;
     nb_cells := [
      code 267
      [ Import "os" "os";
        Import "math" "math";
        Import "numpy" "np";
        Import "matplotlib.pyplot" "plt";
        Magic "matplotlib inline" [];
        Import "matplotlib" "matplotlib";
        FromImport "IPython.display" ["set_matplotlib_formats"];
        FromImport "matplotlib.colors" ["to_rgba"];
        Assign (Index (Attr (Name "matplotlib") "rcParams") [Str "lines.linewidth"]) (Num "2.0");
        Import "seaborn" "sns";
        Expr (Call (Attr (Name "sns") "set_context") [Str "talk"]);
        Expr (Call (Attr (Name "sns") "set_style") [Str "whitegrid"]);
        Import "time" "time";
        FromImport "tqdm.auto" ["tqdm"] ];
      code 306
      [ Import "jax" "jax";
        Import "jax.numpy" "jnp";
        Expr (Call (Name "print") [Str "jax version: "; Attr (Name "jax") "__version__"]) ];
      code 326
      [ Assign (Name "a") (Call (Attr (Name "jnp") "zeros") [TupleLit [Num "2"; Num "5"];
          Kw "dtype" (Attr (Name "jnp") "float32")]);
        Expr (Call (Name "print") [Name "a"]) ];
      code 346
      [ Assign (Name "b") (Call (Attr (Name "jnp") "arange") [Num "6"]);
        Expr (Call (Name "print") [Name "b"]) ];
      code 368
      [ Expr (Attr (Name "b") "__class__") ];
      code 395
      [ Expr (Call (Attr (Name "b") "devices") []) ];
      code 412
      [ Assign (Name "b_cpu") (Call (Attr (Name "jax") "device_get") [Name "b"]);
        Expr (Call (Name "print") [Attr (Name "b_cpu") "__class__"]) ];
      code 432
      [ Assign (Name "b_gpu") (Call (Attr (Name "jax") "device_put") [Name "b_cpu"]);
        Expr (Call (Name "print") [FStr [Str "Device Put:"; Attr (Name "b_gpu") "__class__";
            Str " on "; Call (Attr (Name "b_gpu") "devices") []]]) ];
      code 463
      [ Expr (Op "+" [Name "b_cpu"; Name "b_gpu"]) ];
      code 499
      [ Assign (Name "b_new") (Call (Attr (Index (Attr (Name "b") "at") [Num "0"]) "set")
          [Num "1"]);
        Expr (Call (Name "print") [Str "original array: "; Name "b"]);
        Expr (Call (Name "print") [Str "new array: "; Name "b_new"]) ];
      code 521
      [ Assign (Name "rng") (Call (Attr (Attr (Name "jax") "random") "PRNGKey") [Num "42"]) ];
      code 541
      [ Assign (Name "jax_random_number_1") (Call (Attr (Attr (Name "jax") "random") "normal")
          [Name "rng"]);
        Assign (Name "jax_random_number_2") (Call (Attr (Attr (Name "jax") "random") "normal")
            [Name "rng"]);
        Expr (Call (Name "print") [Str "JAX - Random Number 1: "; Name "jax_random_number_1"]);
        Expr (Call (Name "print") [Str "JAX - Random Number 2: "; Name "jax_random_number_2"]);
        Expr (Call (Attr (Attr (Name "np") "random") "seed") [Num "42"]);
        Assign (Name "np_random_number_1") (Call (Attr (Attr (Name "np") "random") "normal") []);
        Assign (Name "np_random_number_2") (Call (Attr (Attr (Name "np") "random") "normal") []);
        Expr (Call (Name "print") [Str "Numpy - Random Number 1: "; Name "np_random_number_1"]);
        Expr (Call (Name "print") [Str "Numpy - Random Number 2: "; Name "np_random_number_2"]) ];
      code 578
      [ Assign (TupleLit [Name "rng"; Name "subkey1";
          Name "subkey2"]) (Call (Attr (Attr (Name "jax") "random") "split") [Name "rng";
          Kw "num" (Num "3")]);
        Assign (Name "jax_random_number_1") (Call (Attr (Attr (Name "jax") "random") "normal")
            [Name "subkey1"]);
        Assign (Name "jax_random_number_2") (Call (Attr (Attr (Name "jax") "random") "normal")
            [Name "subkey2"]);
        Expr (Call (Name "print") [Str "JAX - Random Number 1: "; Name "jax_random_number_1"]);
        Expr (Call (Name "print") [Str "JAX - Random Number 2: "; Name "jax_random_number_2"]) ];
      code 613
      [ Def "simple_graph" [] [P "x"]
          [ Assign (Name "x") (Op "+" [Name "x"; Num "2"]);
            Assign (Name "x") (Op "**" [Name "x"; Num "2"]);
            Assign (Name "x") (Op "+" [Name "x"; Num "3"]);
            Assign (Name "y") (Call (Attr (Name "x") "mean") []);
            Return (Name "y") ];
        Assign (Name "inp") (Call (Attr (Name "jnp") "arange") [Num "3";
            Kw "dtype" (Attr (Name "jnp") "float32")]);
        Expr (Call (Name "print") [Str "Input"; Name "inp"]);
        Expr (Call (Name "print") [Str "Output"; Call (Name "simple_graph") [Name "inp"]]) ];
      code 648
      [ Expr (Call (Call (Attr (Name "jax") "make_jaxpr") [Name "simple_graph"]) [Name "inp"]) ];
      code 676
      [ Assign (Name "global_list") (ListLit []);
        Def "norm" [] [P "x"]
          [ Expr (Call (Attr (Name "global_list") "append") [Name "x"]);
            Assign (Name "x") (Op "**" [Name "x"; Num "2"]);
            Assign (Name "n") (Call (Attr (Name "x") "sum") []);
            Assign (Name "n") (Call (Attr (Name "jnp") "sqrt") [Name "n"]);
            Return (Name "n") ];
        Expr (Call (Call (Attr (Name "jax") "make_jaxpr") [Name "norm"]) [Name "inp"]) ];
      code 714
      [ Assign (Name "grad_function") (Call (Attr (Name "jax") "grad") [Name "simple_graph"]);
        Assign (Name "gradients") (Call (Name "grad_function") [Name "inp"]);
        Expr (Call (Name "print") [Str "Gradients: "; Name "gradients"]) ];
      code 747
      [ Expr (Call (Call (Attr (Name "jax") "make_jaxpr") [Name "grad_function"]) [Name "inp"]) ];
      code 776
      [ Assign (Name "val_grad_function") (Call (Attr (Name "jax") "value_and_grad")
          [Name "simple_graph"]);
        Expr (Call (Name "val_grad_function") [Name "inp"]) ];
      code 797
      [ Assign (Name "jitted_function") (Call (Attr (Name "jax") "jit") [Name "simple_graph"]) ];
      code 806
      [ Assign (TupleLit [Name "rng"; Name "normal_rng"]) (Call (Attr (Attr
          (Name "jax") "random") "split") [Name "rng"]);
        Assign (Name "large_input") (Call (Attr (Attr (Name "jax") "random") "normal")
            [Name "normal_rng"; TupleLit [Num "1000"]]);
        Assign (Name "_") (Call (Name "jitted_function") [Name "large_input"]) ];
      code 828
      [ Magic "timeit" [ Expr (Call (Attr (Call (Name "simple_graph")
          [Name "large_input"]) "block_until_ready") []) ] ];
      code 846
      [ Magic "timeit" [ Expr (Call (Attr (Call (Name "jitted_function")
          [Name "large_input"]) "block_until_ready") []) ] ];
      code 863
      [ Assign (Name "jitted_grad_function") (Call (Attr (Name "jax") "jit")
          [Name "grad_function"]);
        Assign (Name "_") (Call (Name "jitted_grad_function") [Name "large_input"]) ];
      code 881
      [ Magic "timeit" [ Expr (Call (Attr (Call (Name "grad_function")
          [Name "large_input"]) "block_until_ready") []) ] ];
      code 899
      [ Magic "timeit" [ Expr (Call (Attr (Call (Name "jitted_grad_function")
          [Name "large_input"]) "block_until_ready") []) ] ];
      code 908
      [] ] |}.

(** [src/gradient_checkpoint.ipynb], the notebook that starts at line 1:
    gradient checkpointing. *)
Definition gradient_checkpoint : notebook :=
  {| nb_file := "src/gradient_checkpoint.ipynb";
     nb_start := 1;
     nb_cells := [
      code 34
      [ Import "jax" "jax";
        Import "jax.ad_checkpoint" "jax";
        Import "jax.numpy" "jnp";
        Def "g" [] [P "W"; P "x"]
          [ Assign (Name "y") (Call (Attr (Name "jnp") "dot") [Name "W"; Name "x"]);
            Return (Call (Attr (Name "jnp") "sin") [Name "y"]) ];
        Def "f" [] [P "W1"; P "W2"; P "W3"; P "x"]
          [ Assign (Name "x") (Call (Name "g") [Name "W1"; Name "x"]);
            Assign (Name "x") (Call (Name "g") [Name "W2"; Name "x"]);
            Assign (Name "x") (Call (Name "g") [Name "W3"; Name "x"]);
            Return (Name "x") ];
        Assign (Name "W1") (Call (Attr (Name "jnp") "ones") [TupleLit [Num "5"; Num "4"]]);
        Assign (Name "W2") (Call (Attr (Name "jnp") "ones") [TupleLit [Num "6"; Num "5"]]);
        Assign (Name "W3") (Call (Attr (Name "jnp") "ones") [TupleLit [Num "7"; Num "6"]]);
        Assign (Name "x") (Call (Attr (Name "jnp") "ones") [Num "4"]);
        FromImport "jax.ad_checkpoint" ["print_saved_residuals"];
        Expr (Call (Attr (Attr (Name "jax") "ad_checkpoint") "print_saved_residuals") [Name "f";
            Name "W1"; Name "W2"; Name "W3"; Name "x"]) ];
      code 86
      [ Def "f2" [] [P "W1"; P "W2"; P "W3"; P "x"]
          [ Assign (Name "x") (Call (Call (Attr (Name "jax") "checkpoint") [Name "g"])
              [Name "W1"; Name "x"]);
            Assign (Name "x") (Call (Call (Attr (Name "jax") "checkpoint") [Name "g"])
                [Name "W2"; Name "x"]);
            Assign (Name "x") (Call (Call (Attr (Name "jax") "checkpoint") [Name "g"])
                [Name "W3"; Name "x"]);
            Return (Name "x") ];
        Expr (Call (Attr (Attr (Name "jax") "ad_checkpoint") "print_saved_residuals") [Name "f2";
            Name "W1"; Name "W2"; Name "W3"; Name "x"]) ];
      code 123
      [ Assign (Name "f3") (Call (Attr (Name "jax") "checkpoint") [Name "f";
          Kw "policy" (Attr (Attr
          (Name "jax") "checkpoint_policies") "dots_with_no_batch_dims_saveable")]);
        Expr (Call (Attr (Attr (Name "jax") "ad_checkpoint") "print_saved_residuals") [Name "f3";
            Name "W1"; Name "W2"; Name "W3"; Name "x"]) ];
      code 152
      [ FromImport "jax.ad_checkpoint" ["checkpoint_name"];
        Def "f4" [] [P "W1"; P "W2"; P "W3"; P "x"]
          [ Assign (Name "x") (Call (Name "checkpoint_name") [Call (Name "g") [Name "W1";
              Name "x"]; Kw "name" (Str "a")]);
            Assign (Name "x") (Call (Name "checkpoint_name") [Call (Name "g") [Name "W2";
                Name "x"]; Kw "name" (Str "b")]);
            Assign (Name "x") (Call (Name "checkpoint_name") [Call (Name "g") [Name "W3";
                Name "x"]; Kw "name" (Str "c")]);
            Return (Name "x") ];
        Assign (Name "f4") (Call (Attr (Name "jax") "checkpoint") [Name "f4";
            Kw "policy" (Call (Attr (Attr
            (Name "jax") "checkpoint_policies") "save_only_these_names") [Str "a"])]);
        Expr (Call (Attr (Attr (Name "jax") "ad_checkpoint") "print_saved_residuals") [Name "f4";
            Name "W1"; Name "W2"; Name "W3"; Name "x"]) ];
      code 177
      [ FromImport "jax.tree_util" ["tree_flatten"; "tree_unflatten"];
        FromImport "rich.console" ["Console"];
        Import "rich.jupyter" "rich";
        FromImport "rich.table" ["Table"];
        Import "rich.text" "rich";
        Def "print_fwd_bwd" [] [P "f"; PStar "args"; PDStar "kwargs"]
          [ Assign (TupleLit [Name "args"; Name "in_tree"]) (Call (Name "tree_flatten") [TupleLit
              [Name "args"; Name "kwargs"]]);
            Def "f_" [] [PStar "args"]
              [ Assign (TupleLit [Name "args"; Name "kwargs"]) (Call (Name "tree_unflatten")
                  [Name "in_tree"; Name "args"]);
                Return (Call (Name "f") [Star (Name "args"); DStar (Name "kwargs")]) ];
            Assign (Name "fwd") (Attr (Call (Call (Attr (Name "jax") "make_jaxpr") [Lam
                [PStar "args"] (Call (Attr (Name "jax") "vjp") [Name "f_";
                Star (Name "args")])]) [Star (Name "args")]) "jaxpr");
            Assign (TupleLit [Name "y"; Name "f_vjp"]) (Call (Attr (Name "jax") "vjp")
                [Name "f_"; Star (Name "args")]);
            Assign (TupleLit [Name "res"; Name "in_tree"]) (Call (Name "tree_flatten")
                [Name "f_vjp"]);
            Def "g_" [] [PStar "args"]
              [ Assign (TupleLit [Star (Name "res"); Name "y"]) (Name "args");
                Assign (Name "f_vjp") (Call (Name "tree_unflatten") [Name "in_tree"; Name "res"]);
                Return (Call (Name "f_vjp") [Name "y"]) ];
            Assign (Name "bwd") (Attr (Call (Call (Attr (Name "jax") "make_jaxpr") [Name "g_"])
                [Star (Name "res"); Name "y"]) "jaxpr");
            Assign (Name "table") (Call (Name "Table") [Kw "show_header" (Const "False");
                Kw "show_lines" (Const "True"); Kw "padding" (TupleLit [Num "1"; Num "2";
                Num "0"; Num "2"]); Kw "box" (Const "None")]);
            Expr (Call (Attr (Name "table") "add_row") [Str "[bold green]forward computation:";
                Str "[bold green]backward computation:"]);
            Expr (Call (Attr (Name "table") "add_row") [Call (Attr (Attr (Attr
                (Name "rich") "text") "Text") "from_ansi") [Call (Name "str") [Name "fwd"]];
                Call (Attr (Attr (Attr (Name "rich") "text") "Text") "from_ansi") [Call
                (Name "str") [Name "bwd"]]]);
            Assign (Name "console") (Call (Name "Console") [Kw "width" (Num "240");
                Kw "force_jupyter" (Const "True")]);
            Expr (Call (Attr (Name "console") "print") [Name "table"]) ];
        Def "_renderable_repr" [] [P "self"]
          [ Return (Attr (Name "self") "html") ];
        Assign (Attr (Attr (Attr (Name "rich") "jupyter") "JupyterRenderable") "_repr_html_")
            (Name "_renderable_repr") ];
      code 299
      [ Expr (Call (Name "print_fwd_bwd") [Name "f"; Name "W1"; Name "W2"; Name "W3";
          Name "x"]) ];
      code 411
      [ Expr (Call (Name "print_fwd_bwd") [Name "f3"; Name "W1"; Name "W2"; Name "W3";
          Name "x"]) ];
      code 429
      [] ] |}.

(** [src/gradient_checkpoint.ipynb], the notebook that starts at line 454:
    pytrees. *)
Definition pytrees : notebook :=
  {| nb_file := "src/gradient_checkpoint.ipynb";
     nb_start := 454;
     nb_cells := [
      code 482
      [ Import "jax" "jax";
        Import "jax.numpy" "jnp" ];
      code 504
      [ Assign (Name "example_trees") (ListLit [ListLit [Num "1"; Str "a";
          Call (Name "object") []]; TupleLit [Num "1"; TupleLit [Num "2"; Num "3"]; TupleLit []];
          ListLit [Num "1"; DictLit [KV (Str "k1") (Num "2"); KV (Str "k2") (TupleLit [Num "3";
          Num "4"])]; Num "5"]; DictLit [KV (Str "a") (Num "2"); KV (Str "b") (TupleLit [Num "2";
          Num "3"])]; Call (Attr (Name "jnp") "array") [ListLit [Num "1"; Num "2"; Num "3"]]]);
        For (Name "pytree") (Name "example_trees")
          [ Assign (Name "leaves") (Call (Attr (Attr (Name "jax") "tree_util") "tree_leaves")
              [Name "pytree"]);
            Expr (Call (Name "print") [FStr [Kw ":<45" (Call (Name "repr") [Name "pytree"]);
                Str " has "; Call (Name "len") [Name "leaves"]; Str " leaves: ";
                Name "leaves"]]) ] ];
      code 549
      [ Assign (Name "list_of_lists") (ListLit [ListLit [Num "1"; Num "2"; Num "3"];
          ListLit [Num "1"; Num "2"]; ListLit [Num "1"; Num "2"; Num "3"; Num "4"]]);
        Expr (Call (Attr (Attr (Name "jax") "tree") "map") [Lam [P "x"] (Op "*" [Name "x";
            Num "2"]); Name "list_of_lists"]) ];
      code 584
      [ Assign (Name "another_list") (Name "list_of_lists");
        Expr (Call (Attr (Attr (Name "jax") "tree") "map") [Lam [P "x"; P "y"] (Op "+" [Name "x";
            Name "y"]); Name "list_of_lists"; Name "another_list"]) ];
      code 601
      [ Import "numpy" "np";
        Def "init_mlp_params" [] [P "layer_widths"]
          [ Assign (Name "params") (ListLit []);
            For (TupleLit [Name "n_in"; Name "n_out"]) (Call (Name "zip") [Index
                (Name "layer_widths") [Slice (None) (Some (Op "-" [Num "1"]))];
                Index (Name "layer_widths") [Slice (Some (Num "1")) (None)]])
              [ Expr (Call (Attr (Name "params") "append") [Call (Name "dict") [Kw "weights"
                  (Op "*" [Call (Attr (Attr (Name "np") "random") "normal") [Kw "size" (TupleLit
                  [Name "n_in"; Name "n_out"])]; Call (Attr (Name "np") "sqrt") [Op "/" [Num "2";
                  Name "n_in"]]]); Kw "bias" (Call (Attr (Name "np") "ones") [Kw "shape"
                  (TupleLit [Name "n_out"])])]]) ];
            Return (Name "params") ];
        Assign (Name "params") (Call (Name "init_mlp_params") [ListLit [Num "1"; Num "128";
            Num "128"; Num "1"]]) ];
      code 632
      [ Expr (Call (Attr (Attr (Name "jax") "tree") "map") [Lam [P "x"] (Attr
          (Name "x") "shape"); Name "params"]) ];
      code 642
      [ Def "forward" [] [P "params"; P "x"]
          [ Assign (TupleLit [Star (Name "hidden"); Name "last"]) (Name "params");
            For (Name "layer") (Name "hidden")
              [ Assign (Name "x") (Call (Attr (Attr (Name "jax") "nn") "relu") [Op "+" [Op "@"
                  [Name "x"; Index (Name "layer") [Str "weights"]];
                  Index (Name "layer") [Str "bias"]]]) ];
            Return (Op "+" [Op "@" [Name "x"; Index (Name "last") [Str "weights"]];
                Index (Name "last") [Str "bias"]]) ];
        Def "loss_fn" [] [P "params"; P "x"; P "y"]
          [ Return (Call (Attr (Name "jnp") "mean") [Op "**" [Op "-" [Call (Name "forward")
              [Name "params"; Name "x"]; Name "y"]; Num "2"]]) ];
        Assign (Name "lr") (Num "0.0001");
        Def "update" [Attr (Name "jax") "jit"] [P "params"; P "x"; P "y"]
          [ Assign (Name "grads") (Call (Call (Attr (Name "jax") "grad") [Name "loss_fn"])
              [Name "params"; Name "x"; Name "y"]);
            Return (Call (Attr (Name "jax") "tree_map") [Lam [P "p"; P "g"] (Op "-" [Name "p";
                Op "*" [Name "lr"; Name "g"]]); Name "params"; Name "grads"]) ] ];
      code 696
      [ Class "Special" [] [Name "object"]
          [ Def "__init__" [] [P "self"; P "x"; P "y"]
              [ Assign (Attr (Name "self") "x") (Name "x");
                Assign (Attr (Name "self") "y") (Name "y") ] ];
        Expr (Call (Attr (Attr (Name "jax") "tree") "leaves") [ListLit [Call (Name "Special")
            [Num "0"; Num "1"]; Call (Name "Special") [Num "2"; Num "4"]]]) ];
      commented_out 713
      [ Expr (Call (Attr (Attr (Name "jax") "tree") "map") [Lam [P "x"] (Op "+" [Name "x";
          Num "1"]); ListLit [Call (Name "Special") [Num "0"; Num "1"];
          Call (Name "Special") [Num "2"; Num "4"]]]) ];
      code 735
      [ FromImport "jax.tree_util" ["register_pytree_node"];
        Class "RegisteredSpecial" [] [Name "Special"]
          [ Def "__repr__" [] [P "self"]
              [ Return (Call (Attr (Str "RegisteredSpecial(x={}, y={})") "format") [Attr
                  (Name "self") "x"; Attr (Name "self") "y"]) ] ];
        Def "special_flatten" [] [P "v"]
          [ Expr (Str "Specifies a flattening recipe.

  Params:
    v: The value of the registered type to flatten.
  Returns:
    A pair of an iterable with the children to be flattened recursively,
    and some opaque auxiliary data to pass back to the unflattening recipe.
    The auxiliary data is stored in the treedef for use during unflattening.
    The auxiliary data could be used, for example, for dictionary keys.
  ");
            Assign (Name "children") (TupleLit [Attr (Name "v") "x"; Attr (Name "v") "y"]);
            Assign (Name "aux_data") (Const "None");
            Return (TupleLit [Name "children"; Name "aux_data"]) ];
        Def "special_unflatten" [] [P "aux_data"; P "children"]
          [ Expr (Str "Specifies an unflattening recipe.

  Params:
    aux_data: The opaque data that was specified during flattening of the
      current tree definition.
    children: The unflattened children

  Returns:
    A reconstructed object of the registered type, using the specified
    children and auxiliary data.
  ");
            Return (Call (Name "RegisteredSpecial") [Star (Name "children")]) ];
        Expr (Call (Name "register_pytree_node") [Name "RegisteredSpecial";
            Name "special_flatten"; Name "special_unflatten"]) ];
      code 795
      [ Expr (Call (Attr (Attr (Name "jax") "tree") "map") [Lam [P "x"] (Op "+" [Name "x";
          Num "1"]); ListLit [Call (Name "RegisteredSpecial") [Num "0"; Num "1"];
          Call (Name "RegisteredSpecial") [Num "2"; Num "4"]]]) ];
      code 826
      [ FromImport "typing" ["NamedTuple"; "Any"];
        Class "MyOtherContainer" [] [Name "NamedTuple"]
          [ Ann (Name "name") (Name "str");
            Ann (Name "a") (Name "Any");
            Ann (Name "b") (Name "Any");
            Ann (Name "c") (Name "Any") ];
        Expr (Call (Attr (Attr (Name "jax") "tree") "leaves") [ListLit [Call
            (Name "MyOtherContainer") [Str "foo"; Num "1"; Num "2"; Num "3"];
            Call (Name "MyOtherContainer") [Str "bar"; Num "4"; Num "5"; Num "6"]]]) ];
      code 869
      [ FromImport "dataclasses" ["dataclass"];
        Import "functools" "functools";
        Class "MyDataclassContainer" [Call (Attr (Name "functools") "partial") [Attr (Attr
            (Name "jax") "tree_util") "register_dataclass"; Kw "data_fields" (ListLit [Str "a";
            Str "b"; Str "c"]); Kw "meta_fields" (ListLit [Str "name"])];
            Name "dataclass"] [Name "object"]
          [ Ann (Name "name") (Name "str");
            Ann (Name "a") (Name "Any");
            Ann (Name "b") (Name "Any");
            Ann (Name "c") (Name "Any") ];
        Expr (Call (Attr (Attr (Name "jax") "tree") "leaves") [ListLit [Call
            (Name "MyDataclassContainer") [Str "apple"; Num "5.2"; Num "2.4";
            Call (Attr (Name "jnp") "zeros") [ListLit [Num "4"]]];
            Call (Name "MyDataclassContainer") [Str "banana"; Num "3.1"; Num "1.2";
            Call (Attr (Name "jnp") "ones") [ListLit [Num "4"]]]]]) ];
      code 905
      [ FromImport "jax" ["vmap"] ];
      code 946
      [ Import "collections" "collections";
        Assign (Name "ATuple") (Call (Attr (Name "collections") "namedtuple") [Str "Atuple";
            Str "name"]);
        Assign (Name "tree") (ListLit [Num "1"; DictLit [KV (Str "k1") (Num "2");
            KV (Str "k2") (TupleLit [Num "3"; Num "4"])]; Call (Name "ATuple") [Str "foo"]]);
        Assign (TupleLit [Name "flattened"; Name "_"]) (Call (Attr (Attr
            (Name "jax") "tree_util") "tree_flatten_with_path") [Name "tree"]);
        For (TupleLit [Name "key_path"; Name "value"]) (Name "flattened")
          [ Expr (Call (Name "print") [FStr [Str "Value of tree ";
              Call (Attr (Attr (Name "jax") "tree_util") "keystr") [Name "key_path"]; Str ": ";
              Name "value"]]) ] ];
      code 981
      [ For (TupleLit [Name "key_path"; Name "_"]) (Name "flattened")
          [ Expr (Call (Name "print") [FStr [Str "key path of tree ";
              Call (Attr (Attr (Name "jax") "tree_util") "keystr") [Name "key_path"]; Str ":";
              Call (Name "repr") [Name "key_path"]]]) ] ];
      code 1019
      [ Def "tree_transpose" [] [P "list_of_trees"]
          [ Return (Call (Attr (Attr (Name "jax") "tree") "map") [Lam [PStar "xs"] (Call
              (Name "list") [Name "xs"]); Star (Name "list_of_trees")]) ];
        Assign (Name "episode_steps") (ListLit [Call (Name "dict") [Kw "t" (Num "1");
            Kw "obs" (Num "3")]; Call (Name "dict") [Kw "t" (Num "2"); Kw "obs" (Num "4")]]);
        Expr (Call (Name "tree_transpose") [Name "episode_steps"]) ];
      code 1045
      [ Expr (Call (Attr (Attr (Name "jax") "tree") "transpose") [Kw "outer_treedef" (Call (Attr
          (Attr (Name "jax") "tree") "structure") [ListComp (Num "0") (Name "e")
          (Name "episode_steps")]); Kw "inner_treedef" (Call (Attr (Attr
          (Name "jax") "tree") "structure") [Index (Name "episode_steps") [Num "0"]]);
          Kw "pytree_to_transpose" (Name "episode_steps")]) ];
      code 1057
      [] ] |}.

(** [src/auto_differentiation.ipynb], the notebook that starts at line 1:
    grad and logistic regression. *)
Definition auto_differentiation : notebook :=
  {| nb_file := "src/auto_differentiation.ipynb";
     nb_start := 1;
     nb_cells := [
      code 9
      [ Import "jax" "jax";
        Import "jax.numpy" "jnp";
        FromImport "jax" ["grad"] ];
      code 36
      [ Assign (Name "grad_tanh") (Call (Name "grad") [Attr (Name "jnp") "tanh"]);
        Expr (Call (Name "print") [Call (Name "grad_tanh") [Num "2.0"]]) ];
      code 62
      [ Expr (Call (Name "print") [Call (Call (Name "grad") [Call (Name "grad") [Attr
          (Name "jnp") "tanh"]]) [Num "2.0"]]);
        Expr (Call (Name "print") [Call (Call (Name "grad") [Call (Name "grad") [Call
            (Name "grad") [Attr (Name "jnp") "tanh"]]]) [Num "2.0"]]) ];
      code 93
      [ Assign (Name "f") (Lam [P "x"] (Op "+" [Op "-" [Op "+" [Op "**" [Name "x"; Num "3"];
          Op "*" [Num "2"; Op "**" [Name "x"; Num "2"]]]; Op "*" [Num "3"; Name "x"]]; Num "1"]));
        Assign (Name "dfdx") (Call (Name "grad") [Name "f"]) ];
      code 115
      [ Assign (Name "d2fdx") (Call (Attr (Name "jax") "grad") [Name "dfdx"]);
        Assign (Name "d3fdx") (Call (Attr (Name "jax") "grad") [Name "d2fdx"]);
        Assign (Name "d4fdx") (Call (Attr (Name "jax") "grad") [Name "d3fdx"]);
        Expr (Call (Name "print") [Call (Name "dfdx") [Num "1.0"]]);
        Expr (Call (Name "print") [Call (Name "d2fdx") [Num "1.0"]]);
        Expr (Call (Name "print") [Call (Name "d3fdx") [Num "1.0"]]);
        Expr (Call (Name "print") [Call (Name "d4fdx") [Num "1.0"]]) ];
      code 140
      [ Assign (Name "key") (Call (Attr (Attr (Name "jax") "random") "key") [Num "0"]);
        Def "sigmoid" [] [P "x"]
          [ Return (Op "*" [Num "0.5"; Op "+" [Call (Attr (Name "jnp") "tanh") [Op "/" [Name "x";
              Num "2"]]; Num "1"]]) ];
        Def "predict" [] [P "W"; P "b"; P "inputs"]
          [ Return (Call (Name "sigmoid") [Op "+" [Call (Attr (Name "jnp") "dot") [Name "inputs";
              Name "W"]; Name "b"]]) ];
        Assign (Name "inputs") (Call (Attr (Name "jnp") "array") [ListLit [ListLit [Num "0.52";
            Num "1.12"; Num "0.77"]; ListLit [Num "0.88"; Op "-" [Num "1.08"]; Num "0.15"];
            ListLit [Num "0.52"; Num "0.06"; Op "-" [Num "1.30"]]; ListLit [Num "0.74";
            Op "-" [Num "2.49"]; Num "1.39"]]]);
        Assign (Name "targets") (Call (Attr (Name "jnp") "array") [ListLit [Const "True";
            Const "True"; Const "False"; Const "True"]]) ];
      code 164
      [ Def "loss" [] [P "W"; P "b"]
          [ Assign (Name "preds") (Call (Name "predict") [Name "W"; Name "b"; Name "inputs"]);
            Assign (Name "label_probs") (Op "+" [Op "*" [Name "preds"; Name "targets"];
                Op "*" [Op "-" [Num "1"; Name "preds"]; Op "-" [Num "1"; Name "targets"]]]);
            Return (Op "-" [Call (Attr (Name "jnp") "sum") [Call (Attr (Name "jnp") "log")
                [Name "label_probs"]]]) ] ];
      code 177
      [ Assign (TupleLit [Name "key"; Name "W_key";
          Name "b_key"]) (Call (Attr (Attr (Name "jax") "random") "split") [Name "key"; Num "3"]);
        Assign (Name "W") (Call (Attr (Attr (Name "jax") "random") "normal") [Name "W_key";
            TupleLit [Num "3"]]);
        Assign (Name "b") (Call (Attr (Attr (Name "jax") "random") "normal") [Name "b_key";
            TupleLit []]) ];
      code 200
      [ Assign (Name "W_grad") (Call (Call (Name "grad") [Name "loss";
          Kw "argnums" (Num "0")]) [Name "W"; Name "b"]);
        Expr (Call (Name "print") [FStr [Str "W_grad="; Name "W_grad"]]);
        Assign (Name "b_grad") (Call (Call (Name "grad") [Name "loss"; Num "1"]) [Name "W";
            Name "b"]);
        Expr (Call (Name "print") [FStr [Str "b_grad="; Name "b_grad"]]);
        Assign (TupleLit [Name "W_grad"; Name "b_grad"]) (Call (Call (Name "grad") [Name "loss";
            TupleLit [Num "0"; Num "1"]]) [Name "W"; Name "b"]);
        Expr (Call (Name "print") [FStr [Str "W_grad="; Name "W_grad"]]);
        Expr (Call (Name "print") [FStr [Str "b_grad="; Name "b_grad"]]) ];
      code 235
      [ Def "loss2" [] [P "param_dict"]
          [ Assign (Name "preds") (Call (Name "predict") [Index (Name "param_dict") [Str "W"];
              Index (Name "param_dict") [Str "b"]; Name "inputs"]);
            Assign (Name "label_probs") (Op "+" [Op "*" [Name "preds"; Name "targets"];
                Op "*" [Op "-" [Num "1"; Name "preds"]; Op "-" [Num "1"; Name "targets"]]]);
            Return (Op "-" [Call (Attr (Name "jnp") "sum") [Call (Attr (Name "jnp") "log")
                [Name "label_probs"]]]) ];
        Expr (Call (Name "print") [Call (Call (Name "grad") [Name "loss2"]) [DictLit [KV
            (Str "W") (Name "W"); KV (Str "b") (Name "b")]]]) ];
      code 266
      [ Assign (TupleLit [Name "loss_value"; Name "Wb_grad"]) (Call (Call (Attr
          (Name "jax") "value_and_grad") [Name "loss"; TupleLit [Num "0"; Num "1"]]) [Name "W";
          Name "b"]);
        Expr (Call (Name "print") [FStr [Str "loss value: "; Name "loss_value"]]);
        Expr (Call (Name "print") [FStr [Str "Wb_grad: "; Name "Wb_grad"]]);
        Expr (Call (Name "print") [FStr [Str "loss value: "; Call (Name "loss") [Name "W";
            Name "b"]]]) ];
      code 296
      [ Assign (Name "eps") (Num "1e-4");
        Assign (Name "b_grad_numerical") (Op "/" [Op "-" [Call (Name "loss") [Name "W";
            Op "+" [Name "b"; Op "/" [Name "eps"; Num "2."]]]; Call (Name "loss") [Name "W";
            Op "-" [Name "b"; Op "/" [Name "eps"; Num "2."]]]]; Name "eps"]);
        Expr (Call (Name "print") [Str "b_grad_numerical:"; Name "b_grad_numerical"]);
        Expr (Call (Name "print") [Str "b_grad_autodiff:"; Call (Call (Name "grad") [Name "loss";
            Num "1"]) [Name "W"; Name "b"]]);
        Assign (TupleLit [Name "key"; Name "subkey"]) (Call (Attr (Attr
            (Name "jax") "random") "split") [Name "key"]);
        Assign (Name "vec") (Call (Attr (Attr (Name "jax") "random") "normal") [Name "subkey";
            Attr (Name "W") "shape"]);
        Assign (Name "unitvec") (Op "/" [Name "vec";
            Call (Attr (Name "jnp") "sqrt") [Call (Attr (Name "jnp") "vdot") [Name "vec";
            Name "vec"]]]);
        Assign (Name "W_grad_numerical") (Op "/" [Op "-" [Call (Name "loss") [Op "+" [Name "W";
            Op "*" [Op "/" [Name "eps"; Num "2."]; Name "unitvec"]]; Name "b"];
            Call (Name "loss") [Op "-" [Name "W"; Op "*" [Op "/" [Name "eps"; Num "2."];
            Name "unitvec"]]; Name "b"]]; Name "eps"]);
        Expr (Call (Name "print") [Str "W_grad_numerical:"; Name "W_grad_numerical"]);
        Expr (Call (Name "print") [Str "W_grad_autodiff:";
            Call (Attr (Name "jnp") "vdot") [Call (Call (Name "grad") [Name "loss"]) [Name "W";
            Name "b"]; Name "unitvec"]]) ];
      code 319
      [] ] |}.

(** [src/unnamed/part_000], the notebook that starts at line 1:
    higher-order derivatives, stop_gradient, Jacobians. *)
Definition part_000 : notebook :=
  {| nb_file := "src/unnamed/part_000";
     nb_start := 1;
     nb_cells := [
      code 9
      [ Import "jax" "jax";
        Import "jax.numpy" "jnp";
        FromImport "jax" ["grad"; "jit"; "vmap"];
        FromImport "jax" ["random"];
        Assign (Name "key") (Call (Attr (Name "random") "key") [Num "0"]) ];
      code 45
      [ Def "hessian" [] [P "f"]
          [ Return (Call (Attr (Name "jax") "jacfwd") [Call (Attr (Name "jax") "grad")
              [Name "f"]]) ];
        Def "f" [] [P "x"]
          [ Return (Call (Attr (Name "jnp") "dot") [Name "x"; Name "x"]) ];
        Expr (Call (Call (Name "hessian") [Name "f"]) [Call (Attr (Name "jnp") "array") [ListLit
            [Num "1."; Num "2."; Num "3."]]]) ];
      code 66
      [ Def "meta_loss_fn" [] [P "params"; P "data"]
          [ Expr (Str "compute the loss after one step of SGD");
            Assign (Name "grads") (Call (Call (Attr (Name "jax") "grad") [Name "loss_fn"])
                [Name "params"; Name "data"]);
            Return (Call (Name "loss_fn") [Op "-" [Name "params"; Op "*" [Name "lr";
                Name "grads"]]; Name "data"]) ];
        Assign (Name "meta_grads") (Call (Call (Attr (Name "jax") "grad") [Name "meta_loss_fn"])
            [Name "params"; Name "data"]) ];
      code 108
      [ Assign (Name "value_fn") (Lam [P "theta";
          P "state"] (Call (Attr (Name "jnp") "dot") [Name "theta"; Name "state"]));
        Assign (Name "theta") (Call (Attr (Name "jnp") "array") [ListLit [Num "0.1";
            Op "-" [Num "0.1"]; Num "0."]]);
        Assign (Name "s_tm1") (Call (Attr (Name "jnp") "array") [ListLit [Num "1."; Num "2.";
            Op "-" [Num "1."]]]);
        Assign (Name "r_t") (Call (Attr (Name "jnp") "array") [Num "1."]);
        Assign (Name "s_t") (Call (Attr (Name "jnp") "array") [ListLit [Num "2."; Num "1.";
            Num "0."]]) ];
      code 135
      [ Def "td_loss" [] [P "theta"; P "s_tm1"; P "r_t"; P "s_t"]
          [ Assign (Name "v_tm1") (Call (Name "value_fn") [Name "theta"; Name "s_tm1"]);
            Assign (Name "target") (Op "+" [Name "r_t"; Call (Name "value_fn") [Name "theta";
                Name "s_t"]]);
            Return (Op "*" [Op "-" [Num "0.5"]; Op "**" [Op "-" [Call (Attr (Attr
                (Name "jax") "lax") "stop_gradient") [Name "target"]; Name "v_tm1"]; Num "2"]]) ];
        Assign (Name "td_update") (Call (Attr (Name "jax") "grad") [Name "td_loss"]);
        Assign (Name "delta_theta") (Call (Name "td_update") [Name "theta"; Name "s_tm1";
            Name "r_t"; Name "s_t"]);
        Expr (Name "delta_theta") ];
      code 163
      [ Assign (Name "s_grad") (Call (Call (Attr (Name "jax") "grad") [Name "value_fn"])
          [Name "theta"; Name "s_tm1"]);
        Assign (Name "delta_theta") (Op "*" [Op "-" [Op "+" [Name "r_t";
            Call (Name "value_fn") [Name "theta"; Name "s_t"]];
            Call (Name "value_fn") [Name "theta"; Name "s_tm1"]]; Name "s_grad"]);
        Expr (Name "delta_theta") ];
      code 197
      [ Def "f" [] [P "x"]
          [ Return (Call (Attr (Name "jnp") "round") [Name "x"]) ];
        Def "straight_through_f" [] [P "x"]
          [ Assign (Name "zero") (Op "-" [Name "x";
              Call (Attr (Attr (Name "jax") "lax") "stop_gradient") [Name "x"]]);
            Return (Op "+" [Name "zero"; Call (Attr (Attr (Name "jax") "lax") "stop_gradient")
                [Call (Name "f") [Name "x"]]]) ];
        Expr (Call (Name "print") [Str "f(x):"; Call (Name "f") [Num "3.2"]]);
        Expr (Call (Name "print") [Str "straight_through_f(3.2):";
            Call (Name "straight_through_f") [Num "3.2"]]);
        Expr (Call (Name "print") [Str "grad(f)(x):";
            Call (Call (Attr (Name "jax") "grad") [Name "f"]) [Num "3.2"]]);
        Expr (Call (Name "print") [Str "grad(straight_through_f)(x):";
            Call (Call (Attr (Name "jax") "grad") [Name "straight_through_f"]) [Num "3.2"]]) ];
      code 229
      [ Def "hvp" [] [P "f"; P "x"; P "v"]
          [ Return (Call (Call (Name "grad") [Lam [P "x"] (Call (Attr (Name "jnp") "vdot") [Call
              (Call (Name "grad") [Name "f"]) [Name "x"]; Name "v"])]) [Name "x"]) ] ];
      code 263
      [ FromImport "jax" ["jacfwd"; "jacrev"];
        Def "sigmoid" [] [P "x"]
          [ Return (Op "*" [Num "0.5"; Op "+" [Call (Attr (Name "jnp") "tanh") [Op "/" [Name "x";
              Num "2."]]; Num "1"]]) ];
        Def "predict" [] [P "W"; P "b"; P "inputs"]
          [ Return (Call (Name "sigmoid") [Op "+" [Call (Attr (Name "jnp") "dot") [Name "inputs";
              Name "W"]; Name "b"]]) ];
        Assign (Name "inputs") (Call (Attr (Name "jnp") "array") [ListLit [ListLit [Num "0.52";
            Num "1.12"; Num "0.77"]; ListLit [Num "0.88"; Op "-" [Num "1.08"]; Num "0.15"];
            ListLit [Num "0.52"; Num "0.06"; Op "-" [Num "1.30"]]; ListLit [Num "0.74";
            Op "-" [Num "2.49"]; Num "1.39"]]]);
        Assign (TupleLit [Name "key"; Name "W_key";
            Name "b_key"]) (Call (Attr (Name "random") "split") [Name "key"; Num "3"]);
        Assign (Name "W") (Call (Attr (Name "random") "normal") [Name "W_key";
            TupleLit [Num "3"]]);
        Assign (Name "b") (Call (Attr (Name "random") "normal") [Name "b_key"; TupleLit []]);
        Assign (Name "f") (Lam [P "W"] (Call (Name "predict") [Name "W"; Name "b";
            Name "inputs"]));
        Assign (Name "J") (Call (Call (Name "jacfwd") [Name "f"]) [Name "W"]);
        Expr (Call (Name "print") [Str "Jacfwd result, with shape"; Attr (Name "J") "shape"]);
        Expr (Call (Name "print") [Name "J"]);
        Assign (Name "J") (Call (Call (Name "jacrev") [Name "f"]) [Name "W"]);
        Expr (Call (Name "print") [Str "Jacrev result, with shape"; Attr (Name "J") "shape"]);
        Expr (Call (Name "print") [Name "J"]) ];
      code 332
      [ Def "predict_dic" [] [P "params"; P "inputs"]
          [ Return (Call (Name "predict") [Index (Name "params") [Str "W"];
              Index (Name "params") [Str "b"]; Name "inputs"]) ];
        Assign (Name "J_dict") (Call (Call (Name "jacrev") [Name "predict_dic"]) [DictLit [KV
            (Str "W") (Name "W"); KV (Str "b") (Name "b")]; Name "inputs"]);
        For (TupleLit [Name "k"; Name "v"]) (Call (Attr (Name "J_dict") "items") [])
          [ Expr (Call (Name "print") [Call (Attr (Str "Jacobian form {} to logits is") "format")
              [Name "k"]]);
            Expr (Call (Name "print") [Name "v"]) ] ];
      code 381
      [ Def "hessian" [] [P "f"]
          [ Return (Call (Name "jacfwd") [Call (Name "jacrev") [Name "f"]]) ];
        Assign (Name "H") (Call (Call (Name "hessian") [Name "f"]) [Name "W"]);
        Expr (Call (Name "print") [Str "Hessian with Shape"; Attr (Name "H") "shape"]);
        Expr (Call (Name "print") [Name "H"]) ];
      code 394
      [] ] |}.

(** [src/unnamed/part_001], the notebook that starts at line 1:
    control flow under jit. *)
Definition part_001 : notebook :=
  {| nb_file := "src/unnamed/part_001";
     nb_start := 1;
     nb_cells := [
      code 18
      [ FromImport "jax" ["grad"; "jit"];
        Import "jax.numpy" "jnp" ];
      code 36
      [ Def "f" [Name "jit"] [P "x"]
          [ For (Name "i") (Call (Name "range") [Num "3"])
              [ Assign (Name "x") (Op "*" [Num "2"; Name "x"]) ];
            Return (Name "x") ];
        Expr (Call (Name "print") [Call (Name "f") [Num "3"]]) ];
      code 58
      [ Def "g" [Name "jit"] [P "x"]
          [ Assign (Name "y") (Num "0.");
            For (Name "i") (Call (Name "range") [Index (Attr (Name "x") "shape") [Num "0"]])
              [ Assign (Name "y") (Op "+" [Name "y"; Index (Name "x") [Name "i"]]) ];
            Return (Name "y") ];
        Expr (Call (Name "print") [Call (Name "g") [Call (Attr (Name "jnp") "array") [ListLit
            [Num "1."; Num "2."; Num "3."]]]]) ];
      commented_out 73
      [ Def "f" [Name "jit"] [P "x"]
          [ If (Op "<" [Name "x"; Num "3"])
              [ Return (Op "*" [Num "3"; Op "**" [Name "x"; Num "2"]]) ]
              [ Return (Op "*" [Op "-" [Num "4"]; Name "x"]) ] ];
        Expr (Call (Name "f") [Num "2"]);
        Def "g" [Name "jit"] [P "x"]
          [ Return (Op "and" [Op ">" [Name "x"; Num "0"]; Op "<" [Name "x"; Num "3"]]) ];
        Expr (Call (Name "g") [Num "2"]) ];
      code 117
      [ Def "f" [Name "jit"] [P "x"]
          [ Return (Op "**" [Name "x"; Num "2"]) ];
        Assign (Name "result1") (Call (Name "f") [Call (Attr (Name "jnp") "array") [ListLit
            [Num "1."; Num "2."; Num "3."]; Kw "dtype" (Attr (Name "jnp") "float32")]]);
        Expr (Call (Name "print") [Name "result1"]);
        Assign (Name "result2") (Call (Name "f") [Call (Attr (Name "jnp") "array") [ListLit
            [Num "4."; Num "5."; Num "6."]; Kw "dtype" (Attr (Name "jnp") "float32")]]);
        Expr (Call (Name "print") [Name "result2"]) ];
      commented_out 144
      [ Def "f" [Attr (Name "jax") "jit"] [P "x"]
          [ If (Op "<" [Name "x"; Num "3"])
              [ Return (Op "*" [Num "3."; Op "**" [Name "x"; Num "2"]]) ]
              [ Return (Op "*" [Op "-" [Num "4"]; Name "x"]) ] ];
        Expr (Call (Name "f") [Num "2.0"]) ];
      code 182
      [ Def "f" [] [P "x"]
          [ If (Op "<" [Name "x"; Num "3"])
              [ Return (Op "*" [Num "3."; Op "**" [Name "x"; Num "2"]]) ]
              [ Return (Op "*" [Op "-" [Num "4"]; Name "x"]) ] ];
        Assign (Name "f") (Call (Name "jit") [Name "f"; Kw "static_argnames" (Str "x")]);
        Expr (Call (Name "print") [Call (Name "f") [Num "2."]]) ];
      code 214
      [ Def "f" [] [P "x"; P "n"]
          [ Assign (Name "y") (Num "0.0");
            For (Name "i") (Call (Name "range") [Name "n"])
              [ Assign (Name "y") (Op "+" [Name "y"; Index (Name "x") [Name "i"]]) ];
            Return (Name "y") ];
        Assign (Name "f_jitted") (Call (Name "jit") [Name "f"; Kw "static_argnames" (Str "n")]);
        Assign (Name "result") (Call (Name "f_jitted") [Call (Attr (Name "jnp") "array") [ListLit
            [Num "2."; Num "3."; Num "4."]]; Num "2"]);
        Expr (Call (Name "print") [Name "result"]) ];
      code 247
      [ Def "cond" [] [P "pred"; P "true_fun"; P "false_fun"; P "arg"]
          [ If (Name "pred")
              [ Return (Call (Name "true_fun") [Name "arg"]) ]
              [ Return (Call (Name "false_fun") [Name "arg"]) ] ] ];
      code 272
      [ FromImport "jax" ["lax"];
        Assign (Name "operand") (Call (Attr (Name "jnp") "array") [ListLit [Num "0."]]);
        Expr (Call (Attr (Name "lax") "cond") [Const "True"; Lam [P "x"] (Op "+" [Name "x";
            Num "1"]); Lam [P "x"] (Op "-" [Name "x"; Num "1"]); Name "operand"]);
        Expr (Call (Attr (Name "lax") "cond") [Const "False"; Lam [P "x"] (Op "+" [Name "x";
            Num "1"]); Lam [P "x"] (Op "-" [Name "x"; Num "1"]); Name "operand"]) ];
      code 300
      [ Assign (Name "condition") (Call (Attr (Name "jnp") "array") [ListLit [Const "True";
          Const "False"; Const "True"]]);
        Assign (Name "on_true") (Call (Attr (Name "jnp") "array") [ListLit [Num "1."; Num "2.";
            Num "3."]]);
        Assign (Name "on_false") (Call (Attr (Name "jnp") "array") [ListLit [Op "-" [Num "1."];
            Op "-" [Num "2."]; Op "-" [Num "3."]]]);
        Assign (Name "result") (Call (Attr (Name "lax") "select") [Name "condition";
            Name "on_true"; Name "on_false"]);
        Expr (Call (Name "print") [Name "result"]) ];
      code 329
      [ Def "f1" [] [P "x"]
          [ Return (Op "*" [Num "2"; Name "x"]) ];
        Def "f2" [] [P "x"]
          [ Return (Op "*" [Num "3"; Name "x"]) ];
        Def "f3" [] [P "x"]
          [ Return (Op "*" [Num "4"; Name "x"]) ];
        Assign (Name "index") (Num "2");
        Assign (Name "x") (Num "3");
        Assign (Name "result") (Call (Attr (Name "lax") "switch") [Name "index";
            ListLit [Name "f1"; Name "f2"; Name "f3"]; Name "x"]);
        Expr (Call (Name "print") [Name "result"]) ];
      code 364
      [ Assign (Name "condition") (Call (Attr (Name "jnp") "array") [ListLit [Const "False";
          Const "False"; Const "True"]]);
        Assign (Name "on_true") (Call (Attr (Name "jnp") "array") [ListLit [Num "1."; Num "2.";
            Num "3."]]);
        Assign (Name "on_false") (Call (Attr (Name "jnp") "array") [ListLit [Op "-" [Num "1."];
            Op "-" [Num "2."]; Op "-" [Num "3."]]]);
        Assign (Name "result") (Call (Attr (Name "jnp") "where") [Name "condition";
            Name "on_true"; Name "on_false"]);
        Expr (Call (Name "print") [Name "result"]) ];
      code 394
      [ Assign (Name "x") (Call (Attr (Name "jnp") "array") [ListLit [Op "-" [Num "4"];
          Op "-" [Num "3"]; Op "-" [Num "2"]; Op "-" [Num "1"]; Num "0"; Num "1"; Num "2";
          Num "3"; Num "4"]]);
        Assign (Name "conditions") (ListLit [Op "<" [Name "x"; Num "0"]; Op ">=" [Name "x";
            Num "0"]]);
        Assign (Name "functions") (ListLit [Lam [P "x"] (Op "*" [Num "0"; Name "x"]);
            Lam [P "x"] (Name "x")]);
        Assign (Name "result") (Call (Attr (Name "jnp") "piecewise") [Name "x";
            Name "conditions"; Name "functions"]);
        Expr (Call (Name "print") [Name "result"]) ];
      code 416
      [ Def "while_loop" [] [P "cond_fun"; P "body_fun"; P "init_val"]
          [ Assign (Name "val") (Name "init_val");
            While (Call (Name "cond_fun") [Name "val"])
              [ Assign (Name "val") (Call (Name "body_fun") [Name "val"]) ];
            Return (Name "val") ] ];
      code 439
      [ Assign (Name "init_val") (Num "0");
        Assign (Name "condition") (Lam [P "x"] (Op "<" [Name "x"; Num "10"]));
        Assign (Name "function_body") (Lam [P "x"] (Op "+" [Name "x"; Num "1"]));
        Assign (Name "result") (Call (Attr (Name "lax") "while_loop") [Name "condition";
            Name "function_body"; Name "init_val"]);
        Expr (Call (Name "print") [Name "result"]) ];
      code 460
      [ Def "fori_loop" [] [P "start"; P "stop"; P "body_func"; P "init_val"]
          [ Assign (Name "val") (Name "init_val");
            For (Name "i") (Call (Name "range") [Name "start"; Name "stop"])
              [ Assign (Name "val") (Call (Name "body_func") [Name "i"; Name "val"]) ];
            Return (Name "val") ] ];
      code 485
      [ Assign (Name "init_val") (Num "0");
        Assign (Name "start") (Num "0");
        Assign (Name "stop") (Num "10");
        Assign (Name "function_body") (Lam [P "i"; P "x"] (Op "+" [Name "x"; Name "i"]));
        Expr (Call (Attr (Name "lax") "fori_loop") [Name "start"; Name "stop";
            Name "function_body"; Name "init_val"]) ];
      code 516
      [ Def "python_check_positive_even" [] [P "x"]
          [ Assign (Name "is_even") (Op "==" [Op "%" [Name "x"; Num "2"]; Num "0"]);
            Return (Op "and" [Name "is_even"; Op ">" [Name "x"; Num "0"]]) ];
        Def "jax_check_positive_even" [Name "jit"] [P "x"]
          [ Assign (Name "is_even") (Op "==" [Op "%" [Name "x"; Num "2"]; Num "0"]);
            Return (Call (Attr (Name "jnp") "logical_and") [Name "is_even"; Op ">" [Name "x";
                Num "0"]]) ];
        Expr (Call (Name "print") [Call (Name "python_check_positive_even") [Num "2"]]);
        Expr (Call (Name "print") [Call (Name "jax_check_positive_even") [Num "5"]]) ];
      code 543
      [ Assign (Name "x") (Call (Attr (Name "jnp") "array") [ListLit [Num "1"; Num "2"; Num "3";
          Num "4"; Num "5"; Num "6"]]);
        Expr (Call (Name "print") [Call (Name "jax_check_positive_even") [Name "x"]]) ];
      code 570
      [ Def "f" [] [P "x"]
          [ If (Op "<" [Name "x"; Num "3"])
              [ Return (Op "*" [Num "30"; Op "**" [Name "x"; Num "2"]]) ]
              [ Return (Op "*" [Op "-" [Num "4"]; Name "x"]) ] ];
        Expr (Call (Name "print") [Call (Call (Name "grad") [Name "f"]) [Num "3."]]);
        Expr (Call (Name "print") [Call (Call (Name "grad") [Name "f"]) [Num "2."]]) ];
      code 585
      [] ] |}.

Definition repository : list notebook :=
  [ auto_vectorization; jax_basics; gradient_checkpoint; pytrees;
    auto_differentiation; part_000; part_001 ].

End Notebooks.


(** * Batched convolution ([src/auto_vectorization.ipynb], lines 27-103)

    The three functions are embedded over an arbitrary scalar type [R].
    The arithmetic of the array elements is left to three operations of
    the library: [mul], the product of two elements; [inner u v], what
    [jnp.dot] returns for two 1-D arrays of one length; and [sum v],
    what [jnp.sum] returns for a 1-D array.  How [jnp.dot] and [jnp.sum]
    add up, and in which order, is the library's business: in floating
    point [inner u v] need not be [sum] of the products.  A raised
    exception is [None]. *)

Module Arrays.
Section Arrays.
Context {R : Type} (mul : R -> R -> R).
Context (inner : list R -> list R -> R) (sum : list R -> R).

(** A 1-D array is the list of its elements.  A 2-D array of shape
    [(B, n)] keeps [n] beside its [B] rows: an array without rows still
    has a width. *)
Record array2 := Array2 {
  width : nat;
  rows : list (list R)
}.

Definition shape (a : array2) : nat * nat := (length (rows a), width a).

Definition well_shaped (a : array2) : Prop :=
  Forall (fun r => length r = width a) (rows a).

(** [jnp.dot(u, v)] of two 1-D arrays: the lengths must agree. *)
Definition dot (u v : list R) : option R :=
  if decide (length u = length v) then Some (inner u v) else None.

(** [v[lo:hi]] for [0 <= lo]: the end is clamped to the array. *)
Definition slice (lo hi : nat) (v : list R) : list R :=
  take (hi - lo) (drop lo v).

(** Entry [i] of the convolution of [x] with [w], as [convolve]
    computes it: [jnp.dot(x[i-1:i+2], w)]. *)
Definition window (x w : list R) (i : nat) : R :=
  inner (slice (i - 1) (i + 2) x) w.

(** The same entry as [manually_vectorized_convolve] computes it:
    [jnp.sum(x[i-1:i+2] * w)]. *)
Definition window_sum (x w : list R) (i : nat) : R :=
  sum (zip_with mul (slice (i - 1) (i + 2) x) w).

(** <<
    def convolve(x, w):
        output = []
        for i in range(1, len(x)-1):
            output.append(jnp.dot(x[i-1:i+2], w))
        return jnp.array(output)
    >> *)
Definition convolve (x w : list R) : option (list R) :=
  mapM (fun i => dot (slice (i - 1) (i + 2) x) w) (seq 1 (length x - 2)).

(** [a[i]] for a 2-D array: row [i]; an index past the last row is
    clamped to it, and an array without rows has no row to give. *)
Definition row (i : nat) (a : array2) : option (list R) :=
  rows a !! (i `min` (length (rows a) - 1)).

(** [jnp.stack(vs)]: at least one array, all of one length. *)
Definition stack (vs : list (list R)) : option array2 :=
  match vs with
  | [] => None
  | v :: _ =>
      if forallb (fun u => Nat.eqb (length u) (length v)) vs
      then Some (Array2 (length v) vs) else None
  end.

(** <<
    def manually_batched_convolve(xs, ws):
        output = []
        for i in range(xs.shape[0]):
            output.append(convolve(xs[i], ws[i]))
        return jnp.stack(output)
    >> *)
Definition manually_batched_convolve (xs ws : array2) : option array2 :=
  output ← mapM (fun i => x ← row i xs; w ← row i ws; convolve x w)
                (seq 0 (length (rows xs)));
  stack output.

(** [a[:, lo:hi]]. *)
Definition slice_columns (lo hi : nat) (a : array2) : array2 :=
  Array2 (hi `min` width a - lo) (slice lo hi <$> rows a).

(** NumPy broadcasting of one dimension: equal sizes, or one of them 1. *)
Definition broadcast (m n : nat) : option nat :=
  if decide (m = n) then Some m
  else if decide (m = 1) then Some n
  else if decide (n = 1) then Some m
  else None.

(** A dimension of size 1 repeated [n] times. *)
Definition stretch {A} (n : nat) (l : list A) : list A :=
  match l with
  | [x] => replicate n x
  | _ => l
  end.

(** [a * b] for two 2-D arrays, with broadcasting. *)
Definition multiply (a b : array2) : option array2 :=
  B ← broadcast (length (rows a)) (length (rows b));
  n ← broadcast (width a) (width b);
  Some (Array2 n
          (zip_with (fun r s => zip_with mul (stretch n r) (stretch n s))
                    (stretch B (rows a)) (stretch B (rows b)))).

(** [jnp.sum(a, axis=1)]. *)
Definition sum_rows (a : array2) : list R := sum <$> rows a.

(** The rows of the array whose columns are [cols], each of length [B]. *)
Fixpoint transpose (B : nat) (cols : list (list R)) : list (list R) :=
  match cols with
  | [] => replicate B []
  | c :: cs => zip_with cons c (transpose B cs)
  end.

(** [jnp.stack(vs, axis=1)]: at least one array, all of one length;
    the arrays become the columns of the result. *)
Definition stack_columns (vs : list (list R)) : option array2 :=
  match vs with
  | [] => None
  | v :: _ =>
      if forallb (fun u => Nat.eqb (length u) (length v)) vs
      then Some (Array2 (length vs) (transpose (length v) vs)) else None
  end.

(** <<
    def manually_vectorized_convolve(xs, ws):
        output = []
        for i in range(1, xs.shape[1]-1):
            output.append(jnp.sum(xs[:, i-1:i+2] * ws, axis=1))
        return jnp.stack(output, axis=1)
    >> *)
Definition manually_vectorized_convolve (xs ws : array2) : option array2 :=
  output ← mapM (fun i => sum_rows <$> multiply (slice_columns (i - 1) (i + 2) xs) ws)
                (seq 1 (width xs - 2));
  stack_columns output.

End Arrays.

Arguments array2 : clear implicits.
Arguments Array2 {R} width rows.

(** Integer elements: the arithmetic is exact, and both reductions give
    the sum of the products. *)
Definition sum_Z (v : list Z) : Z := foldr Z.add 0%Z v.

Definition inner_Z (u v : list Z) : Z := sum_Z (zip_with Z.mul u v).

(** Elements in binary32, with two reductions that add the same
    numbers in different orders: one after the other from the first
    on, and in two running sums, one for the even and one for the odd
    positions, that are added at the end. *)
Definition inner_in_order (u v : list spec_float) : spec_float :=
  foldl (SFadd 24 128) (S754_zero false) (zip_with (SFmul 24 128) u v).

Fixpoint two_lanes (even odd : spec_float) (v : list spec_float)
    : spec_float * spec_float :=
  match v with
  | [] => (even, odd)
  | a :: v' => two_lanes odd (SFadd 24 128 even a) v'
  end.

Definition sum_two_lanes (v : list spec_float) : spec_float :=
  let (a, b) := two_lanes (S754_zero false) (S754_zero false) v in
  if Nat.even (length v) then SFadd 24 128 a b else SFadd 24 128 b a.

End Arrays.

(** * Pytrees ([src/gradient_checkpoint.ipynb], second notebook)

    A pytree is a leaf or a container of pytrees: [None], a list, a
    tuple, a dictionary, or an instance of a class that is registered
    as a pytree node (a named tuple, or a class the notebook registers
    itself, as it does with [RegisteredSpecial]).  A dictionary is the
    list of its items in insertion order; its keys are strings, each at
    most once.  An instance of a registered class is held as the name
    of its class and the children its flattening recipe gives.
    Everything else is a leaf: numbers, arrays, strings, instances of
    classes that are not registered.  [jax.tree.map], which the
    notebook calls, belongs to the library: it is modelled here by what
    it does to these containers in the version the notebook ran with
    (0.4.30).  A raised exception is [None]. *)

Module Pytree.
Section Pytree.
Context {A : Type}.

Inductive pytree :=
  | Leaf (a : A)
  | PNone
  | PList (ts : list pytree)
  | PTuple (ts : list pytree)
  | PDict (items : list (string * pytree))
  | PNode (cls : string) (ts : list pytree).

Definition is_leaf (t : pytree) : bool :=
  match t with Leaf _ => true | _ => false end.

(** [d[k]]: the value of the first item with key [k]. *)
Fixpoint dict_get (k : string) (items : list (string * pytree)) : option pytree :=
  match items with
  | [] => None
  | (k', v) :: items' => if String.eqb k k' then Some v else dict_get k items'
  end.

(** The children of [r] when [r] is a list of [n] elements. *)
Definition list_children (n : nat) (r : pytree) : option (list pytree) :=
  match r with
  | PList rs => if decide (length rs = n) then Some rs else None
  | _ => None
  end.

(** The children of [r] when [r] is a tuple of [n] elements. *)
Definition tuple_children (n : nat) (r : pytree) : option (list pytree) :=
  match r with
  | PTuple rs => if decide (length rs = n) then Some rs else None
  | _ => None
  end.

(** The children of [r] when [r] is an instance of the registered class
    [cls] with [n] children. *)
Definition node_children (cls : string) (n : nat) (r : pytree)
    : option (list pytree) :=
  match r with
  | PNode c rs =>
      if String.eqb c cls then
        if decide (length rs = n) then Some rs else None
      else None
  | _ => None
  end.

(** The children of [r] when [r] is a dictionary with exactly the keys
    [keys]: its values, in the order of [keys]. *)
Definition dict_children (keys : list string) (r : pytree) : option (list pytree) :=
  match r with
  | PDict items =>
      if decide (length items = length keys)
      then mapM (fun k => dict_get k items) keys else None
  | _ => None
  end.

Section Children.
Variable rec : pytree -> list pytree -> option pytree.

(** [rec] on every child of a node, each with the matching children of
    the other trees: [css] holds, for every other tree, its children. *)
Fixpoint map_children (ts : list pytree) (css : list (list pytree))
    : option (list pytree) :=
  match ts with
  | [] => Some []
  | t :: ts' =>
      r ← mapM head css ≫= rec t;
      rs ← map_children ts' (tail <$> css);
      Some (r :: rs)
  end.

Fixpoint map_items (items : list (string * pytree)) (css : list (list pytree))
    : option (list (string * pytree)) :=
  match items with
  | [] => Some []
  | (k, t) :: items' =>
      r ← mapM head css ≫= rec t;
      rs ← map_items items' (tail <$> css);
      Some ((k, r) :: rs)
  end.

End Children.

(** The items of a dictionary in the order of their keys: the library
    lays out the dictionaries it builds that way. *)
Definition sort_items (items : list (string * pytree)) : list (string * pytree) :=
  merge_sort (fun a b => String.leb a.1 b.1) items.

(** [jax.tree.map(f, t, *rest)]: [f] is called at every leaf of [t] with
    that leaf and what the trees of [rest] hold at the same place; the
    result has the structure of [t].  Every tree of [rest] must have
    the containers of [t] where [t] has them (a list or tuple of the
    same length, a dictionary with the same keys, an instance of the
    same registered class); what it holds where [t] has a leaf is
    passed to [f] as it is, and what it holds where [t] has [None], a
    container without children, is not looked at. *)
Fixpoint tree_map (f : list pytree -> pytree) (t : pytree) (rest : list pytree)
    : option pytree :=
  match t with
  | Leaf _ => Some (f (t :: rest))
  | PNone => Some PNone
  | PList ts =>
      css ← mapM (list_children (length ts)) rest;
      PList <$> map_children (tree_map f) ts css
  | PTuple ts =>
      css ← mapM (tuple_children (length ts)) rest;
      PTuple <$> map_children (tree_map f) ts css
  | PDict items =>
      css ← mapM (dict_children items.*1) rest;
      PDict ∘ sort_items <$> map_items (tree_map f) items css
  | PNode cls ts =>
      css ← mapM (node_children cls (length ts)) rest;
      PNode cls <$> map_children (tree_map f) ts css
  end.

(** <<
    def tree_transpose(list_of_trees):
        return jax.tree.map(lambda *xs: list(xs), *list_of_trees)
    >>
    Without a tree the call has no first argument and raises. *)
Definition tree_transpose (list_of_trees : list pytree) : option pytree :=
  match list_of_trees with
  | [] => None
  | t :: rest => tree_map PList t rest
  end.

(** The values of [items] at the keys [keys], one per key. *)
Definition values_at (keys : list string) (items : list (string * pytree))
    (cs : list pytree) : Prop :=
  Forall2 (fun k c => dict_get k items = Some c) keys cs.

(** What transposing the dictionaries [d :: ds] puts at the key of the
    item [kv] of [d]: the list of the values of that key. *)
Definition transposed_item (ds : list (list (string * pytree)))
    (kv out : string * pytree) : Prop :=
  exists vals, mapM (dict_get kv.1) ds = Some vals /\
               out = (kv.1, PList (kv.2 :: vals)).

End Pytree.

Arguments pytree : clear implicits.

End Pytree.

(** * A registered pytree node ([src/gradient_checkpoint.ipynb], lines 696-775) *)

Module Special.

(** The two classes of the notebook: [Special], and its subclass
    [RegisteredSpecial], the one that is registered. *)
Inductive class := Special | RegisteredSpecial.

(** An instance: its class and its two fields, set by [__init__]. *)
Record object (V : Type) := Object {
  cls : class;
  x : V;
  y : V
}.

Arguments Object {V}.
Arguments cls {V}.
Arguments x {V}.
Arguments y {V}.

(** <<
    def special_flatten(v):
        children = (v.x, v.y)
        aux_data = None
        return (children, aux_data)
    >> *)
Definition special_flatten {V} (v : object V) : list V * unit :=
  let children := [x v; y v] in
  let aux_data := tt in
  (children, aux_data).

(** <<
    def special_unflatten(aux_data, children):
        return RegisteredSpecial( *children )
    >>
    [__init__] takes exactly two arguments besides [self]. *)
Definition special_unflatten {V} (aux_data : unit) (children : list V)
    : option (object V) :=
  match children with
  | [a; b] => Some (Object RegisteredSpecial a b)
  | _ => None
  end.

End Special.


(** * Floating-point values

    Array elements and Python floats are IEEE 754 binary floats, taken
    from the specification of the Standard Library ([spec_float]): JAX
    computes in binary32 by default, Python in binary64. *)

Module Float.
Section Format.
Variables prec emax : Z.

(** The float of an integer. *)
Definition of_Z (z : Z) : spec_float := binary_normalize prec emax z 0 false.

(** [jnp.round(x)]: the nearest integer, halves to the even one; zeros,
    infinities and NaN are returned as they are, and a zero result keeps
    the sign of [x]. *)
Definition round (x : spec_float) : spec_float :=
  match x with
  | S754_finite s m e =>
      if (0 <=? e)%Z then x
      else
        let mrs := fst (shr (shr_record_of_loc (Zpos m) loc_Exact) e (- e)) in
        binary_normalize prec emax
          (cond_Zopp s (round_nearest_even (shr_m mrs) (loc_of_shr_record mrs)))
          0 s
  | _ => x
  end.

Definition is_finite (x : spec_float) : bool :=
  match x with
  | S754_zero _ | S754_finite _ _ _ => true
  | S754_infinity _ | S754_nan => false
  end.

End Format.
End Float.

(** * The straight-through estimator ([src/unnamed/part_000], lines 197-205) *)

Module StraightThrough.
Section Format.
Variables prec emax : Z.

(** [jax.lax.stop_gradient(x)]: the identity on values. *)
Definition stop_gradient (x : spec_float) : spec_float := x.

(** <<
    def f(x):
        return jnp.round(x)
    >> *)
Definition f (x : spec_float) : spec_float := Float.round prec emax x.

(** <<
    def straight_through_f(x):
        zero = x - jax.lax.stop_gradient(x)
        return zero + jax.lax.stop_gradient(f(x))
    >> *)
Definition straight_through_f (x : spec_float) : spec_float :=
  let zero := SFsub prec emax x (stop_gradient x) in
  SFadd prec emax zero (stop_gradient (f x)).

End Format.
End StraightThrough.

(** * Branching under [jit] ([src/unnamed/part_001])

    [jit] runs the Python function once with a tracer in the place of
    every argument that is not static.  A tracer stands for all arrays
    of a shape and type: arithmetic and comparisons on it give tracers,
    and converting it to a Python boolean raises
    [TracerBoolConversionError].  A Python number is a binary64 float;
    the arrays the compiled function computes with and returns are
    binary32. *)

Module Jit.

Inductive value :=
  | Float (x : spec_float)
  | Bool (b : bool)
  | Tracer.

Inductive result (A : Type) :=
  | Ok (a : A)
  | TracerBoolConversionError.

Arguments Ok {A}.
Arguments TracerBoolConversionError {A}.

(** The binary32 float nearest to a float. *)
Definition to_binary32 (x : spec_float) : spec_float :=
  match x with
  | S754_finite s m e => binary_normalize 24 128 (cond_Zopp s (Zpos m)) e s
  | _ => x
  end.

(** A Python number as the array [jit] makes of it. *)
Definition as_array (v : value) : value :=
  match v with
  | Float x => Float (to_binary32 x)
  | _ => v
  end.

(** [bool(v)], as [if], [while], [and], [or] and [not] take it. *)
Definition truth (v : value) : result bool :=
  match v with
  | Bool b => Ok b
  | Float x => Ok (negb (SFeqb x (S754_zero false)))
  | Tracer => TracerBoolConversionError
  end.

Definition lt (a b : value) : value :=
  match a, b with
  | Float x, Float y => Bool (SFltb x y)
  | _, _ => Tracer
  end.

Definition gt (a b : value) : value := lt b a.

(** The functions of the notebook, run on floats of the format
    [(prec, emax)]: binary64 when Python runs them on a Python number,
    binary32 when the compiled program runs on an array. *)
Section Format.
Variables prec emax : Z.

(** A number written in the source. *)
Definition num (z : Z) : value := Float (Float.of_Z prec emax z).

Definition mul (a b : value) : value :=
  match a, b with
  | Float x, Float y => Float (SFmul prec emax x y)
  | _, _ => Tracer
  end.

(** [x ** 2]. *)
Definition square (a : value) : value := mul a a.

(** <<
    def f(x):
      if x < 3:
        return 3. * x ** 2
      else:
        return -4 * x
    >>
    (lines 182-186; the commented-out cells at lines 74-80 and 144-151
    hold the same function under [@jit].) *)
Definition f (x : value) : result value :=
  match truth (lt x (num 3)) with
  | Ok true => Ok (mul (num 3) (square x))
  | Ok false => Ok (mul (num (-4)) x)
  | TracerBoolConversionError => TracerBoolConversionError
  end.

(** <<
    def g(x):
        return (x >0) and (x <3)
    >>
    (commented out, lines 83-86): [and] converts its first operand to a
    boolean and gives it back when it is false. *)
Definition g (x : value) : result value :=
  match truth (gt x (num 0)) with
  | Ok true => Ok (lt x (num 3))
  | Ok false => Ok (gt x (num 0))
  | TracerBoolConversionError => TracerBoolConversionError
  end.

End Format.

(** [jit(fn)] and [jit(fn, static_argnames=...)] for a function of one
    argument, called on the Python number [x].  A static argument is
    passed to the Python function as it is, and what the function
    returns becomes a binary32 array.  For a traced argument the
    function is first run on a tracer; the program this gives runs on
    the binary32 array of [x]. *)
Definition jit (static : bool) (fn : Z -> Z -> value -> result value) (x : value)
    : result value :=
  if static then
    match fn 53%Z 1024%Z x with
    | Ok v => Ok (as_array v)
    | TracerBoolConversionError => TracerBoolConversionError
    end
  else
    match fn 24%Z 128%Z Tracer with
    | Ok _ => fn 24%Z 128%Z (as_array x)
    | TracerBoolConversionError => TracerBoolConversionError
    end.

End Jit.

(** * Loops and branches written in Python ([src/unnamed/part_001])

    The notebook writes out in Python what [lax.cond], [lax.while_loop]
    and [lax.fori_loop] compute, and sums array elements with [for]
    loops.  Python integers are unbounded ([Z]).  A [while] loop need
    not end: [while_loop] takes the number of times the condition may be
    tested, and [None] says that the loop was still running then. *)

Module ControlFlow.

(** [range(start, stop)]. *)
Definition range (start stop : Z) : list Z :=
  (fun k => (start + Z.of_nat k)%Z) <$> seq 0 (Z.to_nat (stop - start)).

Section Loops.
Context {A : Type}.

(** <<
    def cond(pred, true_fun, false_fun, arg):
      if pred:
        return true_fun(arg)
      else:
        return false_fun(arg)
    >> *)
Definition cond {B} (pred : bool) (true_fun false_fun : A -> B) (arg : A) : B :=
  if pred then true_fun arg else false_fun arg.

(** <<
    def while_loop(cond_fun, body_fun, init_val):
      val = init_val
      while cond_fun(val):
        val = body_fun(val)
      return val
    >> *)
Fixpoint while_loop (fuel : nat) (cond_fun : A -> bool) (body_fun : A -> A)
    (init_val : A) : option A :=
  match fuel with
  | 0 => None
  | S fuel' =>
      let val := init_val in
      if cond_fun val then while_loop fuel' cond_fun body_fun (body_fun val)
      else Some val
  end.

(** <<
    def fori_loop(start, stop, body_func, init_val):
        val = init_val
        for i in range(start, stop):
            val = body_func(i, val)
        return val
    >> *)
Definition fori_loop (start stop : Z) (body_func : Z -> A -> A) (init_val : A) : A :=
  foldl (fun val i => body_func i val) init_val (range start stop).

(** A [for] loop whose body can raise: the body is run for every index
    in turn, from the value the pass before left. *)
Fixpoint for_each (idx : list nat) (body : nat -> A -> option A) (val : A)
    : option A :=
  match idx with
  | [] => Some val
  | i :: idx' => body i val ≫= for_each idx' body
  end.

End Loops.

Section Sums.
Context {R : Type} (zero : R) (add : R -> R -> R).

(** [x[i]] for a 1-D array and [0 <= i]: an index past the end is
    clamped to the last element, and an empty array has no element. *)
Definition item (i : nat) (x : list R) : option R :=
  x !! (i `min` (length x - 1)).

(** <<
    @jit
    def g(x):
        y = 0.
        for i in range(x.shape[0]):
            y = y + x[i]
        return y
    >>
    The loop bound is the shape of [x], which tracing knows: the loop is
    unrolled. *)
Definition g (x : list R) : option R :=
  let y := zero in
  for_each (seq 0 (length x)) (fun i y => xi ← item i x; Some (add y xi)) y.

(** <<
    def f(x, n):
      y = 0.0
      for i in range(n):
        y = y + x[i]
      return y
    f_jitted = jit(f, static_argnames='n')
    >>
    [n] is static: the loop runs in Python with the number passed. *)
Definition f (x : list R) (n : nat) : option R :=
  let y := zero in
  for_each (seq 0 n) (fun i y => xi ← item i x; Some (add y xi)) y.

End Sums.

End ControlFlow.

(** * [and] against [jnp.logical_and] ([src/unnamed/part_001], lines 516-523)

    The arguments are Python integers.  [jit] turns an integer argument
    into a 32-bit array, which a larger integer does not fit, and runs
    the function on a tracer first. *)

Module PositiveEven.

Inductive value :=
  | Int (z : Z)
  | Bool (b : bool)
  | Tracer.

Inductive error := TracerBoolConversionError | OverflowError.

Inductive result :=
  | Ok (v : value)
  | Raised (e : error).

(** A number as an integer: [True] is 1 and [False] is 0. *)
Definition as_int (v : value) : option Z :=
  match v with
  | Int z => Some z
  | Bool b => Some (Z.b2z b)
  | Tracer => None
  end.

(** [bool(v)]. *)
Definition truth (v : value) : option bool :=
  match v with
  | Int z => Some (negb (z =? 0)%Z)
  | Bool b => Some b
  | Tracer => None
  end.

(** [v % 2]: the remainder has the sign of the divisor. *)
Definition mod2 (v : value) : value :=
  match as_int v with
  | Some z => Int (z mod 2)
  | None => Tracer
  end.

(** [v == 0]. *)
Definition eq0 (v : value) : value :=
  match as_int v with
  | Some z => Bool (z =? 0)%Z
  | None => Tracer
  end.

(** [v > 0]. *)
Definition gt0 (v : value) : value :=
  match as_int v with
  | Some z => Bool (0 <? z)%Z
  | None => Tracer
  end.

(** [jnp.logical_and(a, b)]: no conversion to a Python boolean. *)
Definition logical_and (a b : value) : value :=
  match truth a, truth b with
  | Some p, Some q => Bool (p && q)
  | _, _ => Tracer
  end.

(** <<
    def python_check_positive_even(x):
        is_even = x % 2 == 0
        return is_even and (x > 0)
    >>
    [and] converts its first operand to a boolean and gives it back
    when it is false. *)
Definition python_check_positive_even (x : value) : result :=
  let is_even := eq0 (mod2 x) in
  match truth is_even with
  | Some true => Ok (gt0 x)
  | Some false => Ok is_even
  | None => Raised TracerBoolConversionError
  end.

(** <<
    @jit
    def jax_check_positive_even(x):
        is_even = x % 2 == 0
        return jnp.logical_and(is_even, x > 0)
    >>
    (the function under the decorator). *)
Definition jax_check_positive_even (x : value) : result :=
  let is_even := eq0 (mod2 x) in
  Ok (logical_and is_even (gt0 x)).

(** What fits a 32-bit integer array. *)
Definition fits_int32 (v : value) : bool :=
  match v with
  | Int z => (- 2 ^ 31 <=? z)%Z && (z <? 2 ^ 31)%Z
  | _ => true
  end.

(** [jit(fn)(x)]. *)
Definition jit (fn : value -> result) (x : value) : result :=
  if fits_int32 x then
    match fn Tracer with
    | Ok _ => fn x
    | Raised e => Raised e
    end
  else Raised OverflowError.

End PositiveEven.

(** * A chain of layers ([src/gradient_checkpoint.ipynb], lines 38-46)

    The elements are of an arbitrary type [R]; [inner r x] is the
    product of a row with a vector as the library computes it, and
    [sin] is any function on [R].  A raised exception is [None]. *)

Module Checkpoint.
Import Arrays.
Section Checkpoint.
Context {R : Type} (inner : list R -> list R -> R) (sin : R -> R).

(** [jnp.dot(W, x)] of a 2-D array and a 1-D array: the rows of [W]
    must be as long as [x]. *)
Definition dot (W : array2 R) (x : list R) : option (list R) :=
  if decide (width W = length x)
  then Some ((fun r => inner r x) <$> rows W)
  else None.

(** <<
    def g(W, x):
        y = jnp.dot(W, x)
        return jnp.sin(y)
    >> *)
Definition g (W : array2 R) (x : list R) : option (list R) :=
  y ← dot W x;
  Some (fmap (M:=list) sin y).

(** <<
    def f(W1, W2, W3, x):
        x = g(W1, x)
        x = g(W2, x)
        x = g(W3, x)
        return x
    >> *)
Definition f (W1 W2 W3 : array2 R) (x : list R) : option (list R) :=
  x ← g W1 x;
  x ← g W2 x;
  x ← g W3 x;
  Some x.

End Checkpoint.
End Checkpoint.

(** * A multi-layer perceptron ([src/gradient_checkpoint.ipynb], lines 602-651)

    The elements are of an arbitrary type [R]; [inner r c] is the
    product of a row with a column as the library's [@] computes it.
    [np.random] draws from a generator whose state [G] every draw
    changes; an array is filled row by row.  [sqrt_2_over n] is
    [np.sqrt(2/n)] for [n > 0]; for [n = 0] the division raises.  A
    layer is a dictionary with the keys ['weights'] and ['bias'].  A
    raised exception is [None]. *)

Module MLP.
Import Arrays.
Section MLP.
Context {R G : Type} (one : R) (add mul : R -> R -> R).
Context (inner : list R -> list R -> R).
Context (relu : R -> R) (sqrt_2_over : nat -> R) (draw : G -> R * G).

Record layer := Layer {
  weights : array2 R;
  bias : list R
}.

(** A layer that takes [p.1] inputs to [p.2] outputs. *)
Definition fits (l : layer) (p : nat * nat) : Prop :=
  shape (weights l) = p /\ well_shaped (weights l) /\ length (bias l) = p.2.

(** [n] draws in a row. *)
Fixpoint draws (n : nat) (rng : G) : list R * G :=
  match n with
  | 0 => ([], rng)
  | S n' =>
      let (a, rng) := draw rng in
      let (l, rng) := draws n' rng in
      (a :: l, rng)
  end.

Fixpoint draw_rows (n m : nat) (rng : G) : list (list R) * G :=
  match n with
  | 0 => ([], rng)
  | S n' =>
      let (r, rng) := draws m rng in
      let (rs, rng) := draw_rows n' m rng in
      (r :: rs, rng)
  end.

(** [np.random.normal(size=(n, m))]. *)
Definition normal (n m : nat) (rng : G) : array2 R * G :=
  let (rs, rng) := draw_rows n m rng in (Array2 m rs, rng).

(** [a * c] for a 2-D array and a number. *)
Definition scale (a : array2 R) (c : R) : array2 R :=
  Array2 (width a) (fmap (M:=list) (fun v => mul v c) <$> rows a).

(** [np.ones(shape=(n,))]. *)
Definition ones (n : nat) : list R := replicate n one.

(** The body of the loop of [init_mlp_params], for the pairs of widths
    that are left. *)
Fixpoint init_layers (pairs : list (nat * nat)) (rng : G)
    : option (list layer * G) :=
  match pairs with
  | [] => Some ([], rng)
  | (n_in, n_out) :: pairs' =>
      let (a, rng) := normal n_in n_out rng in
      if decide (n_in = 0) then None
      else
        let l := Layer (scale a (sqrt_2_over n_in)) (ones n_out) in
        '(params, rng) ← init_layers pairs' rng;
        Some (l :: params, rng)
  end.

(** <<
    def init_mlp_params(layer_widths):
        params = []
        for n_in, n_out in zip(layer_widths[:-1], layer_widths[1:]):
            params.append(
                dict(weights=np.random.normal(size=(n_in, n_out)) * np.sqrt(2/n_in),
                     bias=np.ones(shape=(n_out,)))
            )
        return params
    >> *)
Definition init_mlp_params (layer_widths : list nat) (rng : G)
    : option (list layer * G) :=
  init_layers (zip (take (length layer_widths - 1) layer_widths)
                   (drop 1 layer_widths)) rng.

(** [x @ W] for two 2-D arrays: the rows of [x] must be as long as [W]
    has rows. *)
Definition matmul (x W : array2 R) : option (array2 R) :=
  if decide (width x = length (rows W))
  then Some (Array2 (width W)
               ((fun r => (fun c => inner r c) <$> transpose (width W) (rows W))
                  <$> rows x))
  else None.

(** [a + b] for a 2-D and a 1-D array, with broadcasting. *)
Definition add_bias (a : array2 R) (b : list R) : option (array2 R) :=
  n ← broadcast (width a) (length b);
  Some (Array2 n ((fun r => zip_with add (stretch n r) (stretch n b)) <$> rows a)).

(** [jax.nn.relu(a)]. *)
Definition relu_all (a : array2 R) : array2 R :=
  Array2 (width a) (fmap (M:=list) relu <$> rows a).

(** The loop of [forward] over the hidden layers. *)
Fixpoint hidden_layers (hidden : list layer) (x : array2 R) : option (array2 R) :=
  match hidden with
  | [] => Some x
  | layer :: hidden' =>
      x ← matmul x (weights layer) ≫= (fun a => add_bias a (bias layer));
      hidden_layers hidden' (relu_all x)
  end.

(** <<
    def forward(params, x):
        *hidden, last = params
        for layer in hidden:
            x = jax.nn.relu(x @ layer['weights'] + layer['bias'])
        return x @ last['weights'] + last['bias']
    >>
    for a batch [x] of inputs, one per row.  Unpacking a list without
    elements raises. *)
Definition forward (params : list layer) (x : array2 R) : option (array2 R) :=
  match last params with
  | None => None
  | Some last =>
      let hidden := take (length params - 1) params in
      x ← hidden_layers hidden x;
      matmul x (weights last) ≫= (fun a => add_bias a (bias last))
  end.

End MLP.

Arguments layer : clear implicits.
Arguments Layer {R} weights bias.
Arguments weights {R}.
Arguments bias {R}.

End MLP.

(** * Theorems *)

Import Py Notebooks.

(** Membership in a list that computes to a literal. *)
Ltac in_list := vm_compute; repeat (first [left; reflexivity | right]).

(** * Names: what a run binds stays bound *)

Lemma check_Done (env : gset string) (xs : list string) (k : outcome) (env' : gset string) :
  check env xs k = Done env' -> k = Done env'.
Proof. unfold check. by destruct (unbound env xs). Qed.

Lemma bind_app (env : gset string) (xs ys : list string) :
  bind (bind env xs) ys = bind env (xs ++ ys).
Proof. unfold bind. by rewrite list_to_set_app_L, (assoc_L (∪)). Qed.

Lemma bind_nil (env : gset string) : bind env [] = env.
Proof. unfold bind. cbn. by rewrite (right_id_L ∅ (∪)). Qed.

#[local] Arguments own_loads : simpl never.

(** A statement that runs binds the names [binds] gives, and no other. *)
Lemma exec_binds (s : stmt) (strict : bool) (env env' : gset string) :
  exec strict env s = Done env' -> env' = bind env (binds s).
Proof.
  revert s strict env env'. fix exec_binds 1. intros s strict env env'.
  assert (forall body env env',
    Forall (fun s' => forall env env',
              exec strict env s' = Done env' -> env' = bind env (binds s')) body ->
    (fix seq (ss : list stmt) (env : gset string) : outcome :=
       match ss with
       | [] => Done env
       | s' :: ss' =>
           match exec strict env s' with
           | Done env' => seq ss' env'
           | NameError x => NameError x
           end
       end) body env = Done env' ->
    env' = bind env (flat_map binds body)) as Hseq.
  { intros body. induction body as [|s' body IH]; intros e e' Hall Hrun.
    - injection Hrun as <-. by rewrite bind_nil.
    - inversion Hall as [|? ? Hs' Hbody]; subst. cbn in Hrun.
      destruct (exec strict e s') as [e1|] eqn:He1; [|done].
      rewrite (IH _ _ Hbody Hrun), (Hs' _ _ He1). apply bind_app. }
  assert (forall body, Forall (fun s' => forall env env',
              exec strict env s' = Done env' -> env' = bind env (binds s')) body)
    as Hall.
  { intros body. induction body as [|s' body IH]; constructor; [|done].
    intros e e'. apply exec_binds. }
  destruct s; cbn; intros Hrun; apply check_Done in Hrun;
    try (by injection Hrun as <-).
  - apply check_Done in Hrun. by injection Hrun as <-.
  - apply check_Done in Hrun. by injection Hrun as <-.
  - apply Hseq in Hrun; [|apply Hall]. by rewrite Hrun, bind_app.
  - apply Hseq in Hrun; [done|apply Hall].
  - match type of Hrun with
    | match ?r with _ => _ end = _ => destruct r as [e1|] eqn:He1; [|done]
    end.
    apply Hseq in He1; [|apply Hall]. apply Hseq in Hrun; [|apply Hall].
    by rewrite Hrun, He1, bind_app.
  - apply Hseq in Hrun; [done|apply Hall].
Qed.

Lemma exec_seq_binds (strict : bool) (ss : list stmt) (env env' : gset string) :
  exec_seq strict env ss = Done env' -> env' = bind env (flat_map binds ss).
Proof.
  revert env. induction ss as [|s ss IH]; intros env Hrun; cbn in *.
  - injection Hrun as <-. by rewrite bind_nil.
  - destruct (exec strict env s) as [e1|] eqn:He1; [|done].
    rewrite (IH _ Hrun), (exec_binds _ _ _ _ He1). apply bind_app.
Qed.

Lemma run_cells_binds (strict : bool) (cs : list cell) (env env' : gset string) :
  run_cells strict env cs = Ran env' ->
  env' = bind env (flat_map (fun c => flat_map binds (live c)) cs).
Proof.
  revert env. induction cs as [|c cs IH]; intros env Hrun; cbn in *.
  - injection Hrun as <-. by rewrite bind_nil.
  - destruct (exec_seq strict env (live c)) as [e1|] eqn:He1; [|done].
    rewrite (IH _ Hrun), (exec_seq_binds _ _ _ _ He1). apply bind_app.
Qed.

(** * Names: the strict run is the stronger check *)

Lemma unbound_None (env : gset string) (xs : list string) :
  unbound env xs = None <-> forall x, In x xs -> x ∈ env.
Proof.
  unfold unbound. split.
  - intros Hnone x Hx. pose proof (find_none _ _ Hnone x Hx) as Hb.
    apply bool_decide_eq_false in Hb. by apply dec_stable.
  - intros Hall. destruct (find _ xs) as [x|] eqn:Hfind; [|done].
    apply find_some in Hfind as [Hx Hb]. apply bool_decide_eq_true in Hb.
    by destruct Hb; apply Hall.
Qed.

Lemma check_Done_iff (env : gset string) (xs : list string) (k : outcome)
    (env' : gset string) :
  check env xs k = Done env' <-> (forall x, In x xs -> x ∈ env) /\ k = Done env'.
Proof.
  unfold check. rewrite <-unbound_None.
  destruct (unbound env xs); split; try done; intros [? ?]; done.
Qed.

Lemma in_without_mono (bound l l' : list string) (x : string) :
  (forall y, In y l -> In y l') -> In x (without bound l) -> In x (without bound l').
Proof.
  unfold without. rewrite <-!list_elem_of_In, !list_elem_of_filter.
  intros Hl [Hx Hin]. split; [done|]. by apply list_elem_of_In, Hl, list_elem_of_In.
Qed.

(** What evaluating an expression loads is among the names it
    references. *)
Lemma eval_loads_free (e : expr) (x : string) :
  In x (eval_loads e) -> In x (free_expr e).
Proof.
  revert e x. fix IH 1. intros e x.
  assert (forall es y, In y (flat_map eval_loads es) ->
                       In y (flat_map free_expr es)) as Hes.
  { induction es as [|a es IHes]; intros y; cbn; [done|].
    rewrite !in_app_iff. intros [?|?]; [left; by apply IH|right; by apply IHes]. }
  assert (forall o y, In y (opt_list eval_loads o) ->
                      In y (opt_list free_expr o)) as Hopt.
  { intros [a|] y; cbn; [apply IH|done]. }
  destruct e; cbn; rewrite ?in_app_iff; try done; try apply IH; try apply Hes.
  - intros [?|?]; [left; by apply IH|right; by apply Hes].
  - intros [?|?]; [left; by apply IH|right; by apply Hes].
  - intros [?|?]; [left; by apply Hopt|right; by apply Hopt].
  - intros [?|?]; [left; by apply IH|right; by apply IH].
  - intros [?|?]; [left; by apply IH|right].
    eapply in_without_mono; [|done]. intros y. apply IH.
Qed.

Lemma target_loads_mono (t : expr) (x : string) :
  In x (target_loads eval_loads t) -> In x (target_loads free_expr t).
Proof.
  revert t x. fix IH 1. intros t x.
  assert (forall es y, In y (flat_map (target_loads eval_loads) es) ->
                       In y (flat_map (target_loads free_expr) es)) as Hes.
  { induction es as [|a es IHes]; intros y; cbn; [done|].
    rewrite !in_app_iff. intros [?|?]; [left; by apply IH|right; by apply IHes]. }
  destruct t; cbn; rewrite ?in_app_iff; try done;
    try apply IH; try apply Hes; try apply eval_loads_free.
  intros [?|Hx]; [left; by apply eval_loads_free|right].
  apply in_flat_map in Hx as (a & Ha & Hx). apply in_flat_map.
  exists a. split; [done|]. by apply eval_loads_free.
Qed.

Lemma flat_map_eval_loads_free (es : list expr) (x : string) :
  In x (flat_map eval_loads es) -> In x (flat_map free_expr es).
Proof.
  rewrite !in_flat_map. intros (a & Ha & Hx). exists a.
  split; [done|]. by apply eval_loads_free.
Qed.

Lemma own_loads_mono (s : stmt) (x : string) :
  In x (own_loads eval_loads s) -> In x (own_loads free_expr s).
Proof.
  destruct s; unfold own_loads; rewrite ?in_app_iff; try done;
    try apply eval_loads_free; try apply flat_map_eval_loads_free.
  - intros [?|?]; [left; by apply eval_loads_free|right; by apply target_loads_mono].
  - intros [?|?]; [left; by apply target_loads_mono|right; by apply eval_loads_free].
  - intros [?|?]; [left|right]; by apply flat_map_eval_loads_free.
  - intros [?|?]; [left; by apply eval_loads_free|right; by apply target_loads_mono].
Qed.

Lemma own_loads_refs (s : stmt) (x : string) :
  In x (own_loads free_expr s) -> In x (refs s).
Proof. intros Hx. destruct s; cbn; apply in_or_app; by left. Qed.

Lemma class_body_loads_strict (body : list stmt) (x : string) :
  In x (class_body_loads false body) -> In x (class_body_loads true body).
Proof.
  unfold class_body_loads. rewrite !in_flat_map.
  intros (s & Hs & Hx). exists s. split; [done|].
  destruct s;
    try (eapply in_without_mono; [|done];
         intros y Hy; by apply own_loads_refs, own_loads_mono).
  rewrite app_nil_r in Hx. apply in_or_app. left. by apply own_loads_mono.
Qed.

(** A statement that passes the strict run passes the plain one, with
    the same names bound. *)
Lemma exec_strict (s : stmt) (env env' : gset string) :
  exec true env s = Done env' -> exec false env s = Done env'.
Proof.
  revert s env env'. fix exec_strict 1. intros s env env'.
  assert (forall body env env',
    (fix seq (ss : list stmt) (env : gset string) : outcome :=
       match ss with
       | [] => Done env
       | s' :: ss' =>
           match exec true env s' with
           | Done env' => seq ss' env'
           | NameError x => NameError x
           end
       end) body env = Done env' ->
    (fix seq (ss : list stmt) (env : gset string) : outcome :=
       match ss with
       | [] => Done env
       | s' :: ss' =>
           match exec false env s' with
           | Done env' => seq ss' env'
           | NameError x => NameError x
           end
       end) body env = Done env') as Hseq.
  { intros body. induction body as [|s' body IH]; intros e e' Hrun; [done|].
    destruct (exec true e s') as [e1|] eqn:He1; [|done].
    rewrite (exec_strict _ _ _ He1). by apply IH. }
  destruct s; cbn; rewrite !check_Done_iff; intros [Hl Hk];
    (split; [intros x Hx; by apply Hl, own_loads_mono|]); try done.
  - by destruct Hk.
  - destruct Hk as [Hb Hk]. split; [|done].
    intros x Hx. by apply Hb, class_body_loads_strict.
  - by apply Hseq.
  - by apply Hseq.
  - match type of Hk with
    | match ?r with _ => _ end = _ => destruct r as [e1|] eqn:He1; [|done]
    end.
    rewrite (Hseq _ _ _ He1). by apply Hseq.
  - by apply Hseq.
Qed.

Lemma run_cells_strict (cs : list cell) (env env' : gset string) :
  run_cells true env cs = Ran env' -> run_cells false env cs = Ran env'.
Proof.
  revert env. induction cs as [|c cs IH]; intros env Hrun; [done|]. cbn in *.
  destruct (exec_seq true env (live c)) as [e1|] eqn:He1; [|done].
  assert (exec_seq false env (live c) = Done e1) as ->; [|by apply IH].
  clear Hrun IH. revert env He1.
  induction (live c) as [|s ss IHs]; intros env He1; [done|]. cbn in *.
  destruct (exec true env s) as [e2|] eqn:He2; [|done].
  rewrite (exec_strict _ _ _ He2). by apply IHs.
Qed.

(** * What the cells define and call *)

(** C1 as stated fails on the first cell of the vectorization notebook:
    it defines [convolve], which loops over the positions of its input
    and is not the wrapper of one library call.  Nor is [print_fwd_bwd]
    of the checkpointing notebook, whose body has twelve statements,
    two of them definitions. *)
Lemma convolve_is_not_a_wrapper :
  exists (c : cell) (d d' : stmt),
    In auto_vectorization repository /\
    In c (nb_cells auto_vectorization) /\ cell_line c = 27 /\
    In d (defs_of (live c)) /\ stmt_name d = "convolve" /\
    has_control_flow d = true /\
    wraps_api_call (imported (live_code auto_vectorization)) d = false /\
    direct_cell (imported (live_code auto_vectorization)) c = false /\
    In gradient_checkpoint repository /\
    In d' (defs_of (live_code gradient_checkpoint)) /\
    stmt_name d' = "print_fwd_bwd" /\
    length (def_body d') = 12 /\
    map stmt_name (defs_of (def_body d')) = ["f_"; "g_"] /\
    wraps_api_call (imported (live_code gradient_checkpoint)) d' = false.
Proof.
  exists (hd (code 0 []) (nb_cells auto_vectorization)).
  exists (hd (Expr (Str "")) (defs_of (live_code auto_vectorization))).
  exists (nth 4 (defs_of (live_code gradient_checkpoint)) (Expr (Str ""))).
  repeat split; try reflexivity; in_list.
Qed.

(** C1, as amended: the notebooks define 51 functions of their own
    (3, 2, 8, 9, 4, 11 and 14 per notebook); 13 of them have a loop or a
    branch, 7 are a single [return] of one library call, and no function
    is both. *)
Theorem defined_functions_classified :
  map (fun nb => length (defs_of (live_code nb))) repository =
    [3; 2; 8; 9; 4; 11; 14] /\
  map (fun nb => map stmt_name
         (List.filter has_control_flow (defs_of (live_code nb)))) repository =
    [ ["convolve"; "manually_batched_convolve"; "manually_vectorized_convolve"];
      []; []; ["init_mlp_params"; "forward"]; []; [];
      ["f"; "g"; "f"; "f"; "cond"; "while_loop"; "fori_loop"; "f"] ] /\
  map (fun nb => map stmt_name
         (List.filter (wraps_api_call (imported (live_code nb)))
            (defs_of (live_code nb)))) repository =
    [ []; []; []; ["loss_fn"; "tree_transpose"]; [];
      ["hessian"; "f"; "f"; "hvp"; "hessian"]; [] ] /\
  forallb (fun nb =>
    forallb (fun d => negb (has_control_flow d &&
                            wraps_api_call (imported (live_code nb)) d))
            (defs_of (live_code nb))) repository = true.
Proof. repeat split; vm_compute; reflexivity. Qed.

(** C7 as stated fails on the notebook of the basics: the one function
    it applies transformations to is [simple_graph], elementwise
    arithmetic followed by a mean, which is no logistic regression, no
    forward pass of a perceptron and no convolution. *)
Lemma jax_basics_transforms_simple_graph :
  In jax_basics repository /\
  applied jax_basics = [ ("grad", "simple_graph"); ("jit", "simple_graph") ] /\
  List.filter (fun d => String.eqb (stmt_name d) "simple_graph")
              (defs_of (live_code jax_basics)) =
    [ Def "simple_graph" [] [P "x"]
        [ Assign (Name "x") (Op "+" [Name "x"; Num "2"]);
          Assign (Name "x") (Op "**" [Name "x"; Num "2"]);
          Assign (Name "x") (Op "+" [Name "x"; Num "3"]);
          Assign (Name "y") (Call (Attr (Name "x") "mean") []);
          Return (Name "y") ] ].
Proof. split; [in_list|]. split; vm_compute; reflexivity. Qed.

(** C7, as amended: every notebook, in the cells it runs (the cell on
    meta-learning of [src/unnamed/part_000], which was never executed,
    is left out), applies one of the transformations to a function of
    at most five statements that it defines itself.  The first table
    lists, per notebook, what is applied to what; the second lists, for
    the definitions these names have in the notebook, the functions
    they call: a convolution ([convolve]), losses of a logistic
    regression ([loss], [loss2]), a training step of a perceptron
    ([update]) and layers of sines ([g], [f], [f4]), but also plain
    arithmetic ([simple_graph]) and loops on a number (the control-flow
    notebook). *)
Theorem every_notebook_applies_a_transformation :
  map (fun nb => applied (as_run nb)) repository =
    [ [ ("vmap", "convolve"); ("jit", "convolve") ];
      [ ("grad", "simple_graph"); ("jit", "simple_graph") ];
      [ ("checkpoint", "g"); ("checkpoint", "f"); ("checkpoint", "f4") ];
      [ ("jit", "update"); ("register_pytree_node", "RegisteredSpecial") ];
      [ ("grad", "f"); ("grad", "loss2"); ("grad", "loss") ];
      [ ("grad", "td_loss"); ("grad", "value_fn");
        ("grad", "f"); ("grad", "straight_through_f");
        ("jacrev", "predict_dic"); ("jacrev", "f"); ("jacfwd", "f") ];
      [ ("jit", "g"); ("jit", "f"); ("jit", "jax_check_positive_even");
        ("grad", "f") ] ] /\
  Forall (fun nb =>
    exists (t f : string) (d : stmt),
      In (t, f) (applied (as_run nb)) /\ In t transformations /\
      In d (defs_of (live_code (as_run nb))) /\ stmt_name d = f /\
      length (flat_map substmts (def_body d)) <= 5) repository /\
  map (fun nb =>
         map (fun d => (stmt_name d, callees d))
             (List.filter
                (fun d => mem (stmt_name d) (map snd (applied (as_run nb))))
                (defs_of (live_code (as_run nb))))) repository =
    [ [ ("convolve", ["range"; "len"; "append"; "dot"; "array"]) ];
      [ ("simple_graph", ["mean"]) ];
      [ ("g", ["dot"; "sin"]); ("f", ["g"]); ("f4", ["checkpoint_name"; "g"]) ];
      [ ("update", ["grad"; "tree_map"]) ];
      [ ("loss", ["predict"; "sum"; "log"]);
        ("loss2", ["predict"; "sum"; "log"]) ];
      [ ("f", ["dot"]);
        ("td_loss", ["value_fn"; "stop_gradient"]); ("f", ["round"]);
        ("straight_through_f", ["stop_gradient"; "f"]);
        ("predict_dic", ["predict"]) ];
      [ ("f", ["range"]); ("g", ["range"]); ("f", []); ("f", []);
        ("f", ["range"]); ("jax_check_positive_even", ["logical_and"]);
        ("f", []) ] ].
Proof.
  split; [vm_compute; reflexivity|]. split; [|vm_compute; reflexivity].
  unfold repository. repeat (apply List.Forall_cons); [..|apply List.Forall_nil].
  - exists "vmap", "convolve",
      (nth 0 (defs_of (live_code auto_vectorization)) (Expr (Str ""))).
    split; [in_list|]. split; [in_list|]. split; [in_list|].
    split; [reflexivity|vm_compute; lia].
  - exists "grad", "simple_graph",
      (nth 0 (defs_of (live_code jax_basics)) (Expr (Str ""))).
    split; [in_list|]. split; [in_list|]. split; [in_list|].
    split; [reflexivity|vm_compute; lia].
  - exists "checkpoint", "g",
      (nth 0 (defs_of (live_code gradient_checkpoint)) (Expr (Str ""))).
    split; [in_list|]. split; [in_list|]. split; [in_list|].
    split; [reflexivity|vm_compute; lia].
  - exists "jit", "update",
      (nth 3 (defs_of (live_code pytrees)) (Expr (Str ""))).
    split; [in_list|]. split; [in_list|]. split; [in_list|].
    split; [reflexivity|vm_compute; lia].
  - exists "grad", "loss",
      (nth 2 (defs_of (live_code auto_differentiation)) (Expr (Str ""))).
    split; [in_list|]. split; [in_list|]. split; [in_list|].
    split; [reflexivity|vm_compute; lia].
  - exists "grad", "td_loss",
      (nth 2 (defs_of (live_code (as_run part_000))) (Expr (Str ""))).
    split; [in_list|]. split; [in_list|]. split; [in_list|].
    split; [reflexivity|vm_compute; lia].
  - exists "jit", "f",
      (nth 0 (defs_of (live_code part_001)) (Expr (Str ""))).
    split; [in_list|]. split; [in_list|]. split; [in_list|].
    split; [reflexivity|vm_compute; lia].
Qed.

(** * Names a cell references *)

(** C2 as stated fails on the MAML cell of [src/unnamed/part_000]: it
    stops with a [NameError] on [params], and the body of the function
    it defines references [loss_fn], which no cell of the notebook binds
    either.  The cell's [data] is bound by no notebook at all. *)
Lemma maml_cell_stops :
  In part_000 repository /\
  run false part_000 = Stopped 66 "params" /\
  run true part_000 = Stopped 66 "loss_fn" /\
  forallb (fun nb => negb (mem "data" (flat_map binds (live_code nb))))
          repository = true.
Proof. split; [in_list|]. repeat split; vm_compute; reflexivity. Qed.

(** C2, as amended: every notebook, run on its own in a fresh
    interpreter with the MAML cell of [src/unnamed/part_000] (line 66)
    left out, binds every name before a cell references it, the names
    in the bodies of its functions included; so no cell stops with a
    [NameError]. *)
Theorem notebooks_self_contained (nb : notebook) :
  In nb repository ->
  exists env : gset string,
    run true (if String.eqb (nb_file nb) "src/unnamed/part_000"
              then drop_cell 66 nb else nb) = Ran env /\
    run false (if String.eqb (nb_file nb) "src/unnamed/part_000"
               then drop_cell 66 nb else nb) = Ran env.
Proof.
  intros Hnb.
  assert (ran (run true (if String.eqb (nb_file nb) "src/unnamed/part_000"
                         then drop_cell 66 nb else nb)) = true) as Hran.
  { repeat destruct Hnb as [<-|Hnb]; [..|done]; vm_compute; reflexivity. }
  destruct (run true _) as [env|] eqn:Hrun; [|done].
  exists env. split; [done|]. by apply run_cells_strict.
Qed.

Lemma notebooks_self_contained_witness :
  In part_000 repository /\
  exists env : gset string,
    run true (drop_cell 66 part_000) = Ran env /\
    run false (drop_cell 66 part_000) = Ran env.
Proof.
  split; [in_list|].
  apply (notebooks_self_contained part_000). in_list.
Defined.

(** * Values that outlive their cell *)



(** * Branching under [jit] *)


(** What the compiled function returns is a binary32 array: at 0.1 the
    binary64 product 3 * 0.1 ** 2 is rounded to binary32, and at 1e200
    the binary64 number -4e200 becomes minus infinity. *)
Example jit_returns_binary32 :
  let tenth := SFdiv 53 1024 (Float.of_Z 53 1024 1) (Float.of_Z 53 1024 10) in
  Jit.jit true Jit.f (Jit.Float tenth) =
    Jit.Ok (Jit.Float (S754_finite false 16106127 (-29))) /\
  Jit.jit true Jit.f (Jit.num 53 1024 (10 ^ 200)) =
    Jit.Ok (Jit.Float (S754_infinity true)).
Proof. split; vm_compute; reflexivity. Qed.

(** * The registered flattening recipes *)

(** C5 as stated fails on the pytree notebook: it hands two functions of
    its own to [register_pytree_node] as the flattening and the
    unflattening recipe of a class, a pair that has to undo each
    other. *)
Lemma flatten_unflatten_pair_registered :
  In pytrees repository /\
  registered_pairs (live_code pytrees) =
    [ ("RegisteredSpecial", "special_flatten", "special_unflatten") ].
Proof. split; [in_list|vm_compute; reflexivity]. Qed.

(** C5, as amended: no cell asserts or raises, so the repository's code
    checks no invariant itself; it defines one pair of operations bound
    by a law, the recipes registered for [RegisteredSpecial], and they
    satisfy it: unflattening what [special_flatten] returns rebuilds the
    value, and flattening what [special_unflatten] builds gives the
    children back. *)
Theorem special_flatten_unflatten_round_trip {V : Type} (v : Special.object V) :
  Special.cls v = Special.RegisteredSpecial ->
  Special.special_unflatten (Special.special_flatten v).2
                            (Special.special_flatten v).1 = Some v /\
  (forall a b : V,
     Special.special_flatten <$> Special.special_unflatten tt [a; b] =
     Some ([a; b], tt)) /\
  flat_map (fun nb => registered_pairs (live_code nb)) repository =
    [ ("RegisteredSpecial", "special_flatten", "special_unflatten") ] /\
  forallb (fun nb =>
    forallb (fun s => negb (enforces s))
            (flat_map substmts (live_code nb ++ commented_code nb)))
    repository = true.
Proof.
  intros Hcls. destruct v as [c a b]. cbn in Hcls. subst c.
  repeat split; vm_compute; reflexivity.
Qed.

Lemma special_flatten_unflatten_round_trip_witness :
  let v := Special.Object Special.RegisteredSpecial 0%Z 1%Z in
  Special.cls v = Special.RegisteredSpecial /\
  Special.special_unflatten (Special.special_flatten v).2
                            (Special.special_flatten v).1 = Some v.
Proof.
  split; [reflexivity|].
  apply (special_flatten_unflatten_round_trip
           (Special.Object Special.RegisteredSpecial 0%Z 1%Z)).
  reflexivity.
Defined.

(** * Batched convolution: the loop over examples and the loop over
      positions *)

Import Arrays.

Section ConvolveFacts.
Context {R : Type} (mul : R -> R -> R).
Context (inner : list R -> list R -> R) (sum : list R -> R).

Lemma mapM_fmap_total {A B} (f : A -> option B) (g : A -> B) (l : list A) :
  Forall (fun a => f a = Some (g a)) l -> mapM f l = Some (g <$> l).
Proof.
  induction 1 as [|a l Ha _ IH]; [done|].
  cbn. rewrite Ha. cbn. by rewrite IH.
Qed.

Lemma slice_length (x : list R) lo hi :
  lo <= hi -> hi <= length x -> length (slice lo hi x) = hi - lo.
Proof. intros. unfold slice. rewrite length_take, length_drop. lia. Qed.

Lemma stretch_id {A} (n : nat) (l : list A) : length l = n -> stretch n l = l.
Proof. destruct l as [|a [|b l]]; cbn; intros <-; done. Qed.

Lemma zip_with_uncurry {A B C} (f : A -> B -> C) (l : list A) (k : list B) :
  zip_with f l k = (fun p => f p.1 p.2) <$> zip l k.
Proof.
  revert k. induction l as [|a l IH]; intros [|b k]; cbn; [done..|].
  by rewrite IH.
Qed.

Lemma broadcast_same (n : nat) : broadcast n n = Some n.
Proof. unfold broadcast. by rewrite decide_True. Qed.

(** [convolve] returns the windows at positions [1 .. len(x)-2]. *)
Lemma convolve_windows (x w : list R) :
  length w = 3 ->
  convolve inner x w = Some (window inner x w <$> seq 1 (length x - 2)).
Proof.
  intros Hw. apply mapM_fmap_total, Forall_forall. intros i Hi.
  apply elem_of_seq in Hi. unfold dot, window.
  rewrite decide_True; [done|]. rewrite slice_length; lia.
Qed.

(** The loop over the rows: one convolution per pair of rows. *)
Lemma batched_rows (X W : list (list R)) (wx ww n : nat) :
  length X = length W ->
  Forall (fun x => length x = n) X ->
  Forall (fun w => length w = 3) W ->
  mapM (fun i => x ← row i (Array2 wx X); w ← row i (Array2 ww W);
                 convolve inner x w) (seq 0 (length X)) =
  Some (zip_with (fun x w => window inner x w <$> seq 1 (n - 2)) X W).
Proof.
  intros HXW HX HW. apply mapM_Some, Forall2_same_length_lookup_2.
  { rewrite length_seq, length_zip_with. lia. }
  intros i j y Hj Hy. apply lookup_seq in Hj as [-> Hi].
  apply lookup_zip_with_Some in Hy as (x & w & -> & Hx & Hw).
  unfold row; cbn. rewrite <-HXW.
  replace (i `min` (length X - 1)) with i by lia.
  rewrite Hx, Hw; cbn.
  rewrite convolve_windows.
  - by rewrite (Forall_lookup_1 _ _ _ _ HX Hx).
  - apply (Forall_lookup_1 _ _ _ _ HW Hw).
Qed.

Lemma stack_Some (vs : list (list R)) (m : nat) :
  vs <> [] -> Forall (fun u => length u = m) vs ->
  stack vs = Some (Array2 m vs).
Proof.
  destruct vs as [|v vs]; [done|]. intros _ Hall. unfold stack.
  assert (length v = m) as Hv by (by inversion Hall).
  rewrite (proj2 (forallb_forall _ _)); [by rewrite Hv|].
  intros u Hu. apply Nat.eqb_eq. rewrite Hv.
  rewrite Forall_forall in Hall. apply Hall. by apply list_elem_of_In.
Qed.

Lemma stack_columns_Some (vs : list (list R)) (B : nat) :
  vs <> [] -> Forall (fun u => length u = B) vs ->
  stack_columns vs = Some (Array2 (length vs) (transpose B vs)).
Proof.
  destruct vs as [|v vs]; [done|]. intros _ Hall. unfold stack_columns.
  assert (length v = B) as Hv by (by inversion Hall).
  rewrite (proj2 (forallb_forall _ _)); [by rewrite Hv|].
  intros u Hu. apply Nat.eqb_eq. rewrite Hv.
  rewrite Forall_forall in Hall. apply Hall. by apply list_elem_of_In.
Qed.

(** One pass of the loop over the positions: column [i] of the result. *)
Lemma vectorized_column (X W : list (list R)) (n i : nat) :
  length X = length W ->
  Forall (fun x => length x = n) X ->
  Forall (fun w => length w = 3) W ->
  1 <= i -> i + 2 <= n ->
  sum_rows sum <$> multiply mul (slice_columns (i - 1) (i + 2) (Array2 n X)) (Array2 3 W) =
  Some (zip_with (fun x w => window_sum mul sum x w i) X W).
Proof.
  intros HXW HX HW Hi Hn. unfold multiply, slice_columns; cbn.
  rewrite length_fmap, HXW, broadcast_same. cbn.
  replace ((i + 2) `min` n - (i - 1)) with 3 by lia.
  rewrite broadcast_same. cbn.
  rewrite !stretch_id by (by rewrite ?length_fmap).
  f_equal. unfold sum_rows; cbn.
  revert W HXW HW. induction HX as [|x X Hx HX IH]; intros [|w W] HXW HW; try done.
  inversion HW as [|? ? Hw HW']; subst. cbn.
  rewrite !stretch_id by (rewrite ?slice_length; lia).
  f_equal. apply IH; [by injection HXW | done].
Qed.

Lemma transpose_columns {P} (g : P -> nat -> R) (ps : list P) (js : list nat) :
  transpose (length ps) ((fun j => (fun p => g p j) <$> ps) <$> js) =
  (fun p => g p <$> js) <$> ps.
Proof.
  induction js as [|j js IH]; cbn.
  - induction ps as [|p ps IHp]; cbn; [done|]. by rewrite IHp.
  - rewrite IH. clear IH. induction ps as [|p ps IHp]; cbn; [done|].
    by rewrite IHp.
Qed.

(** The loop over the positions, for a batch with at least one example. *)
Lemma vectorized_rows (X W : list (list R)) (n : nat) :
  length X = length W ->
  Forall (fun x => length x = n) X ->
  Forall (fun w => length w = 3) W ->
  3 <= n -> X <> [] ->
  manually_vectorized_convolve mul sum (Array2 n X) (Array2 3 W) =
  Some (Array2 (n - 2)
          (zip_with (fun x w => window_sum mul sum x w <$> seq 1 (n - 2)) X W)).
Proof.
  intros HXW HX HW Hn HB. unfold manually_vectorized_convolve; cbn.
  rewrite (mapM_fmap_total _
             (fun i => (fun p => window_sum mul sum p.1 p.2 i) <$> zip X W)).
  - cbn. rewrite (stack_columns_Some _ (length (zip X W))).
    + rewrite (transpose_columns (fun p i => window_sum mul sum p.1 p.2 i)).
      rewrite length_fmap, length_seq. f_equal. f_equal.
      symmetry.
      apply (zip_with_uncurry (fun x w => window_sum mul sum x w <$> seq 1 (n - 2))).
    + intros Hnil. apply (f_equal length) in Hnil.
      rewrite length_fmap, length_seq in Hnil. cbn in Hnil. lia.
    + apply Forall_fmap, Forall_forall. intros i _. cbn.
      by rewrite length_fmap.
  - apply Forall_forall. intros i Hi. apply elem_of_seq in Hi.
    rewrite vectorized_column by (done || lia).
    f_equal. apply (zip_with_uncurry (fun x w => window_sum mul sum x w i)).
Qed.

(** Where [jnp.dot] gives the sum of the products, the two ways to
    compute an entry agree. *)
Lemma window_sum_window (x w : list R) (n i : nat) :
  (forall u v : list R, length u = 3 -> length v = 3 ->
                        inner u v = sum (zip_with mul u v)) ->
  length x = n -> length w = 3 -> 1 <= i -> i + 2 <= n ->
  window_sum mul sum x w i = window inner x w i.
Proof.
  intros Hagree Hx Hw Hi Hn. unfold window, window_sum.
  rewrite Hagree; [done| |done]. rewrite slice_length; lia.
Qed.

(** C3, as amended: for a batch of at least one example, the loop over
    the examples and the loop over the positions both return an array of
    shape [(B, n-2)].  Row [i] of the first is [convolve(xs[i], ws[i])],
    its entries computed by [jnp.dot]; the entries of the second are the
    same products added by [jnp.sum].  Where [jnp.dot(u, v)] is
    [jnp.sum(u * v)] on arrays of three elements, as in exact
    arithmetic, the two arrays are equal. *)
Theorem batched_convolve_eq_vectorized (xs ws : array2 R) (B n : nat) :
  shape xs = (B, n) -> shape ws = (B, 3) ->
  well_shaped xs -> well_shaped ws ->
  3 <= n -> 1 <= B ->
  exists out out' : array2 R,
    manually_batched_convolve inner xs ws = Some out /\
    manually_vectorized_convolve mul sum xs ws = Some out' /\
    shape out = (B, n - 2) /\ shape out' = (B, n - 2) /\
    mapM (fun p => convolve inner p.1 p.2) (zip (rows xs) (rows ws)) =
      Some (rows out) /\
    rows out' =
      zip_with (fun x w => window_sum mul sum x w <$> seq 1 (n - 2))
               (rows xs) (rows ws) /\
    ((forall u v : list R, length u = 3 -> length v = 3 ->
                           inner u v = sum (zip_with mul u v)) ->
     out = out').
Proof.
  destruct xs as [wx X], ws as [ww W]. unfold shape, well_shaped; cbn.
  intros [= HB ->] [= HBW ->] HX HW Hn HB1.
  assert (length X = length W) as HXW by lia.
  set (js := seq 1 (n - 2)).
  assert (length js = n - 2) as Hjs by apply length_seq.
  assert (X <> []) as Hne by (intros ->; cbn in HB; lia).
  exists (Array2 (n - 2) (zip_with (fun x w => window inner x w <$> js) X W)).
  exists (Array2 (n - 2) (zip_with (fun x w => window_sum mul sum x w <$> js) X W)).
  assert (length (zip_with (fun x w => window inner x w <$> js) X W) = B)
    as Hlen by (rewrite length_zip_with; lia).
  assert (length (zip_with (fun x w => window_sum mul sum x w <$> js) X W) = B)
    as Hlen' by (rewrite length_zip_with; lia).
  split; [|split; [|split; [|split; [|split; [|split]]]]].
  - unfold manually_batched_convolve; cbn.
    rewrite (batched_rows X W n 3 n) by done. cbn.
    apply stack_Some.
    + intros Hnil. fold js in Hnil. rewrite Hnil in Hlen. cbn in Hlen. lia.
    + apply Forall_lookup_2. intros i y Hy.
      apply lookup_zip_with_Some in Hy as (x & w & -> & _ & _).
      by rewrite length_fmap.
  - by apply vectorized_rows.
  - unfold shape; cbn. by rewrite Hlen.
  - unfold shape; cbn. by rewrite Hlen'.
  - cbn. rewrite (zip_with_uncurry (fun x w => window inner x w <$> js)).
    apply mapM_fmap_total, Forall_forall.
    intros [x w] Hp. cbn.
    assert (length x = n) as Hx.
    { rewrite Forall_forall in HX. eapply HX, elem_of_zip_l, Hp. }
    assert (length w = 3) as Hw.
    { rewrite Forall_forall in HW. eapply HW, elem_of_zip_r, Hp. }
    unfold js. rewrite <-Hx. by apply convolve_windows.
  - done.
  - intros Hagree. f_equal.
    rewrite (zip_with_uncurry (fun x w => window inner x w <$> js)).
    rewrite (zip_with_uncurry (fun x w => window_sum mul sum x w <$> js)).
    apply Forall_fmap_ext_1, Forall_forall. intros [x w] Hp. cbn.
    assert (length x = n) as Hx.
    { rewrite Forall_forall in HX. eapply HX, elem_of_zip_l, Hp. }
    assert (length w = 3) as Hw.
    { rewrite Forall_forall in HW. eapply HW, elem_of_zip_r, Hp. }
    apply Forall_fmap_ext_1, Forall_forall. intros i Hi.
    apply elem_of_seq in Hi. symmetry.
    apply (window_sum_window x w n i); (done || lia).
Qed.

End ConvolveFacts.

(** The notebook's own batch, over the integers: two copies of
    [0 1 2 3 4] against two copies of [2 3 4].  Integer arithmetic is
    exact, so the two functions return the same array. *)
Lemma batched_convolve_eq_vectorized_witness :
  exists out : array2 Z,
    manually_batched_convolve inner_Z
      (Array2 5 [[0; 1; 2; 3; 4]; [0; 1; 2; 3; 4]]%Z)
      (Array2 3 [[2; 3; 4]; [2; 3; 4]]%Z) = Some out /\
    manually_vectorized_convolve Z.mul sum_Z
      (Array2 5 [[0; 1; 2; 3; 4]; [0; 1; 2; 3; 4]]%Z)
      (Array2 3 [[2; 3; 4]; [2; 3; 4]]%Z) = Some out /\
    shape out = (2, 5 - 2) /\
    mapM (fun p => convolve inner_Z p.1 p.2)
      (zip [[0; 1; 2; 3; 4]; [0; 1; 2; 3; 4]]%Z [[2; 3; 4]; [2; 3; 4]]%Z) =
      Some (rows out).
Proof.
  destruct (batched_convolve_eq_vectorized Z.mul inner_Z sum_Z
              (Array2 5 [[0; 1; 2; 3; 4]; [0; 1; 2; 3; 4]]%Z)
              (Array2 3 [[2; 3; 4]; [2; 3; 4]]%Z) 2 5)
    as (out & out' & H1 & H2 & H3 & _ & H5 & _ & Heq).
  - reflexivity.
  - reflexivity.
  - repeat constructor.
  - repeat constructor.
  - lia.
  - lia.
  - assert (out = out') as <- by (apply Heq; intros u v _ _; reflexivity).
    exists out. repeat split; [exact H1|exact H2|exact H3|exact H5].
Defined.

(** In binary32 the two functions can differ in the last place: with a
    [jnp.dot] that adds the products in index order and a [jnp.sum]
    that keeps two running sums, the input [-1 3 0.5] against the
    weights [0.1 0.1 0.1] gives 0.25000003 (8388609 / 2^25) in one
    function and 0.25 in the other. *)
Example convolve_rounding_differs :
  let f32 := Float.of_Z 24 128 in
  let tenth := SFdiv 24 128 (f32 1%Z) (f32 10%Z) in
  let xs := Array2 3 [[f32 (-1)%Z; f32 3%Z; SFdiv 24 128 (f32 1%Z) (f32 2%Z)]] in
  let ws := Array2 3 [[tenth; tenth; tenth]] in
  manually_batched_convolve inner_in_order xs ws =
    Some (Array2 1 [[S754_finite false 8388609 (-25)%Z]]) /\
  manually_vectorized_convolve (SFmul 24 128) sum_two_lanes xs ws =
    Some (Array2 1 [[S754_finite false 8388608 (-25)%Z]]).
Proof. split; vm_compute; reflexivity. Qed.

(** C3 as stated fails for the batch without examples: with [B = 0] the
    loop over the examples stacks an empty list, which raises, while the
    loop over the positions returns the empty array of shape [(0, 3)]. *)
Lemma empty_batch_convolve_differs :
  shape (Array2 5 ([] : list (list Z))) = (0, 5) /\
  shape (Array2 3 ([] : list (list Z))) = (0, 3) /\
  well_shaped (Array2 5 ([] : list (list Z))) /\
  well_shaped (Array2 3 ([] : list (list Z))) /\
  3 <= 5 /\
  manually_batched_convolve inner_Z (Array2 5 []) (Array2 3 []) = None /\
  manually_vectorized_convolve Z.mul sum_Z (Array2 5 []) (Array2 3 []) =
    Some (Array2 3 []) /\
  manually_batched_convolve inner_Z (Array2 5 []) (Array2 3 []) <>
  manually_vectorized_convolve Z.mul sum_Z (Array2 5 []) (Array2 3 []).
Proof.
  repeat split; try constructor; try lia. discriminate.
Qed.

(** * Transposing a list of dictionaries *)

Import Pytree.

Section TransposeFacts.
Context {A : Type}.
Implicit Types (t : pytree A) (items d : list (string * pytree A)).
Implicit Types (ds : list (list (string * pytree A))).

Lemma dict_get_is_Some k items : k ∈ items.*1 -> is_Some (dict_get k items).
Proof.
  induction items as [|[k' v] items IH]; cbn; intros Hk.
  - by apply elem_of_nil in Hk.
  - destruct (String.eqb_spec k k') as [->|Hne]; [by eexists|].
    apply elem_of_cons in Hk as [?|?]; [done|by apply IH].
Qed.

Lemma dict_children_same_keys keys items :
  items.*1 ≡ₚ keys ->
  exists cs, dict_children keys (PDict items) = Some cs /\ values_at keys items cs.
Proof.
  intros Hperm. unfold dict_children.
  rewrite decide_True.
  2:{ rewrite <-(length_fmap fst items). by apply Permutation_length. }
  destruct (mapM (fun k => dict_get k items) keys) as [cs|] eqn:Hcs.
  - exists cs. split; [done|]. by apply mapM_Some_1.
  - apply mapM_None_1, Exists_exists in Hcs as (k & Hk & Hnone).
    assert (is_Some (dict_get k items)) as [? ?]; [|congruence].
    apply dict_get_is_Some. by rewrite Hperm.
Qed.

Lemma children_of_dicts keys ds :
  Forall (fun items => items.*1 ≡ₚ keys) ds ->
  exists css, mapM (dict_children keys) (PDict <$> ds) = Some css /\
              Forall2 (values_at keys) ds css.
Proof.
  induction 1 as [|items ds Hperm _ (css & Hcss & Hall)].
  - by exists [].
  - destruct (dict_children_same_keys keys items Hperm) as (cs & Hcs & Hvals).
    exists (cs :: css). split; [|by constructor].
    rewrite fmap_cons. apply mapM_Some_2. constructor; [done|].
    by apply mapM_Some_1.
Qed.

(** The first column of the children, and what is left of them. *)
Lemma values_at_cons k keys ds css :
  Forall2 (values_at (k :: keys)) ds css ->
  exists vals, mapM (dict_get k) ds = Some vals /\
               mapM head css = Some vals /\
               Forall2 (values_at keys) ds (tail <$> css).
Proof.
  induction 1 as [|items cs ds css Hcs _ (vals & Hvals & Hhead & Htail)].
  - by exists [].
  - inversion Hcs as [|? c ? cs' Hc Hcs']; subst.
    exists (c :: vals). cbn. rewrite Hc, Hvals, Hhead. cbn.
    repeat split; [done..|]. by constructor.
Qed.

Lemma map_items_leaves d ds css :
  Forall (fun kv => is_leaf kv.2 = true) d ->
  Forall2 (values_at d.*1) ds css ->
  exists out, map_items (tree_map PList) d css = Some out /\
              Forall2 (transposed_item ds) d out.
Proof.
  intros Hleaf. revert css.
  induction Hleaf as [|[k t] d Ht _ IH]; intros css Hcss; cbn.
  - exists []. by split.
  - cbn in Hcss. apply values_at_cons in Hcss as (vals & Hvals & Hhead & Htail).
    destruct (IH _ Htail) as (out & Hout & Hall).
    destruct t; try done.
    exists ((k, PList (Leaf a :: vals)) :: out).
    rewrite Hhead. cbn. rewrite Hout. cbn. split; [done|].
    constructor; [|done]. by exists vals.
Qed.

Lemma dict_get_transposed k d ds out v :
  Forall2 (transposed_item ds) d out ->
  dict_get k d = Some v ->
  exists vals, mapM (dict_get k) ds = Some vals /\
               dict_get k out = Some (PList (v :: vals)).
Proof.
  induction 1 as [|[k' t] o d out (vals & Hvals & ->) _ IH]; cbn; [done|].
  destruct (String.eqb_spec k k') as [->|Hne]; [|done].
  intros [= ->]. by exists vals.
Qed.

Lemma transposed_keys d ds out :
  Forall2 (transposed_item ds) d out -> out.*1 = d.*1.
Proof.
  induction 1 as [|kv o d out (vals & _ & ->) _ IH]; cbn; [done|].
  by rewrite IH.
Qed.

(** Looking a key up does not depend on the order of the items. *)
Lemma dict_get_Permutation k items items' :
  NoDup items.*1 -> items ≡ₚ items' -> dict_get k items = dict_get k items'.
Proof.
  intros Hnd Hperm. induction Hperm as [|[k1 v1] l l' Hl IH|[k1 v1] [k2 v2] l|l l' l'' H1 IH1 H2 IH2].
  - done.
  - cbn in *. apply NoDup_cons in Hnd as [_ Hnd].
    destruct (String.eqb k k1); [done|by apply IH].
  - cbn in *. apply NoDup_cons in Hnd as [Hin _].
    destruct (String.eqb_spec k k2) as [->|?], (String.eqb_spec k2 k1) as [->|?];
      try done.
    exfalso. apply Hin. by left.
  - rewrite IH1 by done. apply IH2. by rewrite <-H1.
Qed.

Lemma sort_items_Permutation items : sort_items items ≡ₚ items.
Proof. apply merge_sort_Permutation. Qed.

(** C8, as amended: for a non-empty list of dictionaries with the same
    keys, the values of the first one being leaves (neither [None] nor
    a list, tuple, dictionary or instance of a registered class),
    [tree_transpose]
    returns a dictionary with those keys that maps every key to the list
    of the values of that key, in the order of the input.  [d] is the
    first dictionary (its keys distinct, as in any dictionary), [ds]
    are the others. *)
Theorem tree_transpose_dicts (d : list (string * pytree A))
    (ds : list (list (string * pytree A))) :
  NoDup d.*1 ->
  Forall (fun kv => is_leaf kv.2 = true) d ->
  Forall (fun items => items.*1 ≡ₚ d.*1) ds ->
  exists out,
    tree_transpose (PDict d :: (PDict <$> ds)) = Some (PDict out) /\
    out.*1 ≡ₚ d.*1 /\
    forall k, k ∈ d.*1 ->
      exists vals, mapM (dict_get k) (d :: ds) = Some vals /\
                   dict_get k out = Some (PList vals).
Proof.
  intros Hnd Hleaf Hkeys.
  destruct (children_of_dicts _ _ Hkeys) as (css & Hcss & Hvals).
  destruct (map_items_leaves _ _ _ Hleaf Hvals) as (out & Hout & Hall).
  pose proof (transposed_keys _ _ _ Hall) as Hk.
  exists (sort_items out). cbn. rewrite Hcss. cbn. rewrite Hout. cbn.
  split; [done|]. split.
  { by rewrite sort_items_Permutation, Hk. }
  intros k Hin. destruct (dict_get_is_Some _ _ Hin) as [v Hv].
  destruct (dict_get_transposed _ _ _ _ _ Hall Hv) as (vals & Hvs & Hget).
  exists (v :: vals). cbn. rewrite Hv, Hvs. split; [done|].
  rewrite <-Hget. symmetry. apply dict_get_Permutation.
  - by rewrite Hk.
  - symmetry. apply sort_items_Permutation.
Qed.

End TransposeFacts.

(** The notebook's example: two steps of an episode. *)
Lemma tree_transpose_dicts_witness :
  exists out : list (string * pytree Z),
    tree_transpose
      (PDict [("t", Leaf 1%Z); ("obs", Leaf 3%Z)] ::
       (PDict <$> [[("t", Leaf 2%Z); ("obs", Leaf 4%Z)]])) = Some (PDict out) /\
    out.*1 ≡ₚ [("t", Leaf 1%Z); ("obs", Leaf 3%Z)].*1 /\
    forall k, k ∈ [("t", Leaf 1%Z); ("obs", Leaf 3%Z)].*1 ->
      exists vals,
        mapM (dict_get k)
          ([("t", Leaf 1%Z); ("obs", Leaf 3%Z)] ::
           [[("t", Leaf 2%Z); ("obs", Leaf 4%Z)]]) = Some vals /\
        dict_get k out = Some (PList vals).
Proof.
  apply (tree_transpose_dicts
           [("t", Leaf 1%Z); ("obs", Leaf 3%Z)]
           [[("t", Leaf 2%Z); ("obs", Leaf 4%Z)]]).
  - cbn. apply NoDup_cons. split.
    + intros Hin. apply list_elem_of_singleton in Hin. discriminate Hin.
    + apply NoDup_singleton.
  - repeat constructor.
  - repeat constructor.
Defined.

(** The example evaluates to the dictionary the notebook prints. *)
Example tree_transpose_episode_steps :
  tree_transpose
    [PDict [("t", Leaf 1%Z); ("obs", Leaf 3%Z)];
     PDict [("t", Leaf 2%Z); ("obs", Leaf 4%Z)]] =
  Some (PDict [("obs", PList [Leaf 3%Z; Leaf 4%Z]);
               ("t", PList [Leaf 1%Z; Leaf 2%Z])]).
Proof. reflexivity. Qed.

(** C8 as stated fails when the values are containers: the tuples under
    the key are taken apart, and the result holds a tuple of lists, not
    the list of the two tuples. *)
Lemma tree_transpose_nested_values :
  let d1 : list (string * pytree Z) := [("a", PTuple [Leaf 1%Z; Leaf 2%Z])] in
  let d2 : list (string * pytree Z) := [("a", PTuple [Leaf 3%Z; Leaf 4%Z])] in
  d2.*1 = d1.*1 /\
  mapM (dict_get "a") [d1; d2] =
    Some [PTuple [Leaf 1%Z; Leaf 2%Z]; PTuple [Leaf 3%Z; Leaf 4%Z]] /\
  tree_transpose [PDict d1; PDict d2] =
    Some (PDict [("a", PTuple [PList [Leaf 1%Z; Leaf 3%Z];
                               PList [Leaf 2%Z; Leaf 4%Z]])]) /\
  tree_transpose [PDict d1; PDict d2] <>
    Some (PDict [("a", PList [PTuple [Leaf 1%Z; Leaf 2%Z];
                              PTuple [Leaf 3%Z; Leaf 4%Z]])]).
Proof. repeat split. discriminate. Qed.

(** An instance of a registered class is not a leaf either: the values
    [RegisteredSpecial(1, 2)] and [RegisteredSpecial(3, 4)] under a key
    are taken apart, and the result holds one [RegisteredSpecial] whose
    fields are lists. *)
Example tree_transpose_registered_values :
  tree_transpose
    [PDict [("a", PNode "RegisteredSpecial" [Leaf 1%Z; Leaf 2%Z])];
     PDict [("a", PNode "RegisteredSpecial" [Leaf 3%Z; Leaf 4%Z])]] =
  Some (PDict [("a", PNode "RegisteredSpecial"
                       [PList [Leaf 1%Z; Leaf 3%Z]; PList [Leaf 2%Z; Leaf 4%Z]])]).
Proof. reflexivity. Qed.

(** * The straight-through estimator on the forward pass *)

Section FloatFacts.
Variables prec emax : Z.

Lemma shr_1_nonneg (mrs : shr_record) :
  (0 <= shr_m mrs)%Z -> (0 <= shr_m (shr_1 mrs))%Z.
Proof.
  destruct mrs as [m r s]; cbn. destruct m as [|p|p]; cbn; [done| |lia].
  destruct p; cbn; lia.
Qed.

Lemma iter_pos_nonneg (p : positive) (mrs : shr_record) :
  (0 <= shr_m mrs)%Z -> (0 <= shr_m (SpecFloat.iter_pos shr_1 p mrs))%Z.
Proof.
  revert mrs. induction p as [p IH|p IH|]; intros mrs Hm; cbn.
  - apply IH, IH, shr_1_nonneg, Hm.
  - apply IH, IH, Hm.
  - apply shr_1_nonneg, Hm.
Qed.

Lemma shr_fexp_nonneg (m e : Z) (l : location) :
  (0 <= m)%Z -> (0 <= shr_m (fst (shr_fexp prec emax m e l)))%Z.
Proof.
  intros Hm. unfold shr_fexp, shr.
  assert (0 <= shr_m (shr_record_of_loc m l))%Z as Hrec.
  { destruct l as [|[]]; cbn; lia. }
  destruct (fexp prec emax (Zdigits2 m + e) - e)%Z; cbn; try done.
  by apply iter_pos_nonneg.
Qed.

Lemma round_nearest_even_nonneg (m : Z) (l : location) :
  (0 <= m)%Z -> (0 <= round_nearest_even m l)%Z.
Proof.
  intros Hm. destruct l as [|[]]; cbn; try lia. destruct (Z.even m); lia.
Qed.

Lemma binary_round_aux_not_nan (s : bool) (m e : Z) (l : location) :
  (0 <= m)%Z -> binary_round_aux prec emax s m e l <> S754_nan.
Proof.
  intros Hm. unfold binary_round_aux.
  pose proof (shr_fexp_nonneg m e l Hm) as H1.
  destruct (shr_fexp prec emax m e l) as [mrs' e']. cbn in H1.
  pose proof (shr_fexp_nonneg _ e' loc_Exact
                (round_nearest_even_nonneg _ (loc_of_shr_record mrs') H1)) as H2.
  destruct (shr_fexp prec emax _ e' loc_Exact) as [mrs'' e'']. cbn in H2.
  destruct (shr_m mrs''); [done| |lia].
  by destruct (e'' <=? emax - prec)%Z.
Qed.

Lemma binary_normalize_not_nan (m e : Z) (szero : bool) :
  binary_normalize prec emax m e szero <> S754_nan.
Proof.
  destruct m as [|p|p]; cbn; [done| |]; unfold binary_round;
    destruct (shl_align _ _ _); by apply binary_round_aux_not_nan.
Qed.

(** Rounding a number never gives NaN. *)
Lemma round_not_nan (x : spec_float) :
  Float.is_finite x = true -> Float.round prec emax x <> S754_nan.
Proof.
  destruct x as [s|s| |s m e]; try done. intros _. cbn.
  destruct (0 <=? e)%Z; [done|]. apply binary_normalize_not_nan.
Qed.

Lemma SFeqb_refl (x : spec_float) : x <> S754_nan -> SFeqb x x = true.
Proof.
  destruct x as [s|s| |s m e]; try done; intros _; unfold SFeqb; cbn.
  - by destruct s.
  - destruct s; rewrite Z.compare_refl, Pos.compare_cont_refl; done.
Qed.

(** [x - x] is [+0.0] for every number [x]. *)
Lemma sub_self (x : spec_float) :
  Float.is_finite x = true -> SFsub prec emax x x = S754_zero false.
Proof.
  destruct x as [s|s| |s m e]; try done; intros _.
  - by destruct s.
  - unfold SFsub. by rewrite Z.sub_diag.
Qed.

(** Adding to [+0.0] changes nothing but the sign of [-0.0]. *)
Lemma add_zero_l (y : spec_float) :
  SFadd prec emax (S754_zero false) y =
  match y with S754_zero true => S754_zero false | _ => y end.
Proof. by destruct y as [[]|[]| |]. Qed.

(** X21: for every finite [x] (zeros included), [x - stop_gradient(x)]
    is [+0.0] and [straight_through_f(x)] is numerically equal to
    [f(x)]; it is the same float unless [f(x)] is [-0.0], which comes
    out as [+0.0]. *)
Theorem straight_through_forward (x : spec_float) :
  Float.is_finite x = true ->
  SFsub prec emax x (StraightThrough.stop_gradient x) = S754_zero false /\
  SFeqb (StraightThrough.straight_through_f prec emax x)
        (StraightThrough.f prec emax x) = true /\
  (StraightThrough.f prec emax x <> S754_zero true ->
   StraightThrough.straight_through_f prec emax x = StraightThrough.f prec emax x) /\
  (StraightThrough.f prec emax x = S754_zero true ->
   StraightThrough.straight_through_f prec emax x = S754_zero false).
Proof.
  intros Hx. unfold StraightThrough.straight_through_f, StraightThrough.stop_gradient.
  rewrite (sub_self x Hx), add_zero_l.
  pose proof (round_not_nan x Hx) as Hnan.
  unfold StraightThrough.f. split; [done|].
  destruct (Float.round prec emax x) as [[]|s| |s m e] eqn:Hr; try done.
  - split; [by apply SFeqb_refl|done].
  - split; [by apply SFeqb_refl|done].
Qed.

End FloatFacts.

(** The notebook's input, 3.2 in binary32. *)
Lemma straight_through_forward_witness :
  let x := SFdiv 24 128 (Float.of_Z 24 128 32) (Float.of_Z 24 128 10) in
  SFsub 24 128 x (StraightThrough.stop_gradient x) = S754_zero false /\
  SFeqb (StraightThrough.straight_through_f 24 128 x)
        (StraightThrough.f 24 128 x) = true /\
  (StraightThrough.f 24 128 x <> S754_zero true ->
   StraightThrough.straight_through_f 24 128 x = StraightThrough.f 24 128 x) /\
  (StraightThrough.f 24 128 x = S754_zero true ->
   StraightThrough.straight_through_f 24 128 x = S754_zero false).
Proof.
  apply (straight_through_forward 24 128
           (SFdiv 24 128 (Float.of_Z 24 128 32) (Float.of_Z 24 128 10))).
  reflexivity.
Defined.

(** On the notebook's input both functions return 3.0. *)
Example straight_through_3_2 :
  let x := SFdiv 24 128 (Float.of_Z 24 128 32) (Float.of_Z 24 128 10) in
  StraightThrough.f 24 128 x = Float.of_Z 24 128 3 /\
  StraightThrough.straight_through_f 24 128 x = Float.of_Z 24 128 3.
Proof. split; reflexivity. Qed.

(** C9 fails at infinity, against the code's own comment: the term
    [x - stop_gradient(x)], written to be "an exactly-zero expression",
    is [inf - inf], which is NaN, so [straight_through_f(inf)] is NaN
    while [f(inf)] is [inf]. *)
Lemma straight_through_infinity :
  SFsub 24 128 (S754_infinity false)
        (StraightThrough.stop_gradient (S754_infinity false)) = S754_nan /\
  StraightThrough.f 24 128 (S754_infinity false) = S754_infinity false /\
  StraightThrough.straight_through_f 24 128 (S754_infinity false) = S754_nan /\
  StraightThrough.straight_through_f 24 128 (S754_infinity false) <>
  StraightThrough.f 24 128 (S754_infinity false).
Proof. repeat split. discriminate. Qed.


(** * Convolution: lengths, errors, shifts and shared weights *)

Section ConvolveEdges.
Context {R : Type} (mul : R -> R -> R).
Context (inner : list R -> list R -> R) (sum : list R -> R).

(** X1: [convolve(x, w)] returns exactly when [x] has at most two
    elements (no window is taken, and [w] is never looked at) or [w] has
    three; what it returns has [len(x) - 2] elements, none when [x] has
    fewer than two. *)
Theorem convolve_defined (x w : list R) :
  (is_Some (convolve inner x w) <-> length x <= 2 \/ length w = 3) /\
  (forall out, convolve inner x w = Some out -> length out = length x - 2).
Proof.
  split; [split|].
  - intros [out Hout]. destruct (decide (length x <= 2)) as [|Hn]; [by left|right].
    apply mapM_Some_1 in Hout.
    destruct (Forall2_lookup_l _ _ _ 0 1 Hout) as (y & _ & Hy).
    { apply lookup_seq. lia. }
    unfold dot in Hy. destruct (decide _) as [Hlen|]; [|done].
    rewrite slice_length in Hlen; lia.
  - intros [Hx|Hw].
    + unfold convolve. replace (length x - 2) with 0 by lia. by eexists.
    + rewrite convolve_windows by done. by eexists.
  - intros out Hout. apply length_mapM in Hout. by rewrite length_seq in Hout.
Qed.

Lemma window_drop (x w : list R) (k i : nat) :
  1 <= i ->
  window inner (drop k x) w i = window inner x w (k + i).
Proof.
  intros Hi. unfold window, slice. rewrite drop_drop.
  by replace (k + i - 1) with (k + (i - 1)) by lia;
     replace (k + i + 2 - (k + (i - 1))) with (i + 2 - (i - 1)) by lia.
Qed.

(** X2: convolution commutes with dropping a prefix:
    [convolve(x[k:], w)] is [convolve(x, w)[k:]]. *)
Theorem convolve_shift (x w : list R) (k : nat) :
  length w = 3 ->
  convolve inner (drop k x) w = drop k <$> convolve inner x w.
Proof.
  intros Hw. rewrite !convolve_windows by done. cbn. f_equal.
  rewrite <-fmap_drop, drop_seq, length_drop.
  replace (length x - 2 - k) with (length x - k - 2) by lia.
  replace (1 + k) with (k + 1) by lia.
  rewrite <-fmap_add_seq, <-list_fmap_compose.
  apply Forall_fmap_ext_1, Forall_forall. intros i Hi.
  apply elem_of_seq in Hi. cbn. apply window_drop. lia.
Qed.

(** A weight array of one row is stretched over the batch. *)
Lemma multiply_shared_row (a : array2 R) (w : list R) (B : nat) :
  length (rows a) = B -> 1 <= B ->
  multiply mul a (Array2 3 [w]) = multiply mul a (Array2 3 (replicate B w)).
Proof.
  intros Ha HB. unfold multiply. cbn [rows width length].
  rewrite length_replicate, Ha, broadcast_same.
  assert (broadcast B 1 = Some B) as ->.
  { unfold broadcast. repeat case_decide; try done; f_equal; lia. }
  cbn [mbind option_bind].
  by assert (stretch B [w] = stretch B (replicate B w)) as ->
    by (by destruct B as [|[|B]]).
Qed.

(** X3: one weight vector for the whole batch.  With [ws] of shape
    [(1, 3)], [manually_vectorized_convolve] stretches the one row over
    the batch: entry [j] of row [i] of the result is
    [jnp.sum(xs[i, j:j+3] * w)].  Where [jnp.dot(u, v)] is
    [jnp.sum(u * v)] on arrays of three elements, as in exact
    arithmetic, row [i] is [convolve(xs[i], w)]. *)
Theorem vectorized_convolve_shared_weights (xs : array2 R) (w : list R) (B n : nat) :
  shape xs = (B, n) -> well_shaped xs -> length w = 3 ->
  3 <= n -> 1 <= B ->
  exists out : array2 R,
    manually_vectorized_convolve mul sum xs (Array2 3 [w]) = Some out /\
    shape out = (B, n - 2) /\
    rows out = (fun x => window_sum mul sum x w <$> seq 1 (n - 2)) <$> rows xs /\
    ((forall u v : list R, length u = 3 -> length v = 3 ->
                           inner u v = sum (zip_with mul u v)) ->
     mapM (fun x => convolve inner x w) (rows xs) = Some (rows out)).
Proof.
  destruct xs as [wx X]. unfold shape, well_shaped; cbn.
  intros [= HB ->] HX Hw Hn HB1.
  assert (X <> []) as Hne by (intros ->; cbn in HB; lia).
  exists (Array2 (n - 2) ((fun x => window_sum mul sum x w <$> seq 1 (n - 2)) <$> X)).
  assert (zip_with (fun x w => window_sum mul sum x w <$> seq 1 (n - 2)) X
            (replicate B w) =
          (fun x => window_sum mul sum x w <$> seq 1 (n - 2)) <$> X) as Hzip.
  { rewrite <-HB. clear. induction X as [|x X IH]; cbn; [done|]. by rewrite IH. }
  split; [|split; [|split]].
  - rewrite <-Hzip, <-(vectorized_rows mul sum X (replicate B w) n);
      [|by rewrite length_replicate|done|by apply Forall_replicate|done..].
    unfold manually_vectorized_convolve. cbn. f_equal.
    apply mapM_ext. intros i. f_equal.
    apply multiply_shared_row; [cbn; by rewrite length_fmap|done].
  - unfold shape; cbn. by rewrite length_fmap, HB.
  - done.
  - intros Hagree. cbn. apply mapM_fmap_total, Forall_forall. intros x Hx.
    rewrite Forall_forall in HX. specialize (HX x Hx). cbn in HX.
    rewrite (convolve_windows inner x w Hw), HX. f_equal.
    apply Forall_fmap_ext_1, Forall_forall. intros i Hi.
    apply elem_of_seq in Hi. symmetry.
    apply (window_sum_window mul inner sum x w n i); (done || lia).
Qed.

(** X4: rows of fewer than three elements.  The loop over the examples
    stacks one empty convolution per example and returns an array of
    shape [(B, 0)]; the loop over the positions makes no pass, stacks
    nothing and raises. *)
Theorem short_rows_convolve (xs ws : array2 R) (B n : nat) :
  shape xs = (B, n) -> well_shaped xs -> length (rows ws) = B ->
  n <= 2 -> 1 <= B ->
  manually_batched_convolve inner xs ws = Some (Array2 0 (replicate B [])) /\
  manually_vectorized_convolve mul sum xs ws = None.
Proof.
  destruct xs as [wx X], ws as [ww W]. unfold shape, well_shaped; cbn.
  intros [= HB ->] HX HW Hn HB1. split.
  - unfold manually_batched_convolve; cbn.
    rewrite (mapM_fmap_total _ (fun _ => [])).
    + cbn. rewrite HB. replace ((fun _ : nat => []) <$> seq 0 B) with (replicate B (@nil R)).
      * apply stack_Some; [destruct B; [lia|done]|by apply Forall_replicate].
      * clear. generalize 0. induction B as [|B IH]; intros k; cbn; [done|].
        by rewrite <-IH.
    + apply Forall_forall. intros i Hi. apply elem_of_seq in Hi.
      unfold row; cbn. rewrite HW, HB.
      replace (i `min` (B - 1)) with i by lia.
      destruct (lookup_lt_is_Some_2 X i) as [x Hx]; [lia|].
      destruct (lookup_lt_is_Some_2 W i) as [w Hw]; [lia|].
      rewrite Hx, Hw; cbn. unfold convolve.
      rewrite (Forall_lookup_1 _ _ _ _ HX Hx).
      by replace (n - 2) with 0 by lia.
  - unfold manually_vectorized_convolve; cbn.
    by replace (n - 2) with 0 by lia.
Qed.

End ConvolveEdges.

(** The notebook's batch against the one weight vector [2 3 4], over the
    integers. *)
Lemma vectorized_convolve_shared_weights_witness :
  exists out : array2 Z,
    manually_vectorized_convolve Z.mul sum_Z
      (Array2 5 [[0; 1; 2; 3; 4]; [0; 1; 2; 3; 4]]%Z)
      (Array2 3 [[2; 3; 4]%Z]) = Some out /\
    shape out = (2, 5 - 2) /\
    rows out = [[11; 20; 29]; [11; 20; 29]]%Z /\
    mapM (fun x => convolve inner_Z x [2; 3; 4]%Z)
      [[0; 1; 2; 3; 4]; [0; 1; 2; 3; 4]]%Z = Some (rows out).
Proof.
  destruct (vectorized_convolve_shared_weights Z.mul inner_Z sum_Z
              (Array2 5 [[0; 1; 2; 3; 4]; [0; 1; 2; 3; 4]]%Z) [2; 3; 4]%Z 2 5)
    as (out & H1 & H2 & H3 & H4).
  - reflexivity.
  - repeat constructor.
  - reflexivity.
  - lia.
  - lia.
  - exists out. repeat split; [exact H1|exact H2|rewrite H3; reflexivity|].
    apply H4. intros u v _ _. reflexivity.
Defined.

(** The signal [0 1 2 3 4] without its first element. *)
Lemma convolve_shift_witness :
  convolve inner_Z (drop 1 [0; 1; 2; 3; 4]%Z) [2; 3; 4]%Z =
  drop 1 <$> convolve inner_Z [0; 1; 2; 3; 4]%Z [2; 3; 4]%Z.
Proof.
  apply (convolve_shift inner_Z [0; 1; 2; 3; 4]%Z [2; 3; 4]%Z 1).
  reflexivity.
Defined.

(** Two examples of two elements each. *)
Lemma short_rows_convolve_witness :
  manually_batched_convolve inner_Z
    (Array2 2 [[0; 1]; [2; 3]]%Z) (Array2 3 [[2; 3; 4]; [2; 3; 4]]%Z) =
    Some (Array2 0 (replicate 2 [])) /\
  manually_vectorized_convolve Z.mul sum_Z
    (Array2 2 [[0; 1]; [2; 3]]%Z) (Array2 3 [[2; 3; 4]; [2; 3; 4]]%Z) = None.
Proof.
  apply (short_rows_convolve Z.mul inner_Z sum_Z
           (Array2 2 [[0; 1]; [2; 3]]%Z) (Array2 3 [[2; 3; 4]; [2; 3; 4]]%Z) 2 2).
  - reflexivity.
  - repeat constructor.
  - reflexivity.
  - lia.
  - lia.
Defined.

(** * Transposing a list of lists, and dictionaries whose keys differ *)

Section TransposeLists.
Context {A : Type}.
Implicit Types (r : list A) (rs : list (list A)).

(** Rows of at least one element: their first elements and the rest. *)
Lemma heads_tails rs (m : nat) :
  Forall (fun r => length r = S m) rs ->
  exists hs ts, rs = zip_with cons hs ts /\ length hs = length ts /\
                Forall (fun r => length r = m) ts.
Proof.
  induction 1 as [|r rs Hr _ (hs & ts & -> & Hlen & Hts)].
  - by exists [], [].
  - destruct r as [|a r]; [done|]. exists (a :: hs), (r :: ts).
    cbn. repeat split; [by rewrite Hlen|]. constructor; [|done].
    by injection Hr.
Qed.

Lemma transpose_cons (hs : list A) (ts : list (list A)) (m : nat) :
  length hs = length ts ->
  transpose (S m) (zip_with cons hs ts) = hs :: transpose m ts.
Proof.
  revert ts. induction hs as [|h hs IH]; intros [|t ts] Hlen; try done.
  cbn [zip_with transpose]. rewrite IH by (by injection Hlen). done.
Qed.

Lemma transpose_shape rs (m : nat) :
  Forall (fun r => length r = m) rs ->
  length (transpose m rs) = m /\
  Forall (fun c => length c = length rs) (transpose m rs).
Proof.
  induction 1 as [|r rs Hr _ [IH1 IH2]]; cbn.
  - rewrite length_replicate. split; [done|]. by apply Forall_replicate.
  - rewrite length_zip_with, IH1, Hr. split; [lia|].
    apply Forall_lookup_2. intros i c Hc.
    apply lookup_zip_with_Some in Hc as (a & t & -> & _ & Ht).
    cbn. by rewrite (Forall_lookup_1 _ _ _ _ IH2 Ht).
Qed.

(** Transposing twice gives the rows back. *)
Lemma transpose_transpose rs (m : nat) :
  Forall (fun r => length r = m) rs ->
  transpose (length rs) (transpose m rs) = rs.
Proof.
  revert rs. induction m as [|m IH]; intros rs Hrs.
  - assert (transpose 0 rs = []) as ->.
    { destruct Hrs as [|r rs Hr _]; [done|]. by destruct r. }
    cbn. induction Hrs as [|r rs Hr _ IH]; cbn; [done|].
    destruct r; [|done]. by rewrite IH.
  - destruct (heads_tails _ _ Hrs) as (hs & ts & -> & Hlen & Hts).
    rewrite transpose_cons by done. cbn [transpose].
    rewrite length_zip_with.
    replace (length hs `min` length ts) with (length ts) by lia.
    by rewrite IH.
Qed.

(** The children of the other lists, each of the length of the first. *)
Lemma list_children_leaves rs (m : nat) :
  Forall (fun r => length r = m) rs ->
  mapM (list_children m) ((fun r => PList (Leaf <$> r)) <$> rs) =
  Some (fmap (M:=list) Leaf <$> rs).
Proof.
  induction 1 as [|r rs Hr _ IH]; [done|].
  rewrite !fmap_cons. apply mapM_Some_2. constructor.
  - cbn. by rewrite decide_True by (by rewrite length_fmap).
  - by apply mapM_Some_1.
Qed.

Lemma heads_of_leaves (hs : list A) (ts : list (list A)) :
  length hs = length ts ->
  mapM head (fmap (M:=list) Leaf <$> zip_with cons hs ts) = Some (Leaf <$> hs) /\
  tail <$> (fmap (M:=list) Leaf <$> zip_with cons hs ts) = fmap (M:=list) Leaf <$> ts.
Proof.
  revert ts. induction hs as [|h hs IH]; intros [|t ts] Hlen; try done.
  destruct (IH ts) as [IH1 IH2]; [by injection Hlen|].
  split.
  - cbn [zip_with]. rewrite !fmap_cons. apply mapM_Some_2. constructor; [done|].
    by apply mapM_Some_1.
  - cbn [zip_with]. rewrite !fmap_cons. cbn [tail]. by rewrite IH2.
Qed.

(** Position by position, the leaves of the first list are put in front
    of the leaves the other lists hold there. *)
Lemma map_children_columns r rs :
  Forall (fun r' => length r' = length r) rs ->
  map_children (tree_map PList) (Leaf <$> r) (fmap (M:=list) Leaf <$> rs) =
  Some ((fun c => PList (Leaf <$> c)) <$> transpose (length r) (r :: rs)).
Proof.
  revert rs. induction r as [|a r IH]; intros rs Hrs; [done|].
  cbn [length] in *.
  destruct (heads_tails _ _ Hrs) as (hs & ts & -> & Hlen & Hts).
  destruct (heads_of_leaves hs ts Hlen) as [Hheads Htails].
  rewrite fmap_cons. cbn [map_children]. rewrite Hheads, Htails. cbn.
  rewrite (IH ts Hts). cbn.
  change (zip_with cons (a :: r) (transpose (S (length r)) (zip_with cons hs ts)))
    with (transpose (S (length r)) (zip_with cons (a :: hs) (r :: ts))).
  rewrite transpose_cons by (cbn; by rewrite Hlen). done.
Qed.

(** A non-empty list of lists of leaves, all of one length, is turned
    into the list of its columns. *)
Lemma tree_transpose_columns rs (m : nat) :
  rs <> [] -> Forall (fun r => length r = m) rs ->
  tree_transpose ((fun r => PList (Leaf <$> r)) <$> rs) =
  Some (PList ((fun c => PList (Leaf <$> c)) <$> transpose m rs)).
Proof.
  destruct rs as [|r rs]; [done|]. intros _ Hall.
  apply Forall_cons in Hall as [<- Hall].
  rewrite fmap_cons. cbn [tree_transpose tree_map].
  rewrite length_fmap, (list_children_leaves rs (length r) Hall). cbn.
  by rewrite (map_children_columns r rs Hall).
Qed.

(** X5: a list of [n] lists of [m] leaves each ([n], [m] at least 1) is
    transposed into the list of its [m] columns, and transposing the
    columns gives the rows back. *)
Theorem tree_transpose_lists rs (n m : nat) :
  length rs = n -> Forall (fun r => length r = m) rs ->
  1 <= n -> 1 <= m ->
  let trees := (fun r => PList (Leaf <$> r)) <$> rs in
  let columns := (fun c => PList (Leaf <$> c)) <$> transpose m rs in
  tree_transpose trees = Some (PList columns) /\
  tree_transpose columns = Some (PList trees) /\
  length columns = m.
Proof.
  intros Hn Hall Hn1 Hm1 trees columns. unfold trees, columns.
  destruct (transpose_shape rs m Hall) as [Hlen Hcols].
  repeat split.
  - apply tree_transpose_columns; [|done]. intros ->. cbn in Hn. lia.
  - rewrite (tree_transpose_columns _ (length rs)); [|by intros Hnil; rewrite Hnil in Hlen; cbn in Hlen; lia|done].
    by rewrite transpose_transpose.
  - by rewrite length_fmap.
Qed.

End TransposeLists.

Section TransposeKeys.
Context {A : Type}.
Implicit Types (d items : list (string * pytree A)).

Lemma dict_get_Some_elem_of k items v :
  dict_get k items = Some v -> k ∈ items.*1.
Proof.
  induction items as [|[k' v'] items IH]; cbn; [done|].
  destruct (String.eqb_spec k k') as [->|Hne]; intros Hv.
  - apply elem_of_cons. by left.
  - apply elem_of_cons. right. by apply IH.
Qed.

(** A dictionary has the children the keys ask for only when the keys
    are its keys. *)
Lemma dict_children_keys keys items cs :
  NoDup keys -> dict_children keys (PDict items) = Some cs -> items.*1 ≡ₚ keys.
Proof.
  intros Hnd. unfold dict_children. destruct (decide _) as [Hlen|]; [|done].
  intros Hcs. symmetry. apply submseteq_length_Permutation.
  - apply NoDup_submseteq; [done|]. intros k Hk.
    apply mapM_Some_1 in Hcs.
    apply list_elem_of_lookup in Hk as [i Hi].
    destruct (Forall2_lookup_l _ _ _ _ _ Hcs Hi) as (c & _ & Hc).
    by apply dict_get_Some_elem_of in Hc.
  - rewrite length_fmap. lia.
Qed.

(** X6: dictionaries whose keys differ cannot be transposed.  When one
    of the dictionaries after the first lacks a key of the first, or has
    a key the first lacks, [tree_transpose] raises. *)
Theorem tree_transpose_key_mismatch d items (ds : list (list (string * pytree A))) :
  NoDup d.*1 -> items ∈ ds -> ~ items.*1 ≡ₚ d.*1 ->
  tree_transpose (PDict d :: (PDict <$> ds)) = None.
Proof.
  intros Hnd Hin Hne. cbn [tree_transpose tree_map].
  destruct (mapM (dict_children d.*1) (PDict <$> ds)) as [css|] eqn:Hcss; [|done].
  exfalso. apply Hne. apply mapM_Some_1 in Hcss.
  apply list_elem_of_lookup in Hin as [i Hi].
  assert ((PDict <$> ds) !! i = Some (PDict items)) as Hi'
    by (by rewrite list_lookup_fmap, Hi).
  destruct (Forall2_lookup_l _ _ _ _ _ Hcss Hi') as (cs & _ & Hcs).
  by apply (dict_children_keys _ _ cs).
Qed.

End TransposeKeys.

(** The matrix with the rows [1 2 3] and [4 5 6]. *)
Lemma tree_transpose_lists_witness :
  let trees := (fun r => PList (Leaf <$> r)) <$> [[1; 2; 3]; [4; 5; 6]]%Z in
  let columns :=
    (fun c => PList (Leaf <$> c)) <$> transpose 3 [[1; 2; 3]; [4; 5; 6]]%Z in
  tree_transpose trees = Some (PList columns) /\
  tree_transpose columns = Some (PList trees) /\
  length columns = 3.
Proof.
  apply (tree_transpose_lists [[1; 2; 3]; [4; 5; 6]]%Z 2 3).
  - reflexivity.
  - repeat constructor.
  - lia.
  - lia.
Defined.

(** The second step of the episode without its observation. *)
Lemma tree_transpose_key_mismatch_witness :
  tree_transpose
    (PDict [("t", Leaf 1%Z); ("obs", Leaf 3%Z)] ::
     (PDict <$> [[("t", Leaf 2%Z)]])) = None.
Proof.
  apply (tree_transpose_key_mismatch
           [("t", Leaf 1%Z); ("obs", Leaf 3%Z)] [("t", Leaf 2%Z)]
           [[("t", Leaf 2%Z)]]).
  - cbn. apply NoDup_cons. split.
    + intros Hin. apply list_elem_of_singleton in Hin. discriminate Hin.
    + apply NoDup_singleton.
  - apply list_elem_of_singleton. reflexivity.
  - intros Hperm. apply Permutation_length in Hperm. discriminate Hperm.
Defined.

(** * Loops written in Python *)

Section LoopFacts.
Context {A : Type}.
Import ControlFlow.

(** X7: what [while_loop] returns.  It returns [r] exactly when [r] is
    the first value among [init_val], [body_fun(init_val)],
    [body_fun(body_fun(init_val))], ... on which [cond_fun] is false;
    the loop has then tested the condition once more than it has run
    the body. *)
Theorem while_loop_first_false (fuel : nat) (cond_fun : A -> bool)
    (body_fun : A -> A) (init_val r : A) :
  while_loop fuel cond_fun body_fun init_val = Some r <->
  exists k, k < fuel /\ r = Nat.iter k body_fun init_val /\
            cond_fun r = false /\
            forall j, j < k -> cond_fun (Nat.iter j body_fun init_val) = true.
Proof.
  revert init_val. induction fuel as [|fuel IH]; intros v; cbn.
  - split; [done|]. intros (k & Hk & _). lia.
  - destruct (cond_fun v) eqn:Hc.
    + rewrite IH. split.
      * intros (k & Hk & -> & Hr & Hj). exists (S k).
        rewrite Nat.iter_succ_r. repeat split; [lia|done|].
        intros [|j] Hlt; [done|]. rewrite Nat.iter_succ_r. apply Hj. lia.
      * intros (k & Hk & -> & Hr & Hj). destruct k as [|k].
        { cbn in Hr. congruence. }
        exists k. rewrite Nat.iter_succ_r in Hr |- *.
        repeat split; [lia|done|].
        intros j Hlt. rewrite <-Nat.iter_succ_r. apply Hj. lia.
    + split.
      * intros [= <-]. exists 0. repeat split; [lia|done|]. intros j Hlt. lia.
      * intros (k & Hk & -> & Hr & Hj). destruct k as [|k]; [done|].
        specialize (Hj 0 ltac:(lia)). cbn in Hj. congruence.
Qed.

Lemma while_loop_S (fuel : nat) (cond_fun : A -> bool) (body_fun : A -> A)
    (init_val : A) :
  while_loop (S fuel) cond_fun body_fun init_val =
  if cond_fun init_val then while_loop fuel cond_fun body_fun (body_fun init_val)
  else Some init_val.
Proof. done. Qed.

Lemma range_nil (start stop : Z) : (stop <= start)%Z -> range start stop = [].
Proof. intros. unfold range. by replace (Z.to_nat (stop - start)) with 0 by lia. Qed.

Lemma range_cons (start stop : Z) :
  (start < stop)%Z -> range start stop = start :: range (start + 1) stop.
Proof.
  intros Hlt. unfold range.
  replace (Z.to_nat (stop - start)) with (S (Z.to_nat (stop - (start + 1)))) by lia.
  cbn [seq fmap list_fmap]. f_equal; [lia|].
  rewrite <-fmap_S_seq, <-list_fmap_compose.
  apply Forall_fmap_ext_1, Forall_forall. intros k _. cbn. lia.
Qed.

Lemma range_app (start mid stop : Z) :
  (start <= mid)%Z -> (mid <= stop)%Z ->
  range start stop = range start mid ++ range mid stop.
Proof.
  intros H1 H2.
  remember (Z.to_nat (mid - start)) as n eqn:Hn.
  revert start H1 Hn. induction n as [|n IH]; intros start H1 Hn.
  - replace mid with start by lia. by rewrite (range_nil start start) by lia.
  - rewrite (range_cons start stop), (range_cons start mid) by lia.
    cbn. f_equal. apply IH; lia.
Qed.

(** X8: a [fori_loop] can be cut in two: running the indices from
    [start] to [mid] and then, from the value reached, those from [mid]
    to [stop], is running them all. *)
Theorem fori_loop_split (start mid stop : Z) (body_func : Z -> A -> A)
    (init_val : A) :
  (start <= mid)%Z -> (mid <= stop)%Z ->
  fori_loop start stop body_func init_val =
  fori_loop mid stop body_func (fori_loop start mid body_func init_val).
Proof.
  intros H1 H2. unfold fori_loop.
  by rewrite (range_app start mid stop), foldl_app by done.
Qed.

(** X9: [fori_loop] is the [while_loop] that carries the index along
    with the value: it tests [i < stop], runs the body and adds one to
    [i].  The loop ends, within [stop - start + 1] tests, with the index
    at [stop] (or at [start], when the range is empty). *)
Theorem fori_loop_as_while_loop (start stop : Z) (body_func : Z -> A -> A)
    (init_val : A) (fuel : nat) :
  Z.to_nat (stop - start) < fuel ->
  while_loop fuel (fun iv => (iv.1 <? stop)%Z)
             (fun iv => ((iv.1 + 1)%Z, body_func iv.1 iv.2)) (start, init_val) =
  Some (Z.max start stop, fori_loop start stop body_func init_val).
Proof.
  revert start init_val. induction fuel as [|fuel IH]; intros start v Hfuel; [lia|].
  cbn. destruct (Z.ltb_spec start stop) as [Hlt|Hge].
  - rewrite IH by lia. unfold fori_loop. rewrite (range_cons start stop) by done.
    cbn. do 2 f_equal. lia.
  - unfold fori_loop. rewrite range_nil by done. cbn. do 2 f_equal. lia.
Qed.

End LoopFacts.

Section LoopExamples.
Import ControlFlow.

(** X10: the notebook's counting loop, [condition = lambda x: x < 10]
    and [function_body = lambda x: x + 1], run by [while_loop] from any
    integer: the loop ends, and returns 10 when it starts at 10 or below
    and the start value otherwise. *)
Theorem while_loop_counts_to_10 (init_val : Z) :
  exists fuel,
    while_loop fuel (fun x => (x <? 10)%Z) (fun x => (x + 1)%Z) init_val =
    Some (Z.max init_val 10).
Proof.
  exists (S (Z.to_nat (10 - init_val))).
  remember (Z.to_nat (10 - init_val)) as n eqn:Hn.
  revert init_val Hn. induction n as [|n IH]; intros v Hn.
  - cbn. destruct (Z.ltb_spec v 10); [lia|]. f_equal. lia.
  - rewrite while_loop_S. destruct (Z.ltb_spec v 10); [|lia].
    rewrite IH by lia. f_equal. lia.
Qed.

(** X11: the notebook's summing loop, [function_body = lambda i, x: x + i],
    run by [fori_loop] over [range(0, n)]: it adds [0 + 1 + ... + (n-1)],
    that is [n * (n-1) / 2], to the value it starts from. *)
Theorem fori_loop_sums_indices (n init_val : Z) :
  (0 <= n)%Z ->
  (2 * fori_loop 0 n (fun i x => x + i) init_val = 2 * init_val + n * (n - 1))%Z.
Proof.
  intros Hn. unfold fori_loop, range. rewrite Z.sub_0_r.
  rewrite <-(Z2Nat.id n) at 2 3 by done.
  generalize (Z.to_nat n) as k. clear. intros k.
  induction k as [|k IH]; [cbn; lia|].
  rewrite seq_S, fmap_app, foldl_app. cbn. lia.
Qed.

End LoopExamples.

Section SumFacts.
Context {R : Type} (zero : R) (add : R -> R -> R).
Import ControlFlow.

(** The passes of the loop for the indices [k .. k+n-1], all in the
    array. *)
Lemma for_each_items (x : list R) (k n : nat) (y : R) :
  k + n <= length x ->
  for_each (seq k n) (fun i y => xi ← item i x; Some (add y xi)) y =
  Some (foldl add y (take n (drop k x))).
Proof.
  revert k y. induction n as [|n IH]; intros k y Hk; [done|].
  destruct (lookup_lt_is_Some_2 x k) as [a Ha]; [lia|].
  assert (item k x = Some a) as Hitem.
  { unfold item. by replace (k `min` (length x - 1)) with k by lia. }
  cbn [seq for_each]. rewrite Hitem. cbn. rewrite IH by lia.
  by rewrite (drop_S _ _ _ Ha).
Qed.

(** X12: [g(x)] adds the elements of [x] to [0.0] from the first to the
    last; for an array without elements it returns [0.0]. *)
Theorem g_adds_all (x : list R) :
  g zero add x = Some (foldl add zero x).
Proof.
  unfold g. rewrite for_each_items by lia.
  by rewrite drop_0, firstn_all.
Qed.

(** X13: [f(x, n)] with [n] at most [len(x)] adds the first [n]
    elements of [x]: it is [g(x[:n])], and [f(x, len(x))] is [g(x)]. *)
Theorem f_adds_prefix (x : list R) (n : nat) :
  n <= length x ->
  f zero add x n = g zero add (take n x) /\
  f zero add x (length x) = g zero add x.
Proof.
  intros Hn. unfold f, g. rewrite !for_each_items by (rewrite ?length_take; lia).
  rewrite !drop_0, length_take, !firstn_all.
  replace (n `min` length x) with n by lia.
  by rewrite take_take, Nat.min_id.
Qed.

End SumFacts.

(** Cutting the notebook's loop over [range(0, 10)] at 4. *)
Lemma fori_loop_split_witness :
  ControlFlow.fori_loop 0 10 (fun i x => (x + i)%Z) 0%Z =
  ControlFlow.fori_loop 4 10 (fun i x => (x + i)%Z)
    (ControlFlow.fori_loop 0 4 (fun i x => (x + i)%Z) 0%Z).
Proof.
  apply (fori_loop_split 0 4 10 (fun i x => (x + i)%Z) 0%Z); lia.
Defined.

(** The notebook's loop: eleven tests of the condition. *)
Lemma fori_loop_as_while_loop_witness :
  ControlFlow.while_loop 11 (fun iv => (iv.1 <? 10)%Z)
    (fun iv => ((iv.1 + 1)%Z, (iv.2 + iv.1)%Z)) (0%Z, 0%Z) =
  Some (Z.max 0 10, ControlFlow.fori_loop 0 10 (fun i x => (x + i)%Z) 0%Z).
Proof.
  apply (fori_loop_as_while_loop 0 10 (fun i x => (x + i)%Z) 0%Z 11).
  vm_compute. lia.
Defined.

(** The notebook's call: [range(0, 10)] from 0 gives 45. *)
Lemma fori_loop_sums_indices_witness :
  (2 * ControlFlow.fori_loop 0 10 (fun i x => x + i) 0 = 2 * 0 + 10 * (10 - 1))%Z.
Proof.
  apply (fori_loop_sums_indices 10 0). lia.
Defined.

(** The notebook's call: the first two of [2. 3. 4.]. *)
Lemma f_adds_prefix_witness :
  ControlFlow.f 0%Z Z.add [2; 3; 4]%Z 2 = ControlFlow.g 0%Z Z.add (take 2 [2; 3; 4]%Z) /\
  ControlFlow.f 0%Z Z.add [2; 3; 4]%Z (length [2; 3; 4]%Z) =
    ControlFlow.g 0%Z Z.add [2; 3; 4]%Z.
Proof.
  apply (f_adds_prefix 0%Z Z.add [2; 3; 4]%Z 2). cbn. lia.
Defined.

(** * [and] against [jnp.logical_and] *)

Section PositiveEvenFacts.
Import PositiveEven.

(** X14: on every integer that fits 32 bits the Python function and the
    compiled JAX function give the same boolean, true exactly for the
    even numbers above zero; compiling the Python function instead
    raises [TracerBoolConversionError], whatever the argument. *)
Theorem check_positive_even_agree (z : Z) :
  (- 2 ^ 31 <= z < 2 ^ 31)%Z ->
  exists b : bool,
    python_check_positive_even (Int z) = Ok (Bool b) /\
    jit jax_check_positive_even (Int z) = Ok (Bool b) /\
    jit python_check_positive_even (Int z) = Raised TracerBoolConversionError /\
    (b = true <-> (0 < z)%Z /\ exists k, z = (2 * k)%Z).
Proof.
  intros Hz. exists (Z.even z && (0 <? z)%Z).
  assert (fits_int32 (Int z) = true) as Hfits.
  { cbn -[Z.pow]. apply andb_true_intro. split; [apply Z.leb_le|apply Z.ltb_lt]; lia. }
  unfold jit. rewrite Hfits.
  unfold python_check_positive_even, jax_check_positive_even.
  cbn -[Z.modulo Z.even]. rewrite <-Zeven_mod.
  split; [by destruct (Z.even z)|]. split; [done|]. split; [done|].
  rewrite andb_true_iff, Z.even_spec, Z.ltb_lt. unfold Z.Even. tauto.
Qed.

End PositiveEvenFacts.

(** The notebook's two calls fit: here 2. *)
Lemma check_positive_even_agree_witness :
  exists b : bool,
    PositiveEven.python_check_positive_even (PositiveEven.Int 2) =
      PositiveEven.Ok (PositiveEven.Bool b) /\
    PositiveEven.jit PositiveEven.jax_check_positive_even (PositiveEven.Int 2) =
      PositiveEven.Ok (PositiveEven.Bool b) /\
    PositiveEven.jit PositiveEven.python_check_positive_even (PositiveEven.Int 2) =
      PositiveEven.Raised PositiveEven.TracerBoolConversionError /\
    (b = true <-> (0 < 2)%Z /\ exists k, 2%Z = (2 * k)%Z).
Proof.
  apply (check_positive_even_agree 2). vm_compute. split; [discriminate|reflexivity].
Defined.

(** * The chain of layers: which shapes fit *)

Section CheckpointFacts.
Context {R : Type} (inner : list R -> list R -> R) (sin : R -> R).
Import Checkpoint.

Lemma g_Some (W : array2 R) (x y : list R) :
  g inner sin W x = Some y ->
  width W = length x /\ length y = length (rows W).
Proof.
  unfold g, Checkpoint.dot. destruct (decide _) as [Hw|]; [|done].
  cbn. intros [= <-]. by rewrite !length_fmap.
Qed.

Lemma g_is_Some (W : array2 R) (x : list R) :
  width W = length x -> is_Some (g inner sin W x).
Proof.
  intros Hw. unfold g, Checkpoint.dot. rewrite decide_True by done. by eexists.
Qed.

(** X15: [f(W1, W2, W3, x)] returns exactly when the shapes chain: the
    rows of [W1] are as long as [x], and the rows of each further
    matrix are as many as the matrix before has rows.  It returns one
    number per row of [W3]. *)
Theorem f_shapes_chain (W1 W2 W3 : array2 R) (x : list R) :
  (is_Some (f inner sin W1 W2 W3 x) <->
   width W1 = length x /\ width W2 = length (rows W1) /\
   width W3 = length (rows W2)) /\
  (forall y, f inner sin W1 W2 W3 x = Some y ->
             length y = length (rows W3)).
Proof.
  unfold f. split; [split|].
  - intros [y Hy].
    destruct (g inner sin W1 x) as [x1|] eqn:H1; [|done].
    cbn in Hy. destruct (g inner sin W2 x1) as [x2|] eqn:H2; [|done].
    cbn in Hy. destruct (g inner sin W3 x2) as [x3|] eqn:H3; [|done].
    apply g_Some in H1 as [? E1], H2 as [? E2], H3 as [? E3].
    repeat split; congruence.
  - intros (H1 & H2 & H3).
    destruct (g_is_Some W1 x H1) as [x1 E1]. rewrite E1. cbn.
    apply g_Some in E1 as [_ E1].
    destruct (g_is_Some W2 x1) as [x2 E2]; [congruence|]. rewrite E2. cbn.
    apply g_Some in E2 as [_ E2].
    destruct (g_is_Some W3 x2) as [x3 E3]; [congruence|]. rewrite E3. by eexists.
  - intros y Hy.
    destruct (g inner sin W1 x) as [x1|]; [|done].
    cbn in Hy. destruct (g inner sin W2 x1) as [x2|]; [|done].
    cbn in Hy. destruct (g inner sin W3 x2) as [x3|] eqn:H3; [|done].
    cbn in Hy. injection Hy as <-. by apply g_Some in H3 as [_ ?].
Qed.

End CheckpointFacts.

(** * The perceptron: the shapes of its parameters, and when it runs *)

Section MLPFacts.
Context {R G : Type} (one : R) (add mul : R -> R -> R).
Context (inner : list R -> list R -> R).
Context (relu : R -> R) (sqrt_2_over : nat -> R) (draw : G -> R * G).
Import MLP.

Lemma draws_length (n : nat) (rng : G) : length (draws draw n rng).1 = n.
Proof.
  revert rng. induction n as [|n IH]; intros rng; cbn; [done|].
  destruct (draw rng) as [a rng1]. specialize (IH rng1).
  destruct (draws draw n rng1) as [l rng2]. cbn in *. by rewrite IH.
Qed.

Lemma draw_rows_shape (n m : nat) (rng : G) :
  length (draw_rows draw n m rng).1 = n /\
  Forall (fun r => length r = m) (draw_rows draw n m rng).1.
Proof.
  revert rng. induction n as [|n IH]; intros rng; cbn; [done|].
  pose proof (draws_length m rng) as Hr.
  destruct (draws draw m rng) as [r rng1]. specialize (IH rng1).
  destruct (draw_rows draw n m rng1) as [rs rng2]. cbn in *.
  destruct IH as [IH1 IH2]. split; [by rewrite IH1|by constructor].
Qed.

Lemma init_layers_fits (pairs : list (nat * nat)) (rng rng' : G)
    (params : list (layer R)) :
  init_layers one mul sqrt_2_over draw pairs rng = Some (params, rng') ->
  Forall2 fits params pairs.
Proof.
  revert rng params. induction pairs as [|[n_in n_out] pairs IH]; intros rng params.
  - intros [= <- _]. constructor.
  - cbn [init_layers]. unfold normal.
    pose proof (draw_rows_shape n_in n_out rng) as [Hlen Hrows].
    destruct (draw_rows draw n_in n_out rng) as [rs rng1]. cbn in Hlen, Hrows.
    destruct (decide (n_in = 0)); [done|].
    destruct (init_layers one mul sqrt_2_over draw pairs rng1) as [[ps rng2]|] eqn:Hrest;
      [|done].
    cbn. intros [= <- <-]. constructor; [|by eapply IH].
    unfold fits, shape, well_shaped, scale, ones; cbn. repeat split.
    + by rewrite length_fmap, Hlen.
    + apply Forall_fmap. eapply Forall_impl; [exact Hrows|].
      intros r Hr. cbn. by rewrite length_fmap.
    + by rewrite length_replicate.
Qed.

Lemma init_layers_None (pairs : list (nat * nat)) (rng : G) :
  init_layers one mul sqrt_2_over draw pairs rng = None <-> 0 ∈ pairs.*1.
Proof.
  revert rng. induction pairs as [|[n_in n_out] pairs IH]; intros rng.
  - cbn. split; [done|]. intros H. by apply elem_of_nil in H.
  - cbn [init_layers fmap list_fmap fst]. rewrite elem_of_cons.
    destruct (normal draw n_in n_out rng) as [a rng1].
    destruct (decide (n_in = 0)) as [->|Hne]; [by split; [left|]|].
    rewrite <-(IH rng1).
    destruct (init_layers one mul sqrt_2_over draw pairs rng1) as [[ps rng2]|]; cbn.
    + split; [done|]. intros [?|?]; [lia|done].
    + split; [by right|done].
Qed.

Lemma pairs_fst (ws : list nat) :
  (zip (take (length ws - 1) ws) (drop 1 ws)).*1 = take (length ws - 1) ws.
Proof. apply fst_zip. rewrite length_take, length_drop. lia. Qed.

Lemma pairs_snd (ws : list nat) :
  (zip (take (length ws - 1) ws) (drop 1 ws)).*2 = drop 1 ws.
Proof. apply snd_zip. rewrite length_take, length_drop. lia. Qed.

Lemma fits_shapes (params : list (layer R)) (pairs : list (nat * nat)) :
  Forall2 fits params pairs ->
  length params = length pairs /\
  (fun l => shape (weights l)) <$> params = pairs /\
  (fun l => length (bias l)) <$> params = pairs.*2 /\
  Forall (fun l => well_shaped (weights l)) params.
Proof.
  induction 1 as [|l p ps qs (Hs & Hw & Hb) _ (IH1 & IH2 & IH3 & IH4)]; [done|].
  cbn. rewrite IH1, IH2, IH3, Hs, Hb. repeat split. by constructor.
Qed.

(** X16: the shapes of the parameters.  When [init_mlp_params] returns,
    it returns one layer per pair of neighbouring widths: the weights
    of layer [i] have the shape [(layer_widths[i], layer_widths[i+1])]
    and its bias has [layer_widths[i+1]] elements. *)
Theorem init_mlp_params_shapes (layer_widths : list nat) (rng rng' : G)
    (params : list (layer R)) :
  init_mlp_params one mul sqrt_2_over draw layer_widths rng = Some (params, rng') ->
  length params = length layer_widths - 1 /\
  (fun l => shape (weights l)) <$> params =
    zip (take (length layer_widths - 1) layer_widths) (drop 1 layer_widths) /\
  (fun l => length (bias l)) <$> params = drop 1 layer_widths /\
  Forall (fun l => well_shaped (weights l)) params.
Proof.
  intros Hinit. apply init_layers_fits, fits_shapes in Hinit.
  destruct Hinit as (H1 & H2 & H3 & H4).
  rewrite pairs_snd in H3. repeat split; [|done..].
  rewrite H1, length_zip, length_take, length_drop. lia.
Qed.

(** X17: [init_mlp_params] raises exactly when a width other than the
    last is zero: the scale [np.sqrt(2/n_in)] divides by it. *)
Theorem init_mlp_params_raises (layer_widths : list nat) (rng : G) :
  init_mlp_params one mul sqrt_2_over draw layer_widths rng = None <->
  0 ∈ take (length layer_widths - 1) layer_widths.
Proof.
  unfold init_mlp_params. by rewrite init_layers_None, pairs_fst.
Qed.

Lemma forward_singleton (l : layer R) (x : array2 R) :
  forward add inner relu [l] x =
  matmul inner x (weights l) ≫= (fun a => add_bias add a (bias l)).
Proof. done. Qed.

Lemma forward_cons (l l' : layer R) (ps : list (layer R)) (x : array2 R) :
  forward add inner relu (l :: l' :: ps) x =
  a ← matmul inner x (weights l) ≫= (fun a => add_bias add a (bias l));
  forward add inner relu (l' :: ps) (relu_all relu a).
Proof.
  unfold forward. rewrite last_cons_cons.
  destruct (last (l' :: ps)) as [lst|] eqn:Hlast.
  - cbn [length]. rewrite !Nat.sub_succ, !Nat.sub_0_r. cbn [take hidden_layers].
    destruct (matmul inner x (weights l) ≫= _) as [a|]; [|done].
    done.
  - by apply last_None in Hlast.
Qed.

(** One layer applied to a batch. *)
Lemma layer_output (l : layer R) (p : nat * nat) (x : array2 R) (B : nat) :
  fits l p -> shape x = (B, p.1) ->
  exists a, matmul inner x (weights l) ≫= (fun a => add_bias add a (bias l))
              = Some a /\
            shape a = (B, p.2) /\ well_shaped a.
Proof.
  destruct l as [[ww W] b], p as [n_in n_out], x as [wx X].
  unfold fits, shape, well_shaped; cbn.
  intros ([= HW ->] & Hrows & Hb) [= HB ->].
  unfold matmul; cbn. rewrite decide_True by done. cbn.
  unfold add_bias; cbn. rewrite Hb, broadcast_same. cbn.
  eexists. split; [done|]. cbn. rewrite !length_fmap. split; [by rewrite HB|].
  apply Forall_fmap, Forall_fmap, Forall_forall. intros r _. cbn.
  destruct (transpose_shape W n_out Hrows) as [Hlen _].
  rewrite !stretch_id by (by rewrite ?length_fmap).
  rewrite length_zip_with, length_fmap, Hlen, Hb. lia.
Qed.

Lemma relu_all_shape (a : array2 R) :
  shape (relu_all relu a) = shape a /\
  (well_shaped a -> well_shaped (relu_all relu a)).
Proof.
  unfold shape, well_shaped, relu_all; cbn. rewrite length_fmap. split; [done|].
  intros Ha. apply Forall_fmap. eapply Forall_impl; [exact Ha|].
  intros r Hr. cbn. by rewrite length_fmap.
Qed.

(** Layers whose shapes follow the widths [n0 :: ws], run on a batch of
    inputs of width [n0]. *)
Lemma forward_fits (ws : list nat) (n0 n_last B : nat) (params : list (layer R))
    (x : array2 R) :
  ws <> [] -> last ws = Some n_last ->
  Forall2 fits params (zip (n0 :: ws) ws) ->
  shape x = (B, n0) ->
  exists out, forward add inner relu params x = Some out /\
              shape out = (B, n_last) /\ well_shaped out.
Proof.
  revert n0 params x. induction ws as [|n1 ws IH]; intros n0 params x Hne Hlast Hall Hx;
    [done|].
  cbn [zip zip_with] in Hall.
  apply Forall2_cons_inv_r in Hall as (l & params' & Hl & Hall & ->).
  destruct (layer_output l (n0, n1) x B Hl Hx) as (a & Ha & Hsa & Hwa).
  destruct ws as [|n2 ws].
  - apply Forall2_nil_inv_r in Hall as ->. injection Hlast as <-.
    rewrite forward_singleton. by exists a.
  - pose proof Hall as Hall'. cbn [zip zip_with] in Hall'.
    apply Forall2_cons_inv_r in Hall' as (l' & ps & _ & _ & ->).
    rewrite forward_cons, Ha. cbn.
    apply (IH n1); [done|by rewrite last_cons_cons in Hlast|done|].
    destruct (relu_all_shape a) as [-> _]. done.
Qed.

Lemma zip_take_l {X Y} (l : list X) (k : list Y) :
  zip (take (length k) l) k = zip l k.
Proof.
  revert k. induction l as [|a l IH]; intros [|b k]; cbn; [done..|].
  by rewrite IH.
Qed.

(** X18: the parameters [init_mlp_params] returns for at least two
    widths fit [forward]: on a batch of [B] inputs of the first width,
    [forward] returns a batch of [B] outputs of the last width. *)
Theorem forward_init_mlp_params (layer_widths : list nat) (rng rng' : G)
    (params : list (layer R)) (x : array2 R) (B n_in n_out : nat) :
  init_mlp_params one mul sqrt_2_over draw layer_widths rng = Some (params, rng') ->
  2 <= length layer_widths ->
  head layer_widths = Some n_in -> last layer_widths = Some n_out ->
  shape x = (B, n_in) ->
  exists out, forward add inner relu params x = Some out /\
              shape out = (B, n_out) /\ well_shaped out.
Proof.
  intros Hinit Hlen Hhead Hlast Hx.
  destruct layer_widths as [|n0 [|n1 ws]]; [cbn in Hlen; lia..|].
  injection Hhead as ->. rewrite last_cons_cons in Hlast.
  apply init_layers_fits in Hinit.
  replace (length (n_in :: n1 :: ws) - 1) with (length (drop 1 (n_in :: n1 :: ws)))
    in Hinit by (cbn; lia).
  rewrite zip_take_l in Hinit.
  by apply (forward_fits (n1 :: ws) n_in n_out B params x).
Qed.

(** X19: fewer than two widths give no layer (and draw nothing), and
    [forward] raises on a list without layers: it has no last one to
    unpack. *)
Theorem forward_without_layers (layer_widths : list nat) (rng : G) (x : array2 R) :
  length layer_widths <= 1 ->
  init_mlp_params one mul sqrt_2_over draw layer_widths rng = Some ([], rng) /\
  forward add inner relu [] x = None.
Proof.
  intros Hlen. split; [|done].
  by destruct layer_widths as [|n0 [|n1 ws]]; [..|cbn in Hlen; lia].
Qed.

End MLPFacts.

(** The widths [1 4 4 1] (the notebook's, with 4 in the place of 128)
    and a generator that counts its draws and always draws 0. *)
Lemma init_mlp_params_shapes_witness :
  let params :=
    (MLP.init_mlp_params 1%Z Z.mul (fun _ => 1%Z) (fun k : nat => (0%Z, S k))
       [1; 4; 4; 1] 0) in
  exists ps rng', params = Some (ps, rng') /\
    length ps = length [1; 4; 4; 1] - 1 /\
    (fun l => shape (MLP.weights l)) <$> ps =
      zip (take (length [1; 4; 4; 1] - 1) [1; 4; 4; 1]) (drop 1 [1; 4; 4; 1]) /\
    (fun l => length (MLP.bias l)) <$> ps = drop 1 [1; 4; 4; 1] /\
    Forall (fun l => well_shaped (MLP.weights l)) ps.
Proof.
  cbv zeta. eexists _, _. split; [vm_compute; reflexivity|].
  eapply (init_mlp_params_shapes 1%Z Z.mul (fun _ => 1%Z) (fun k : nat => (0%Z, S k))
            [1; 4; 4; 1] 0).
  vm_compute. reflexivity.
Defined.

(** The same parameters on a batch of three inputs, with
    [relu(v) = max(v, 0)]. *)
Lemma forward_init_mlp_params_witness :
  exists ps rng',
    MLP.init_mlp_params 1%Z Z.mul (fun _ => 1%Z) (fun k : nat => (0%Z, S k))
      [1; 4; 4; 1] 0 = Some (ps, rng') /\
    exists out,
      MLP.forward Z.add inner_Z (Z.max 0) ps (Array2 1 [[1]; [2]; [3]]%Z) = Some out /\
      shape out = (3, 1) /\ well_shaped out.
Proof.
  eexists _, _. split; [vm_compute; reflexivity|].
  eapply (forward_init_mlp_params 1%Z Z.add Z.mul inner_Z (Z.max 0) (fun _ => 1%Z)
            (fun k : nat => (0%Z, S k)) [1; 4; 4; 1] 0 _ _
            (Array2 1 [[1]; [2]; [3]]%Z) 3 1 1).
  - vm_compute. reflexivity.
  - cbn. lia.
  - reflexivity.
  - reflexivity.
  - reflexivity.
Defined.

(** One width only. *)
Lemma forward_without_layers_witness :
  MLP.init_mlp_params 1%Z Z.mul (fun _ => 1%Z) (fun k : nat => (0%Z, S k)) [1] 0 =
    Some ([], 0) /\
  MLP.forward Z.add inner_Z (Z.max 0) [] (Array2 1 [[1]; [2]; [3]]%Z) = None.
Proof.
  apply (forward_without_layers 1%Z Z.add Z.mul inner_Z (Z.max 0) (fun _ => 1%Z)
           (fun k : nat => (0%Z, S k)) [1] 0 (Array2 1 [[1]; [2]; [3]]%Z)).
  cbn. lia.
Defined.

(** * The straight-through estimator on every input *)

Section StraightThroughAll.
Variables prec emax : Z.

(** X20: [straight_through_f(x)] and [f(x)] are the same float exactly
    when [x] is NaN, or [x] is finite and [f(x)] is not [-0.0]: they
    differ at both infinities (NaN against the infinity) and wherever
    [x] rounds to [-0.0] ([+0.0] against [-0.0]). *)
Theorem straight_through_same_float (x : spec_float) :
  StraightThrough.straight_through_f prec emax x = StraightThrough.f prec emax x <->
  x = S754_nan \/
  (Float.is_finite x = true /\ StraightThrough.f prec emax x <> S754_zero true).
Proof.
  destruct (Float.is_finite x) eqn:Hfin.
  - unfold StraightThrough.straight_through_f, StraightThrough.stop_gradient.
    rewrite (sub_self prec emax x Hfin), add_zero_l.
    pose proof (round_not_nan prec emax x Hfin) as Hnan.
    unfold StraightThrough.f in *.
    destruct (Float.round prec emax x) as [[]|s| |s m e] eqn:Hr; split; try done.
    + intros [->|[_ ?]]; done.
    + intros _. right. done.
    + intros _. right. done.
    + intros _. right. done.
  - destruct x as [s|s| |s m e]; try done.
    + split; [by destruct s|]. intros [?|[? _]]; done.
    + split; [by left|done].
Qed.

End StraightThroughAll.
